(** * hahm services: a shallow embedding of [custom_components/hahm/services.py]

    The module registers six Home Assistant services, validates their
    payloads with voluptuous schemas, resolves the addressed device or entity
    through the registries of the running instance and forwards the request
    to the HomeMatic backend.

    Layout of the development:
    - Python values, exceptions and the runtime functions the module calls;
    - the effect monad of a service handler (a history of backend calls and
      a result that is either a value or a raised exception);
    - the Home Assistant objects the module reads (service registry, device
      registry, control units);
    - the schemas, [async_setup_services], [async_unload_services], the
      dispatcher and the six handlers, each following the source;
    - the properties. *)

From Stdlib Require Import ZArith String Ascii List Bool Floats DecimalString Lia.
From stdpp Require Import base option list gmap strings.

Set Warnings "-register-all".
#[local] Open Scope Z_scope.
#[local] Open Scope string_scope.
#[local] Open Scope list_scope.

(** ** Constants *)

(** services.py, lines 43-48. *)
Definition ATTR_CHANNEL : string := "channel".
Definition ATTR_DEVICE_ID : string := "device_id".
Definition ATTR_AWAY_START_TIME : string := "away_start_time".
Definition ATTR_AWAY_END_TIME : string := "away_end_time".
Definition ATTR_AWAY_SET_POINT_TEMPERATURE : string := "away_set_point_temperature".
Definition DEFAULT_CHANNEL : Z := 1.

(** services.py, lines 50-55. *)
Definition SERVICE_PUT_PARAMSET : string := "put_paramset".
Definition SERVICE_ENABLE_AWAY_MODE_BY_CALENDAR : string := "enable_away_mode_by_calendar".
Definition SERVICE_DISABLE_AWAY_MODE : string := "disable_away_mode".
Definition SERVICE_SET_DEVICE_VALUE : string := "set_device_value".
Definition SERVICE_SET_INSTALL_MODE : string := "set_install_mode".
Definition SERVICE_SET_VARIABLE_VALUE : string := "set_variable_value".

(** services.py, lines 57-63: the list [async_unload_services] walks. *)
Definition HAHM_SERVICES : list string :=
  [ SERVICE_PUT_PARAMSET;
    SERVICE_ENABLE_AWAY_MODE_BY_CALENDAR;
    SERVICE_SET_DEVICE_VALUE;
    SERVICE_SET_INSTALL_MODE;
    SERVICE_SET_VARIABLE_VALUE ].

(** The six names [async_setup_services] registers, in registration order
    (lines 149-190). *)
Definition REGISTERED_SERVICES : list string :=
  [ SERVICE_SET_VARIABLE_VALUE;
    SERVICE_ENABLE_AWAY_MODE_BY_CALENDAR;
    SERVICE_DISABLE_AWAY_MODE;
    SERVICE_SET_DEVICE_VALUE;
    SERVICE_SET_INSTALL_MODE;
    SERVICE_PUT_PARAMSET ].

(** Modelled from the spec: the constants imported from [.const]
    ([.const] is not among the sources).  The keys carry the field names of
    the action table of the specification; the domain of a Home Assistant
    integration is the name of its directory, [custom_components/hahm]. *)
Definition DOMAIN : string := "hahm".
Definition ATTR_PARAMSET : string := "paramset".
Definition ATTR_PARAMSET_KEY : string := "paramset_key".
Definition ATTR_RX_MODE : string := "rx_mode".
Definition ATTR_VALUE_TYPE : string := "value_type".

(** Keys imported from [hahomematic.const] and [homeassistant.const]. *)
Definition ATTR_ADDRESS : string := "address".
Definition ATTR_INTERFACE_ID : string := "interface_id".
Definition ATTR_NAME : string := "name".
Definition ATTR_PARAMETER : string := "parameter".
Definition ATTR_VALUE : string := "value".
Definition ATTR_ENTITY_ID : string := "entity_id".
Definition ATTR_MODE : string := "mode".
Definition ATTR_TIME : string := "time".

(** ** Python values *)

(** A naive [datetime.datetime], as [datetime.strptime] builds it. *)
Record datetime : Type := mk_datetime {
  dt_year : Z; dt_month : Z; dt_day : Z;
  dt_hour : Z; dt_minute : Z; dt_second : Z
}.

(** The values a service payload carries: what YAML or JSON decode to, and
    what the coercions of the module produce.  A [float] is a binary64
    number; a [dict] keeps its items in insertion order. *)
Inductive PyValue : Type :=
| VNone
| VBool (b : bool)
| VInt (z : Z)
| VFloat (f : float)
| VStr (s : string)
| VDateTime (d : datetime)
| VList (l : list PyValue)
| VDict (d : list (string * PyValue)).

(** The exceptions that occur: those of the Python runtime, voluptuous'
    [Invalid] family, and whatever a backend or platform call raises. *)
Inductive PyExc : Type :=
| KeyError (key : string)
| ValueError
| TypeError
| OverflowError
| RegexError
| Invalid
| MultipleInvalid
| ServiceNotFound
| Unauthorized
| BackendError (what : string).

Inductive result (A : Type) : Type :=
| Ok (a : A)
| Raise (e : PyExc).
Arguments Ok {A} a.
Arguments Raise {A} e.

Definition result_bind {A B} (r : result A) (f : A → result B) : result B :=
  match r with
  | Ok a => f a
  | Raise e => Raise e
  end.

Definition result_map {A B} (f : A → B) (r : result A) : result B :=
  result_bind r (λ a, Ok (f a)).

Definition is_ok {A} (r : result A) : bool :=
  match r with Ok _ => true | Raise _ => false end.

(** Truth value testing ([bool(v)], [if v:], [a and b]). *)
Definition py_bool (v : PyValue) : bool :=
  match v with
  | VNone => false
  | VBool b => b
  | VInt z => negb (Z.eqb z 0)
  | VFloat f => negb (PrimFloat.eqb f 0%float)
  | VStr s => negb (String.eqb s "")
  | VDateTime _ => true
  | VList l => match l with [] => false | _ => true end
  | VDict d => match d with [] => false | _ => true end
  end.

(** [v == s] for a string literal [s]: only a [str] equals a [str]. *)
Definition py_eq_str (v : PyValue) (s : string) : bool :=
  match v with
  | VStr s' => String.eqb s' s
  | _ => false
  end.

(** The one-character strings of a string, for [for c in s]. *)
Fixpoint str_chars (s : string) : list string :=
  match s with
  | EmptyString => []
  | String c s' => String c EmptyString :: str_chars s'
  end.

(** [for x in v]: the items a loop over [v] visits; a value that is not
    iterable raises [TypeError]. *)
Definition py_iter (v : PyValue) : result (list PyValue) :=
  match v with
  | VList l => Ok l
  | VStr s => Ok (VStr <$> str_chars s)
  | VDict d => Ok ((λ kv, VStr kv.1) <$> d)
  | _ => Raise TypeError
  end.

(** [d.get(k)] on the payload: [None] for a missing key. *)
Definition dict_get (d : gmap string PyValue) (k : string) : PyValue :=
  default VNone (d !! k).

(** [d.get(k, dflt)]. *)
Definition dict_get_default (d : gmap string PyValue) (k : string) (dflt : PyValue) : PyValue :=
  default dflt (d !! k).

(** [d[k]]: [KeyError] for a missing key. *)
Definition dict_item (d : gmap string PyValue) (k : string) : result PyValue :=
  match d !! k with
  | Some v => Ok v
  | None => Raise (KeyError k)
  end.

(** ** The objects of the running instance *)

(** [hahomematic.const.HmPlatform]: the entity categories (the module only
    names [CLIMATE]). *)
Inductive HmPlatform : Type :=
| BINARY_SENSOR | BUTTON | CLIMATE | COVER | LIGHT | LOCK
| NUMBER | SELECT | SENSOR | SWITCH.

(** What [isinstance] can tell about an entity object: an [IPThermostat]
    (which is a [BaseEntity]), another [BaseEntity], or neither. *)
Inductive EntityClass : Type :=
| IPThermostat
| OtherBaseEntity
| NotBaseEntity.

Definition isinstance_IPThermostat (c : EntityClass) : bool :=
  match c with IPThermostat => true | _ => false end.

Definition isinstance_BaseEntity (c : EntityClass) : bool :=
  match c with NotBaseEntity => false | _ => true end.

Record HmEntity : Type := mk_entity {
  entity_class : EntityClass;
  entity_name : string;
  entity_platform : HmPlatform
}.

Record HaHub : Type := mk_hub {
  hub_entity_id : string
}.

(** An interface client of a central unit; as an object it is truthy. *)
Record Client : Type := mk_client {
  client_interface_id : string
}.

Record CentralUnit : Type := mk_central {
  clients : gmap string Client
}.

(** A control unit, by what the module asks of it: its central unit, its hub
    (possibly [None]) and the two entity queries. *)
Record ControlUnit : Type := mk_control_unit {
  central : CentralUnit;
  hub : option HaHub;
  async_get_hm_entity : PyValue → option HmEntity;
  async_get_hm_entities_by_platform : HmPlatform → list HmEntity
}.

(** A device registry entry; [identifiers] is a set of pairs of strings. *)
Record DeviceEntry : Type := mk_device_entry {
  identifiers : gset (string * string)
}.

(** The service functions and schemas a registration stores. *)
Inductive ServiceFunc : Type :=
| hahm_service_func
| admin_service_func.

Inductive SchemaName : Type :=
| SET_VARIABLE_VALUE_SCHEMA
| ENABLE_AWAY_MODE_BY_CALENDAR_SCHEMA
| DISABLE_AWAY_MODE_SCHEMA
| SET_INSTALL_MODE_SCHEMA
| SET_DEVICE_VALUE_SCHEMA
| PUT_PARAMSET_SCHEMA.

Record Service : Type := mk_service {
  service_func : ServiceFunc;
  service_schema : SchemaName
}.

(** [hass]: the service registry ([hass.services], domain to service name to
    registration), the control units [hass.data[DOMAIN]] in the insertion
    order of the dict (entry id, control unit), and the device registry. *)
Record HomeAssistant : Type := mk_hass {
  services : gmap string (gmap string Service);
  hass_data : list (string * ControlUnit);
  device_registry : gmap string DeviceEntry
}.

(** A service call: the service name, the payload and the calling user. *)
Record ServiceCall : Type := mk_call {
  service : string;
  data : gmap string PyValue;
  context_user_id : option string
}.

(** ** Effects *)

(** What a handler does besides computing: the awaited backend operations,
    the debug log lines and the suspension between two away-mode calls. *)
Inductive Event : Type :=
| set_value (cu : ControlUnit) (interface_id channel_address : string)
    (parameter value rx_mode : PyValue)
| put_paramset (cu : ControlUnit) (interface_id channel_address : string)
    (paramset value rx_mode : PyValue)
| set_install_mode (cu : ControlUnit) (interface_id t mode device_address : PyValue)
| async_set_variable (h : HaHub) (name value : PyValue)
| enable_away_mode_by_calendar (entity : HmEntity) (start end_ away_temperature : PyValue)
| disable_away_mode (entity : HmEntity)
| asyncio_sleep (seconds : Z)
| LOGGER_debug (msg : string) (args : list PyValue).

(** The backend operations among the events. *)
Definition is_backend_call (e : Event) : bool :=
  match e with
  | asyncio_sleep _ | LOGGER_debug _ _ => false
  | _ => true
  end.

(** ** What lies outside the module

    The functions of the Python runtime and of the libraries that the module
    calls, the helper of the integration that is not among the sources, and
    the behaviour of the backend.  The handlers are written against this
    interface, so what is proved of them holds for every implementation. *)
Class Platform : Type := {
  (** [int(v)], [float(v)], [str(v)], [format(v, "")], [dict(v)], [s.upper()] *)
  py_int : PyValue → result Z;
  py_float : PyValue → result float;
  py_str : PyValue → string;
  py_format : PyValue → string;
  py_dict : PyValue → result (list (string * PyValue));
  str_upper : string → string;
  (** [datetime.strptime(v, fmt)] *)
  strptime : PyValue → string → result datetime;
  (** [cv.string], [cv.datetime] and [comp_entity_ids] of
      [homeassistant.helpers.config_validation] *)
  cv_string : PyValue → result string;
  cv_datetime : PyValue → result datetime;
  comp_entity_ids : PyValue → result PyValue;
  (** [.helpers.get_device_address_at_interface_from_identifiers]: the pair
      (device address, interface id) of a registry entry, or [None] *)
  get_device_address_at_interface_from_identifiers :
    gset (string * string) → option (string * string);
  (** whether a backend operation raises, given the history before it *)
  backend_raises : list Event → Event → option PyExc;
  (** the permission checks of [verify_domain_control] and of
      [async_register_admin_service] *)
  domain_control_denied : ServiceCall → option PyExc;
  admin_denied : ServiceCall → option PyExc
}.

(** A handler is a coroutine that is awaited to its end: it extends the
    history of events and returns or raises. *)
Definition M (A : Type) : Type := list Event → list Event * result A.

Definition ret {A} (a : A) : M A := λ h, (h, Ok a).

Definition raise {A} (e : PyExc) : M A := λ h, (h, Raise e).

Definition bind {A B} (m : M A) (f : A → M B) : M B :=
  λ h, match m h with
       | (h', Ok a) => f a h'
       | (h', Raise e) => (h', Raise e)
       end.

#[global] Instance M_ret : MRet M := @ret.
#[global] Instance M_bind : MBind M := λ A B f m, bind m f.

(** A pure computation that may raise, run inside a handler. *)
Definition lift {A} (r : result A) : M A :=
  match r with
  | Ok a => ret a
  | Raise e => raise e
  end.

(** An event that cannot fail (a log line, a sleep). *)
Definition emit (e : Event) : M unit := λ h, (h ++ [e], Ok tt).

(** An awaited backend operation: it is recorded, and it raises when the
    backend says so. *)
Definition await_backend `{Platform} (e : Event) : M unit :=
  λ h, match backend_raises h e with
       | Some exc => (h ++ [e], Raise exc)
       | None => (h ++ [e], Ok tt)
       end.

(** [for x in l: body(x)] *)
Fixpoint for_each {A} (l : list A) (body : A → M unit) : M unit :=
  match l with
  | [] => ret tt
  | x :: l' => body x ;; for_each l' body
  end.

(** ** The service registry of the platform ([hass.services]) *)

Definition dict_is_empty {V} (m : gmap string V) : bool :=
  match map_to_list m with [] => true | _ => false end.

(** [hass.services.async_register(domain, service, service_func, schema)]:
    the registration replaces an earlier one of the same name. *)
Definition async_register (domain service : string) (service_func : ServiceFunc)
    (schema : SchemaName) (hass : HomeAssistant) : HomeAssistant :=
  let registered := default ∅ (services hass !! domain) in
  mk_hass
    (<[domain := <[service := mk_service service_func schema]> registered]> (services hass))
    (hass_data hass) (device_registry hass).

(** [async_register_admin_service(hass, domain, service, service_func, schema)]
    registers the function behind the administrator check. *)
Definition async_register_admin_service (domain service : string)
    (schema : SchemaName) (hass : HomeAssistant) : HomeAssistant :=
  async_register domain service admin_service_func schema hass.

(** [hass.services.async_remove(domain, service)]: an unknown service is left
    alone (the platform logs a warning); a domain that loses its last service
    is dropped. *)
Definition async_remove (domain service_name : string) (hass : HomeAssistant) : HomeAssistant :=
  match services hass !! domain with
  | None => hass
  | Some registered =>
      match registered !! service_name with
      | None => hass
      | Some _ =>
          let remaining := delete service_name registered in
          mk_hass
            (if dict_is_empty remaining then delete domain (services hass)
             else <[domain := remaining]> (services hass))
            (hass_data hass) (device_registry hass)
      end
  end.

(** [hass.services.has_service(domain, service)]. *)
Definition has_service (hass : HomeAssistant) (domain service_name : string) : bool :=
  match services hass !! domain with
  | Some registered => bool_decide (is_Some (registered !! service_name))
  | None => false
  end.

(** The truth value of [hass.services.async_services().get(DOMAIN)]: the
    domain has a non-empty dict of services. *)
Definition domain_services_registered (hass : HomeAssistant) : bool :=
  match services hass !! DOMAIN with
  | Some registered => negb (dict_is_empty registered)
  | None => false
  end.

(** ** Setup and teardown *)

(** [async_setup_services], lines 123-190.  The closure
    [async_call_hahm_service] is the registered function [hahm_service_func];
    its body is [async_call_hahm_service] below. *)
Definition async_setup_services (hass : HomeAssistant) : HomeAssistant :=
  if domain_services_registered hass then hass
  else
    let hass := async_register DOMAIN SERVICE_SET_VARIABLE_VALUE hahm_service_func
                  SET_VARIABLE_VALUE_SCHEMA hass in
    let hass := async_register DOMAIN SERVICE_ENABLE_AWAY_MODE_BY_CALENDAR hahm_service_func
                  ENABLE_AWAY_MODE_BY_CALENDAR_SCHEMA hass in
    let hass := async_register DOMAIN SERVICE_DISABLE_AWAY_MODE hahm_service_func
                  DISABLE_AWAY_MODE_SCHEMA hass in
    let hass := async_register DOMAIN SERVICE_SET_DEVICE_VALUE hahm_service_func
                  SET_DEVICE_VALUE_SCHEMA hass in
    let hass := async_register_admin_service DOMAIN SERVICE_SET_INSTALL_MODE
                  SET_INSTALL_MODE_SCHEMA hass in
    async_register DOMAIN SERVICE_PUT_PARAMSET hahm_service_func PUT_PARAMSET_SCHEMA hass.

(** [async_unload_services], lines 193-199: nothing happens while a control
    unit is left in [hass.data[DOMAIN]]; otherwise the names of
    [HAHM_SERVICES] are removed one after the other. *)
Definition async_unload_services (hass : HomeAssistant) : HomeAssistant :=
  match hass_data hass with
  | _ :: _ => hass
  | [] => foldl (λ hass hahm_service, async_remove DOMAIN hahm_service hass) hass HAHM_SERVICES
  end.

(** ** Schemas (voluptuous) *)

(** A key of a mapping schema: [vol.Required(key)] or [vol.Optional(key)],
    possibly with a default. *)
Record Marker : Type := mk_marker {
  marker_required : bool;
  marker_key : string;
  marker_default : option PyValue
}.

Definition Required (key : string) : Marker := mk_marker true key None.
Definition Required_default (key : string) (dflt : PyValue) : Marker :=
  mk_marker true key (Some dflt).
Definition Optional (key : string) : Marker := mk_marker false key None.
Definition Optional_default (key : string) (dflt : PyValue) : Marker :=
  mk_marker false key (Some dflt).

Definition Validator : Type := PyValue → result PyValue.
Definition Schema : Type := list (Marker * Validator).

(** [vol.All(v1, v2)]: the validators in sequence. *)
Definition vol_All {A B C} (v1 : A → result B) (v2 : B → result C) : A → result C :=
  λ x, result_bind (v1 x) v2.

(** [vol.Coerce(type)]: a [ValueError] or [TypeError] of the conversion
    becomes [Invalid]; any other exception passes through. *)
Definition vol_Coerce {A} (type : PyValue → result A) : PyValue → result A :=
  λ v, match type v with
       | Ok a => Ok a
       | Raise ValueError | Raise TypeError => Raise Invalid
       | Raise e => Raise e
       end.

(** [vol.Range(min=lo, max=hi)] on a float: [Invalid] unless
    [v >= lo] and [v <= hi] (a NaN fails both). *)
Definition vol_Range (lo hi : float) : float → result float :=
  λ v, if negb (PrimFloat.leb lo v) then Raise Invalid
       else if negb (PrimFloat.leb v hi) then Raise Invalid
       else Ok v.

(** [vol.Range(min=lo)] on an integer. *)
Definition vol_Range_min (lo : Z) : Z → result Z :=
  λ v, if negb (Z.leb lo v) then Raise Invalid else Ok v.

(** [vol.In(container)] on an integer and on an arbitrary value compared
    with strings. *)
Definition vol_In_int (container : list Z) : Z → result Z :=
  λ v, if existsb (Z.eqb v) container then Ok v else Raise Invalid.

Definition vol_In_str (container : list string) : Validator :=
  λ v, if existsb (py_eq_str v) container then Ok v else Raise Invalid.

(** [vol.Upper] *)
Definition vol_Upper `{Platform} : string → result string :=
  λ s, Ok (str_upper s).

(** [cv.match_all] *)
Definition cv_match_all : Validator := λ v, Ok v.

(** [cv.positive_int] is [vol.All(vol.Coerce(int), vol.Range(min=0))]. *)
Definition cv_positive_int `{Platform} : PyValue → result Z :=
  vol_All (vol_Coerce py_int) (vol_Range_min 0).

(** [dict] as a schema: the value has to be a dict. *)
Definition vol_dict : Validator :=
  λ v, match v with VDict _ => Ok v | _ => Raise Invalid end.

(** The value of a typed validator, as a payload value again. *)
Definition returning {A} (inj : A → PyValue) (v : PyValue → result A) : Validator :=
  λ x, result_map inj (v x).

(** The defaults of the schema are inserted for the keys the payload lacks. *)
Definition insert_defaults (schema : Schema) (d : gmap string PyValue) : gmap string PyValue :=
  foldr (λ entry acc,
           match marker_default entry.1, acc !! marker_key entry.1 with
           | Some dflt, None => <[marker_key entry.1 := dflt]> acc
           | _, _ => acc
           end) d schema.

Definition schema_keys (schema : Schema) : list string :=
  (λ entry, marker_key entry.1) <$> schema.

(** A key of the payload the schema does not know ("extra keys not
    allowed"). *)
Definition has_extra_keys (schema : Schema) (d : gmap string PyValue) : bool :=
  existsb (λ kv, negb (existsb (String.eqb kv.1) (schema_keys schema))) (map_to_list d).

(** A required key that is still missing ("required key not provided"). *)
Definition missing_required (schema : Schema) (d : gmap string PyValue) : bool :=
  existsb (λ entry, marker_required entry.1 && negb (bool_decide (is_Some (d !! marker_key entry.1))))
          schema.

(** The values of the known keys are validated.  The [Invalid] errors are
    collected (the flag says whether there was one); an exception of another
    kind escapes at once. *)
Fixpoint validate_values (schema : Schema) (d : gmap string PyValue)
    : result (gmap string PyValue * bool) :=
  match schema with
  | [] => Ok (∅, false)
  | (marker, validator) :: schema' =>
      match d !! marker_key marker with
      | None => validate_values schema' d
      | Some v =>
          match validator v with
          | Ok v' =>
              result_map (λ r, (<[marker_key marker := v']> r.1, r.2)) (validate_values schema' d)
          | Raise Invalid | Raise MultipleInvalid =>
              result_map (λ r, (r.1, true)) (validate_values schema' d)
          | Raise e => Raise e
          end
      end
  end.

(** [vol.Schema({...})(d)]: the validated payload, or [MultipleInvalid] when
    anything was wrong. *)
Definition vol_Schema (schema : Schema) (d : gmap string PyValue) : result (gmap string PyValue) :=
  let provided := insert_defaults schema d in
  result_bind (validate_values schema provided) (λ r,
    if r.2 || has_extra_keys schema provided || missing_required schema provided
    then Raise MultipleInvalid
    else Ok r.1).

Section Schemas.
Context `{Platform}.

(** lines 65-71 *)
Definition SCHEMA_SERVICE_SET_VARIABLE_VALUE : Schema :=
  [ (Required ATTR_ENTITY_ID, comp_entity_ids);
    (Required ATTR_NAME, returning VStr cv_string);
    (Required ATTR_VALUE, cv_match_all) ].

(** lines 73-82 *)
Definition SCHEMA_SERVICE_ENABLE_AWAY_MODE_BY_CALENDAR : Schema :=
  [ (Required ATTR_ENTITY_ID, comp_entity_ids);
    (Required ATTR_AWAY_START_TIME, returning VDateTime cv_datetime);
    (Required ATTR_AWAY_END_TIME, returning VDateTime cv_datetime);
    (Required_default ATTR_AWAY_SET_POINT_TEMPERATURE (VFloat 18.0),
     returning VFloat (vol_All (vol_Coerce py_float) (vol_Range 4.5 30.5))) ].

(** lines 84-88 *)
Definition SCHEMA_SERVICE_DISABLE_AWAY_MODE : Schema :=
  [ (Required ATTR_ENTITY_ID, comp_entity_ids) ].

(** lines 90-97 *)
Definition SCHEMA_SERVICE_SET_INSTALL_MODE : Schema :=
  [ (Required ATTR_INTERFACE_ID, returning VStr cv_string);
    (Optional_default ATTR_TIME (VInt 60), returning VInt cv_positive_int);
    (Optional_default ATTR_MODE (VInt 1),
     returning VInt (vol_All (vol_Coerce py_int) (vol_In_int [1; 2])));
    (Optional ATTR_ADDRESS, returning VStr (vol_All cv_string vol_Upper)) ].

(** lines 99-110 *)
Definition SCHEMA_SERVICE_SET_DEVICE_VALUE : Schema :=
  [ (Required ATTR_DEVICE_ID, returning VStr cv_string);
    (Required_default ATTR_CHANNEL (VInt DEFAULT_CHANNEL), returning VInt (vol_Coerce py_int));
    (Required ATTR_PARAMETER, returning VStr (vol_All cv_string vol_Upper));
    (Required ATTR_VALUE, cv_match_all);
    (Optional ATTR_VALUE_TYPE,
     vol_In_str ["boolean"; "dateTime.iso8601"; "double"; "int"; "string"]);
    (Optional ATTR_RX_MODE, returning VStr (vol_All cv_string vol_Upper)) ].

(** lines 112-120 *)
Definition SCHEMA_SERVICE_PUT_PARAMSET : Schema :=
  [ (Required ATTR_DEVICE_ID, returning VStr cv_string);
    (Required_default ATTR_CHANNEL (VInt DEFAULT_CHANNEL), returning VInt (vol_Coerce py_int));
    (Required ATTR_PARAMSET_KEY, returning VStr (vol_All cv_string vol_Upper));
    (Required ATTR_PARAMSET, vol_dict);
    (Optional ATTR_RX_MODE, returning VStr (vol_All cv_string vol_Upper)) ].

Definition schema_of (name : SchemaName) : Schema :=
  match name with
  | SET_VARIABLE_VALUE_SCHEMA => SCHEMA_SERVICE_SET_VARIABLE_VALUE
  | ENABLE_AWAY_MODE_BY_CALENDAR_SCHEMA => SCHEMA_SERVICE_ENABLE_AWAY_MODE_BY_CALENDAR
  | DISABLE_AWAY_MODE_SCHEMA => SCHEMA_SERVICE_DISABLE_AWAY_MODE
  | SET_INSTALL_MODE_SCHEMA => SCHEMA_SERVICE_SET_INSTALL_MODE
  | SET_DEVICE_VALUE_SCHEMA => SCHEMA_SERVICE_SET_DEVICE_VALUE
  | PUT_PARAMSET_SCHEMA => SCHEMA_SERVICE_PUT_PARAMSET
  end.
End Schemas.

(** ** Lookups *)

(** [d.get(k)] on a dict with string keys, for an arbitrary key object: a
    list or a dict is unhashable ([TypeError]); a key that is not a string
    equals no key of the dict. *)
Definition str_dict_get {V} (d : gmap string V) (k : PyValue) : result (option V) :=
  match k with
  | VStr s => Ok (d !! s)
  | VList _ | VDict _ => Raise TypeError
  | _ => Ok None
  end.

Section Lookups.
Context `{Platform}.

(** [_get_interface_channel_address], lines 395-414. *)
Definition _get_interface_channel_address (hass : HomeAssistant)
    (device_id channel : PyValue) : result (option (string * string)) :=
  result_bind (str_dict_get (device_registry hass) device_id) (λ device_entry,
    match device_entry with
    | None => Ok None
    | Some device_entry =>
        match get_device_address_at_interface_from_identifiers (identifiers device_entry) with
        | None => Ok None
        | Some data =>
            let device_address := data.1 in
            let interface_id := data.2 in
            let channel_address := device_address +:+ ":" +:+ py_format channel in
            Ok (Some (interface_id, channel_address))
        end
    end).

(** [_get_entity], lines 417-424: the first control unit that knows the
    entity id as a [BaseEntity]. *)
Fixpoint _get_entity_in (control_units : list (string * ControlUnit))
    (entity_id : PyValue) : option HmEntity :=
  match control_units with
  | [] => None
  | (_, control_unit) :: rest =>
      match async_get_hm_entity control_unit entity_id with
      | Some hm_entity =>
          if isinstance_BaseEntity (entity_class hm_entity) then Some hm_entity
          else _get_entity_in rest entity_id
      | None => _get_entity_in rest entity_id
      end
  end.

Definition _get_entity (hass : HomeAssistant) (entity_id : PyValue) : option HmEntity :=
  _get_entity_in (hass_data hass) entity_id.

(** [_get_entities_by_platform], lines 427-437. *)
Definition _get_entities_by_platform (hass : HomeAssistant) (platform : HmPlatform)
    : list HmEntity :=
  foldl (λ hm_entities entry,
           hm_entities ++ async_get_hm_entities_by_platform entry.2 platform)
        [] (hass_data hass).

(** [_get_cu_by_interface_id], lines 451-461: the first control unit whose
    central unit has a client for the interface id. *)
Fixpoint _get_cu_by_interface_id_in (control_units : list (string * ControlUnit))
    (interface_id : PyValue) : result (option ControlUnit) :=
  match control_units with
  | [] => Ok None
  | (_, control_unit) :: rest =>
      result_bind (str_dict_get (clients (central control_unit)) interface_id) (λ client,
        match client with
        | Some _ => Ok (Some control_unit)
        | None => _get_cu_by_interface_id_in rest interface_id
        end)
  end.

Definition _get_cu_by_interface_id (hass : HomeAssistant) (interface_id : PyValue)
    : result (option ControlUnit) :=
  _get_cu_by_interface_id_in (hass_data hass) interface_id.

(** [_get_hub_by_entity_id], lines 464-476. *)
Fixpoint _get_hub_by_entity_id_in (control_units : list (string * ControlUnit))
    (entity_id : PyValue) : option HaHub :=
  match control_units with
  | [] => None
  | (_, control_unit) :: rest =>
      match hub control_unit with
      | Some h =>
          if py_eq_str entity_id (hub_entity_id h) then Some h
          else _get_hub_by_entity_id_in rest entity_id
      | None => _get_hub_by_entity_id_in rest entity_id
      end
  end.

Definition _get_hub_by_entity_id (hass : HomeAssistant) (entity_id : PyValue) : option HaHub :=
  _get_hub_by_entity_id_in (hass_data hass) entity_id.
End Lookups.

(** ** The handlers *)

Section Handlers.
Context `{Platform}.

(** [service.data[key]] inside a handler. *)
Definition item (call : ServiceCall) (key : string) : M PyValue :=
  lift (dict_item (data call) key).

(** [_async_service_set_variable_value], lines 202-211. *)
Definition _async_service_set_variable_value (hass : HomeAssistant) (call : ServiceCall)
    : M unit :=
  entity_id ← item call ATTR_ENTITY_ID;
  name ← item call ATTR_NAME;
  value ← item call ATTR_VALUE;
  match _get_hub_by_entity_id hass entity_id with
  | Some h => await_backend (async_set_variable h name value)
  | None => ret tt
  end.

(** The conversion of the value to its XML-RPC type, lines 226-237. *)
Definition coerce_value (value_type value : PyValue) : result PyValue :=
  if py_bool value_type then
    if py_eq_str value_type "int" then result_map VInt (py_int value)
    else if py_eq_str value_type "double" then result_map VFloat (py_float value)
    else if py_eq_str value_type "boolean" then Ok (VBool (py_bool value))
    else if py_eq_str value_type "dateTime.iso8601" then
      result_map VDateTime (strptime value "%Y%m%dT%H:%M:%S")
    else Ok (VStr (py_str value))
  else Ok value.

(** [_async_service_set_device_value], lines 214-269. *)
Definition _async_service_set_device_value (hass : HomeAssistant) (call : ServiceCall)
    : M unit :=
  device_id ← item call ATTR_DEVICE_ID;
  channel ← item call ATTR_CHANNEL;
  parameter ← item call ATTR_PARAMETER;
  value ← item call ATTR_VALUE;
  let rx_mode := dict_get (data call) ATTR_RX_MODE in
  let value_type := dict_get (data call) ATTR_VALUE_TYPE in
  value ← lift (coerce_value value_type value);
  address_data ← lift (_get_interface_channel_address hass device_id channel);
  match address_data with
  | None => ret tt
  | Some address_data =>
      let interface_id := address_data.1 in
      let channel_address := address_data.2 in
      emit (LOGGER_debug "Calling setValue: %s, %s, %s, %s, %s, %s"
              [VStr interface_id; VStr channel_address; parameter; value; value_type; rx_mode]) ;;
      if py_bool (VStr interface_id) && py_bool (VStr channel_address) then
        control_unit ← lift (_get_cu_by_interface_id hass (VStr interface_id));
        match control_unit with
        | Some control_unit =>
            await_backend (set_value control_unit interface_id channel_address
                             parameter value rx_mode)
        | None => ret tt
        end
      else ret tt
  end.

(** The inner coroutine [_enable_away_mode_by_calendar], lines 281-296. *)
Definition _enable_away_mode_by_calendar (start end_ away_temperature : PyValue)
    (entity : HmEntity) : M unit :=
  if negb (isinstance_IPThermostat (entity_class entity)) then ret tt
  else
    await_backend (enable_away_mode_by_calendar entity start end_ away_temperature) ;;
    emit (LOGGER_debug "Calling enable_away_mode_by_calendar: %s, %s, %s, %s"
            [VStr (entity_name entity); start; end_; away_temperature]) ;;
    emit (asyncio_sleep 1).

(** The two ways of choosing the targets of an away-mode service, lines
    298-305 and 325-332: the literal ["all"], or the entity ids one by
    one. *)
Definition for_entities (hass : HomeAssistant) (entity_ids : PyValue)
    (body : HmEntity → M unit) : M unit :=
  if py_eq_str entity_ids "all" then
    let hm_entities := _get_entities_by_platform hass CLIMATE in
    for_each hm_entities body
  else
    ids ← lift (py_iter entity_ids);
    for_each ids (λ entity_id,
      match _get_entity hass entity_id with
      | Some hm_entity => body hm_entity
      | None => ret tt
      end).

(** [_async_service_enable_away_mode_by_calendar], lines 272-305. *)
Definition _async_service_enable_away_mode_by_calendar (hass : HomeAssistant)
    (call : ServiceCall) : M unit :=
  entity_ids ← item call ATTR_ENTITY_ID;
  start ← item call ATTR_AWAY_START_TIME;
  end_ ← item call ATTR_AWAY_END_TIME;
  away_temperature ← item call ATTR_AWAY_SET_POINT_TEMPERATURE;
  for_entities hass entity_ids (_enable_away_mode_by_calendar start end_ away_temperature).

(** The inner coroutine [_disable_away_mode], lines 314-323. *)
Definition _disable_away_mode (entity : HmEntity) : M unit :=
  if negb (isinstance_IPThermostat (entity_class entity)) then ret tt
  else
    await_backend (disable_away_mode entity) ;;
    emit (LOGGER_debug "Calling disable_away_mode: %s" [VStr (entity_name entity)]) ;;
    emit (asyncio_sleep 1).

(** [_async_service_disable_away_mode], lines 308-332. *)
Definition _async_service_disable_away_mode (hass : HomeAssistant) (call : ServiceCall)
    : M unit :=
  entity_ids ← item call ATTR_ENTITY_ID;
  for_entities hass entity_ids _disable_away_mode.

(** [_async_service_set_install_mode], lines 335-347. *)
Definition _async_service_set_install_mode (hass : HomeAssistant) (call : ServiceCall)
    : M unit :=
  interface_id ← item call ATTR_INTERFACE_ID;
  let mode := dict_get_default (data call) ATTR_MODE (VInt 1) in
  let time := dict_get_default (data call) ATTR_TIME (VInt 60) in
  let device_address := dict_get (data call) ATTR_ADDRESS in
  control_unit ← lift (_get_cu_by_interface_id hass interface_id);
  match control_unit with
  | Some control_unit =>
      await_backend (set_install_mode control_unit interface_id time mode device_address)
  | None => ret tt
  end.

(** [_async_service_put_paramset], lines 350-392. *)
Definition _async_service_put_paramset (hass : HomeAssistant) (call : ServiceCall)
    : M unit :=
  device_id ← item call ATTR_DEVICE_ID;
  channel ← item call ATTR_CHANNEL;
  paramset_key ← item call ATTR_PARAMSET_KEY;
  paramset ← item call ATTR_PARAMSET;
  paramset ← lift (py_dict paramset);
  let rx_mode := dict_get (data call) ATTR_RX_MODE in
  address_data ← lift (_get_interface_channel_address hass device_id channel);
  match address_data with
  | None => ret tt
  | Some address_data =>
      let interface_id := address_data.1 in
      let channel_address := address_data.2 in
      emit (LOGGER_debug "Calling putParamset: %s, %s, %s, %s, %s"
              [VStr interface_id; VStr channel_address; paramset_key; VDict paramset; rx_mode]) ;;
      if py_bool (VStr interface_id) && py_bool (VStr channel_address) then
        control_unit ← lift (_get_cu_by_interface_id hass (VStr interface_id));
        match control_unit with
        | Some control_unit =>
            await_backend (put_paramset control_unit interface_id channel_address
                             paramset_key (VDict paramset) rx_mode)
        | None => ret tt
        end
      else ret tt
  end.
End Handlers.

(** ** The dispatcher *)

(** The body of [async_call_hahm_service], lines 132-147, over the six
    coroutines it may await: two [if] statements, then an [if]/[elif]
    chain. *)
Definition call_hahm_service (service_name : string)
    (put_paramset_handler enable_away_mode_handler disable_away_mode_handler
     set_install_mode_handler set_device_value_handler set_variable_value_handler : M unit)
    : M unit :=
  (if String.eqb service_name SERVICE_PUT_PARAMSET then put_paramset_handler else ret tt) ;;
  (if String.eqb service_name SERVICE_ENABLE_AWAY_MODE_BY_CALENDAR
   then enable_away_mode_handler else ret tt) ;;
  if String.eqb service_name SERVICE_DISABLE_AWAY_MODE then disable_away_mode_handler
  else if String.eqb service_name SERVICE_SET_INSTALL_MODE then set_install_mode_handler
  else if String.eqb service_name SERVICE_SET_DEVICE_VALUE then set_device_value_handler
  else if String.eqb service_name SERVICE_SET_VARIABLE_VALUE then set_variable_value_handler
  else ret tt.

Section Dispatch.
Context `{Platform}.

(** [async_call_hahm_service] with the handlers of the module. *)
Definition async_call_hahm_service (hass : HomeAssistant) (call : ServiceCall) : M unit :=
  let service_name := service call in
  call_hahm_service service_name
    (_async_service_put_paramset hass call)
    (_async_service_enable_away_mode_by_calendar hass call)
    (_async_service_disable_away_mode hass call)
    (_async_service_set_install_mode hass call)
    (_async_service_set_device_value hass call)
    (_async_service_set_variable_value hass call).

(** The decorator [verify_domain_control(hass, DOMAIN)], line 129: the
    call is refused, or the decorated function runs. *)
Definition verify_domain_control (service_handler : ServiceCall → M unit)
    (call : ServiceCall) : M unit :=
  match domain_control_denied call with
  | Some exc => raise exc
  | None => service_handler call
  end.

(** The wrapper [async_register_admin_service] puts around the function. *)
Definition admin_handler (service_handler : ServiceCall → M unit)
    (call : ServiceCall) : M unit :=
  match admin_denied call with
  | Some exc => raise exc
  | None => service_handler call
  end.

Definition run_service_func (hass : HomeAssistant) (f : ServiceFunc) : ServiceCall → M unit :=
  match f with
  | hahm_service_func => verify_domain_control (async_call_hahm_service hass)
  | admin_service_func => admin_handler (verify_domain_control (async_call_hahm_service hass))
  end.

(** [await hass.services.async_call(domain, service, data, blocking=True)]
    of the platform: the registration is looked up, its schema validates
    the payload, and the service function runs on the validated payload. *)
Definition async_call (hass : HomeAssistant) (domain : string) (call : ServiceCall) : M unit :=
  match services hass !! domain ≫= (λ registered, registered !! service call) with
  | None => raise ServiceNotFound
  | Some handler =>
      processed_data ← lift (vol_Schema (schema_of (service_schema handler)) (data call));
      run_service_func hass (service_func handler)
        (mk_call (service call) processed_data (context_user_id call))
  end.
End Dispatch.

(** ** A Python runtime for the examples

    The functions of [Platform], written out for strings of ASCII
    characters: [int] and [float] read the decimal literals of the language
    (sign, underscores between digits, fraction, exponent, [inf] and [nan])
    and round to the nearest binary64 number; [str] prints; [strptime]
    interprets the numeric directives [%Y %m %d %H %M %S] by the regular
    expressions of the library, alternatives tried in their order. *)
Module Python.

Definition code (c : ascii) : Z := Z.of_nat (nat_of_ascii c).

Definition is_digit (c : ascii) : bool := (48 <=? code c)%Z && (code c <=? 57)%Z.

(** The ASCII characters [int] and [float] strip: space, [\t \n \v \f \r]. *)
Definition is_space (c : ascii) : bool :=
  (code c =? 32)%Z || ((9 <=? code c)%Z && (code c <=? 13)%Z).

Definition digit_value (c : ascii) : Z := code c - 48.

Definition lower (c : ascii) : ascii :=
  if (65 <=? code c)%Z && (code c <=? 90)%Z then ascii_of_nat (nat_of_ascii c + 32) else c.

Definition upper (c : ascii) : ascii :=
  if (97 <=? code c)%Z && (code c <=? 122)%Z then ascii_of_nat (nat_of_ascii c - 32) else c.

Definition str_upper (s : string) : string :=
  string_of_list_ascii (upper <$> list_ascii_of_string s).

Fixpoint drop_space (s : list ascii) : list ascii :=
  match s with
  | c :: s' => if is_space c then drop_space s' else s
  | [] => []
  end.

Definition strip (s : list ascii) : list ascii :=
  rev (drop_space (rev (drop_space s))).

(** An underscore is allowed between two digits only. *)
Fixpoint underscores_ok (after_digit : bool) (s : list ascii) : bool :=
  match s with
  | [] => true
  | c :: s' =>
      if Ascii.eqb c "_" then
        after_digit && match s' with d :: _ => is_digit d | [] => false end
        && underscores_ok false s'
      else underscores_ok (is_digit c) s'
  end.

Definition remove_underscores (s : list ascii) : list ascii :=
  filter (λ c, Ascii.eqb c "_" = false) s.

(** An optional sign: whether it is a minus, and the rest. *)
Definition split_sign (s : list ascii) : bool * list ascii :=
  match s with
  | c :: s' =>
      if Ascii.eqb c "-" then (true, s')
      else if Ascii.eqb c "+" then (false, s')
      else (false, s)
  | [] => (false, [])
  end.

Fixpoint span_digits (s : list ascii) : list ascii * list ascii :=
  match s with
  | c :: s' =>
      if is_digit c then let r := span_digits s' in (c :: r.1, r.2) else ([], s)
  | [] => ([], [])
  end.

Definition digits_value (ds : list ascii) : Z :=
  foldl (λ acc c, 10 * acc + digit_value c) 0 ds.

(** [int(s)] for a string. *)
Definition int_of_str (s : string) : result Z :=
  let s := list_ascii_of_string s in
  if underscores_ok false s then
    let body := split_sign (strip (remove_underscores s)) in
    match span_digits body.2 with
    | ((_ :: _) as ds, []) =>
        Ok (if body.1 then - digits_value ds else digits_value ds)
    | _ => Raise ValueError
    end
  else Raise ValueError.

(** The binary64 number nearest to [m * 10 ^ k] (ties to even), signed. *)
Definition float_of_decimal (negative : bool) (m k : Z) : float :=
  let magnitude :=
    match m with
    | Zpos _ =>
        if (0 <=? k)%Z then binary_normalize prec emax (m * 10 ^ k) 0 false
        else
          let '(q, e, l) := SFdiv_core_binary prec emax m 0 (10 ^ (- k)) 0 in
          binary_round_aux prec emax false q e l
    | _ => S754_zero false
    end in
  SF2Prim (if negative then SFopp magnitude else magnitude).

(** A decimal literal without sign: mantissa digits and decimal exponent. *)
Definition decimal_literal (s : list ascii) : option (Z * Z) :=
  let ip := span_digits s in
  let fp := match ip.2 with
            | c :: r => if Ascii.eqb c "." then span_digits r else ([], ip.2)
            | [] => ([], [])
            end in
  match ip.1 ++ fp.1 with
  | [] => None
  | ds =>
      let m := digits_value ds in
      let k := - Z.of_nat (length fp.1) in
      match fp.2 with
      | [] => Some (m, k)
      | c :: r =>
          if Ascii.eqb (lower c) "e" then
            let ex := split_sign r in
            match span_digits ex.2 with
            | ((_ :: _) as es, []) =>
                Some (m, k + (if ex.1 then - digits_value es else digits_value es))
            | _ => None
            end
          else None
      end
  end.

(** [float(s)] for a string. *)
Definition float_of_str (s : string) : result float :=
  let s := list_ascii_of_string s in
  if underscores_ok false s then
    let body := split_sign (strip (remove_underscores s)) in
    let word := string_of_list_ascii (lower <$> body.2) in
    if String.eqb word "inf" || String.eqb word "infinity" then
      Ok (if body.1 then neg_infinity else infinity)
    else if String.eqb word "nan" then Ok nan
    else
      match decimal_literal body.2 with
      | Some (m, k) => Ok (float_of_decimal body.1 m k)
      | None => Raise ValueError
      end
  else Raise ValueError.

(** [float(z)] for an integer: the nearest number, [OverflowError] beyond
    the range. *)
Definition float_of_int (z : Z) : result float :=
  match binary_normalize prec emax z 0 false with
  | S754_infinity _ => Raise OverflowError
  | f => Ok (SF2Prim f)
  end.

(** [int(f)] for a float: truncation towards zero. *)
Definition int_of_float (f : float) : result Z :=
  match Prim2SF f with
  | S754_nan => Raise ValueError
  | S754_infinity _ => Raise OverflowError
  | S754_zero _ => Ok 0
  | S754_finite s m e =>
      let a := if (0 <=? e)%Z then Z.pos m * 2 ^ e else Z.pos m / 2 ^ (- e) in
      Ok (if s then - a else a)
  end.

Definition py_int (v : PyValue) : result Z :=
  match v with
  | VInt z => Ok z
  | VBool b => Ok (if b then 1 else 0)
  | VFloat f => int_of_float f
  | VStr s => int_of_str s
  | _ => Raise TypeError
  end.

Definition py_float (v : PyValue) : result float :=
  match v with
  | VFloat f => Ok f
  | VInt z => float_of_int z
  | VBool b => Ok (if b then 1 else 0)%float
  | VStr s => float_of_str s
  | _ => Raise TypeError
  end.

(** *** Printing *)

Definition str_of_Z (z : Z) : string := NilZero.string_of_int (Z.to_int z).

(** [z] in decimal, padded with zeros to [width] digits. *)
Definition zero_padded (width : nat) (z : Z) : string :=
  let digits := str_of_Z z in
  string_of_list_ascii (replicate (width - String.length digits) "0"%char) +:+ digits.

Fixpoint join (sep : string) (l : list string) : string :=
  match l with
  | [] => ""
  | [s] => s
  | s :: l' => s +:+ sep +:+ join sep l'
  end.

(** The number is [num / den] with positive parts. *)
Definition float_ratio (m : positive) (e : Z) : Z * Z :=
  if (0 <=? e)%Z then (Z.pos m * 2 ^ e, 1) else (Z.pos m, 2 ^ (- e)).

(** [floor (num / den / 10 ^ s)] *)
Definition scaled_floor (q : Z * Z) (s : Z) : Z :=
  if (0 <=? s)%Z then q.1 / (q.2 * 10 ^ s) else (q.1 * 10 ^ (- s)) / q.2.

(** Whether [2 * num / den] is below [a * 10 ^ s]. *)
Definition twice_below (q : Z * Z) (a s : Z) : bool :=
  if (0 <=? s)%Z then (2 * q.1 <? a * 10 ^ s * q.2)%Z
  else (2 * q.1 * 10 ^ (- s) <? a * q.2)%Z.

(** The decimal exponent [p] of the number, [10 ^ p <= num / den <
    10 ^ (p + 1)]: an estimate from the binary exponent, moved to its
    place. *)
Fixpoint adjust_scale (fuel : nat) (q : Z * Z) (p : Z) : Z :=
  match fuel with
  | O => p
  | S fuel' =>
      if (scaled_floor q p <? 1)%Z then adjust_scale fuel' q (p - 1)
      else if (10 <=? scaled_floor q p)%Z then adjust_scale fuel' q (p + 1)
      else p
  end.

Definition leading_scale (q : Z * Z) : Z :=
  adjust_scale 4 q ((Z.log2 q.1 - Z.log2 q.2) * 30103 / 100000).

(** The shortest digit string that reads back as [f], and its scale: the
    candidates with [n] digits are the two neighbours of the number; the
    nearer one that reads back is taken. *)
Fixpoint shortest_digits (fuel : nat) (n : Z) (f : float) (q : Z * Z) (p : Z) : Z * Z :=
  let s := p - n + 1 in
  let lo := scaled_floor q s in
  let hi := lo + 1 in
  let reads_back d := PrimFloat.eqb (float_of_decimal false d s) f in
  let lo_nearer := twice_below q (lo + hi) s in
  match fuel with
  | O => (lo, s)
  | S fuel' =>
      if reads_back lo && (lo_nearer || negb (reads_back hi)) then (lo, s)
      else if reads_back hi then (hi, s)
      else shortest_digits fuel' (n + 1) f q p
  end.

Fixpoint strip_zeros (fuel : nat) (d s : Z) : Z * Z :=
  match fuel with
  | O => (d, s)
  | S fuel' => if (d mod 10 =? 0)%Z then strip_zeros fuel' (d / 10) (s + 1) else (d, s)
  end.

(** [repr(f)] of a float: fixed notation while the decimal point lies
    within the digits or close to them, exponent notation otherwise. *)
Definition repr_float (f : float) : string :=
  match Prim2SF f with
  | S754_nan => "nan"
  | S754_infinity s => if s then "-inf" else "inf"
  | S754_zero s => if s then "-0.0" else "0.0"
  | S754_finite sign m e =>
      let q := float_ratio m e in
      let p := leading_scale q in
      let ds := shortest_digits 17 1 (abs f) q p in
      let ds := strip_zeros 20 ds.1 ds.2 in
      let digits := str_of_Z ds.1 in
      let len := Z.of_nat (String.length digits) in
      let decpt := len + ds.2 in
      let body :=
        if (-4 <? decpt)%Z && (decpt <=? 16)%Z then
          if (decpt <=? 0)%Z then
            "0." +:+ string_of_list_ascii (replicate (Z.to_nat (- decpt)) "0"%char) +:+ digits
          else if (len <=? decpt)%Z then
            digits +:+ string_of_list_ascii (replicate (Z.to_nat (decpt - len)) "0"%char) +:+ ".0"
          else
            substring 0 (Z.to_nat decpt) digits +:+ "." +:+
            substring (Z.to_nat decpt) (Z.to_nat (len - decpt)) digits
        else
          substring 0 1 digits +:+
          (if (1 <? len)%Z then "." +:+ substring 1 (Z.to_nat (len - 1)) digits else "") +:+
          "e" +:+ (if (decpt - 1 <? 0)%Z then "-" else "+") +:+
          zero_padded 2 (Z.abs (decpt - 1))
      in
      (if sign then "-" else "") +:+ body
  end.

Definition hex_digit (n : Z) : ascii :=
  ascii_of_nat (Z.to_nat (if (n <? 10)%Z then 48 + n else 87 + n)).

Definition backslash : ascii := ascii_of_nat 92.
Definition single_quote : ascii := ascii_of_nat 39.
Definition double_quote : ascii := ascii_of_nat 34.

(** [repr(s)] of a string: single quotes, unless the string has one and
    no double quote; control characters are escaped. *)
Definition repr_char (quote c : ascii) : list ascii :=
  if Ascii.eqb c backslash then [backslash; backslash]
  else if Ascii.eqb c quote then [backslash; c]
  else if (code c =? 9)%Z then [backslash; "t"%char]
  else if (code c =? 10)%Z then [backslash; "n"%char]
  else if (code c =? 13)%Z then [backslash; "r"%char]
  else if (code c <? 32)%Z || (code c =? 127)%Z then
    [backslash; "x"%char; hex_digit (code c / 16); hex_digit (code c mod 16)]
  else [c].

Definition repr_str (s : string) : string :=
  let cs := list_ascii_of_string s in
  let quote :=
    if existsb (Ascii.eqb single_quote) cs && negb (existsb (Ascii.eqb double_quote) cs)
    then double_quote else single_quote in
  String quote (string_of_list_ascii (concat (repr_char quote <$> cs))) +:+ String quote "".

(** [str(d)] and [repr(d)] of a datetime without microseconds. *)
Definition str_datetime (d : datetime) : string :=
  zero_padded 4 (dt_year d) +:+ "-" +:+ zero_padded 2 (dt_month d) +:+ "-" +:+
  zero_padded 2 (dt_day d) +:+ " " +:+ zero_padded 2 (dt_hour d) +:+ ":" +:+
  zero_padded 2 (dt_minute d) +:+ ":" +:+ zero_padded 2 (dt_second d).

Definition repr_datetime (d : datetime) : string :=
  "datetime.datetime(" +:+
  join ", " (str_of_Z <$> ([dt_year d; dt_month d; dt_day d; dt_hour d; dt_minute d]
                          ++ if (dt_second d =? 0)%Z then [] else [dt_second d])) +:+ ")".

Fixpoint repr (v : PyValue) : string :=
  match v with
  | VNone => "None"
  | VBool b => if b then "True" else "False"
  | VInt z => str_of_Z z
  | VFloat f => repr_float f
  | VStr s => repr_str s
  | VDateTime d => repr_datetime d
  | VList l => "[" +:+ join ", " (map repr l) +:+ "]"
  | VDict d => "{" +:+ join ", " (map (λ kv, repr_str kv.1 +:+ ": " +:+ repr kv.2) d) +:+ "}"
  end.

(** [str(v)]; [format(v, "")] gives the same for these values. *)
Definition py_str (v : PyValue) : string :=
  match v with
  | VStr s => s
  | VDateTime d => str_datetime d
  | _ => repr v
  end.

(** One item of [dict(iterable)]: a sequence of two elements, the key first.
    An item that cannot be iterated raises [TypeError], one of another
    length [ValueError], a key that cannot be hashed [TypeError].  A [VDict]
    has strings as keys; a key that is hashable and no string has no place
    in it, and such an item is answered [TypeError] as well, which Python
    does not. *)
Definition dict_pair (item : PyValue) : result (string * PyValue) :=
  result_bind (py_iter item) (λ pair,
    match pair with
    | [VStr key; value] => Ok (key, value)
    | [_; _] => Raise TypeError
    | _ => Raise ValueError
    end).

(** [d[key] = value]: a known key keeps its place. *)
Fixpoint dict_set (key : string) (value : PyValue) (d : list (string * PyValue))
    : list (string * PyValue) :=
  match d with
  | [] => [(key, value)]
  | (key', value') :: d' =>
      if String.eqb key' key then (key, value) :: d'
      else (key', value') :: dict_set key value d'
  end.

Fixpoint dict_update (items : list PyValue) (d : list (string * PyValue))
    : result (list (string * PyValue)) :=
  match items with
  | [] => Ok d
  | item :: items' =>
      result_bind (dict_pair item) (λ kv, dict_update items' (dict_set kv.1 kv.2 d))
  end.

(** [dict(v)]: a copy of a dict; of any other iterable, the dict of its
    items, taken as pairs one after the other; [TypeError] for a value that
    cannot be iterated. *)
Definition py_dict (v : PyValue) : result (list (string * PyValue)) :=
  match v with
  | VDict d => Ok d
  | _ => result_bind (py_iter v) (λ items, dict_update items [])
  end.

(** *** [datetime.strptime] *)

(** One character of a directive's pattern: a digit of a range, or a
    blank. *)
Inductive CharClass : Type :=
| Digit (lo hi : Z)
| Blank.

Inductive Directive : Type := dY | dm | dd | dH | dM | dS.

(** The alternatives of each directive, in the order the library's
    regular expression lists them. *)
Definition alternatives (d : Directive) : list (list CharClass) :=
  match d with
  | dY => [[Digit 0 9; Digit 0 9; Digit 0 9; Digit 0 9]]
  | dm => [[Digit 1 1; Digit 0 2]; [Digit 0 0; Digit 1 9]; [Digit 1 9]]
  | dd => [[Digit 3 3; Digit 0 1]; [Digit 1 2; Digit 0 9]; [Digit 0 0; Digit 1 9];
           [Digit 1 9]; [Blank; Digit 1 9]]
  | dH => [[Digit 2 2; Digit 0 3]; [Digit 0 1; Digit 0 9]; [Digit 0 9]]
  | dM => [[Digit 0 5; Digit 0 9]; [Digit 0 9]]
  | dS => [[Digit 6 6; Digit 0 1]; [Digit 0 5; Digit 0 9]; [Digit 0 9]]
  end.

Inductive FormatItem : Type :=
| Field (d : Directive)
| Literal (c : ascii)
| Whitespace.

Definition directive_of (c : ascii) : option Directive :=
  if Ascii.eqb c "Y" then Some dY
  else if Ascii.eqb c "m" then Some dm
  else if Ascii.eqb c "d" then Some dd
  else if Ascii.eqb c "H" then Some dH
  else if Ascii.eqb c "M" then Some dM
  else if Ascii.eqb c "S" then Some dS
  else None.

(** The format as a list of items; a run of whitespace is one item.  A
    stray [%] and a directive outside the six are a [ValueError]. *)
Fixpoint format_items (after_space : bool) (fmt : list ascii) : result (list FormatItem) :=
  match fmt with
  | [] => Ok []
  | c :: fmt' =>
      if is_space c then
        if after_space then format_items true fmt'
        else result_map (cons Whitespace) (format_items true fmt')
      else if Ascii.eqb c "%" then
        match fmt' with
        | [] => Raise ValueError
        | c' :: fmt'' =>
            if Ascii.eqb c' "%" then result_map (cons (Literal c')) (format_items false fmt'')
            else match directive_of c' with
                 | Some d => result_map (cons (Field d)) (format_items false fmt'')
                 | None => Raise ValueError
                 end
        end
      else result_map (cons (Literal c)) (format_items false fmt')
  end.

(** One alternative against the text: the number read and the rest. *)
Fixpoint match_classes (cs : list CharClass) (s : list ascii) (acc : Z)
    : option (Z * list ascii) :=
  match cs with
  | [] => Some (acc, s)
  | Digit lo hi :: cs' =>
      match s with
      | c :: s' =>
          if is_digit c && (lo <=? digit_value c)%Z && (digit_value c <=? hi)%Z
          then match_classes cs' s' (10 * acc + digit_value c)
          else None
      | [] => None
      end
  | Blank :: cs' =>
      match s with
      | c :: s' => if Ascii.eqb c " " then match_classes cs' s' acc else None
      | [] => None
      end
  end.

Record Fields : Type := mk_fields {
  f_year : option Z; f_month : option Z; f_day : option Z;
  f_hour : option Z; f_minute : option Z; f_second : option Z
}.

Definition no_fields : Fields := mk_fields None None None None None None.

Definition field (d : Directive) (fs : Fields) : option Z :=
  match d with
  | dY => f_year fs | dm => f_month fs | dd => f_day fs
  | dH => f_hour fs | dM => f_minute fs | dS => f_second fs
  end.

Definition set_field (d : Directive) (v : Z) (fs : Fields) : Fields :=
  match d with
  | dY => mk_fields (Some v) (f_month fs) (f_day fs) (f_hour fs) (f_minute fs) (f_second fs)
  | dm => mk_fields (f_year fs) (Some v) (f_day fs) (f_hour fs) (f_minute fs) (f_second fs)
  | dd => mk_fields (f_year fs) (f_month fs) (Some v) (f_hour fs) (f_minute fs) (f_second fs)
  | dH => mk_fields (f_year fs) (f_month fs) (f_day fs) (Some v) (f_minute fs) (f_second fs)
  | dM => mk_fields (f_year fs) (f_month fs) (f_day fs) (f_hour fs) (Some v) (f_second fs)
  | dS => mk_fields (f_year fs) (f_month fs) (f_day fs) (f_hour fs) (f_minute fs) (Some v)
  end.

(** The first success among the alternatives, each continued by [k]. *)
Fixpoint first_match {A B} (k : A → option B) (l : list A) : option B :=
  match l with
  | [] => None
  | x :: l' => match k x with Some r => Some r | None => first_match k l' end
  end.

(** The splits of the text after a run of whitespace, longest run first. *)
Fixpoint whitespace_runs (s : list ascii) : list (list ascii) :=
  match s with
  | c :: s' => if is_space c then whitespace_runs s' ++ [s'] else []
  | [] => []
  end.

(** The regular expression of the format matched at the start of the
    text, with backtracking: the fields and the text that is left. *)
Fixpoint match_items (items : list FormatItem) (s : list ascii) (fs : Fields)
    : option (Fields * list ascii) :=
  match items with
  | [] => Some (fs, s)
  | Field d :: items' =>
      first_match
        (λ cs, match match_classes cs s 0 with
               | Some (v, s') => match_items items' s' (set_field d v fs)
               | None => None
               end)
        (alternatives d)
  | Literal c :: items' =>
      match s with
      | c' :: s' => if Ascii.eqb (lower c) (lower c') then match_items items' s' fs else None
      | [] => None
      end
  | Whitespace :: items' =>
      first_match (λ s', match_items items' s' fs) (whitespace_runs s)
  end.

Definition is_leap (year : Z) : bool :=
  (year mod 4 =? 0)%Z && (negb (year mod 100 =? 0)%Z || (year mod 400 =? 0)%Z).

Definition days_in_month (year month : Z) : Z :=
  if (month =? 2)%Z then (if is_leap year then 29 else 28)
  else if existsb (Z.eqb month) [4; 6; 9; 11] then 30
  else 31.

Definition same_directive (d d' : Directive) : bool :=
  match d, d' with
  | dY, dY | dm, dm | dd, dd | dH, dH | dM, dM | dS, dS => true
  | _, _ => false
  end.

(** A directive that occurs twice names a group of the regular
    expression twice, which its compiler refuses. *)
Fixpoint has_repeated_field (seen : list Directive) (items : list FormatItem) : bool :=
  match items with
  | [] => false
  | Field d :: items' =>
      existsb (same_directive d) seen || has_repeated_field (d :: seen) items'
  | _ :: items' => has_repeated_field seen items'
  end.

(** [datetime.strptime(v, fmt)] *)
Definition strptime (v : PyValue) (fmt : string) : result datetime :=
  match v with
  | VStr s =>
      result_bind (format_items false (list_ascii_of_string fmt)) (λ items,
        if has_repeated_field [] items then Raise RegexError
        else
          match match_items items (list_ascii_of_string s) no_fields with
          | Some (fs, []) =>
              let year := default 1900 (f_year fs) in
              let month := default 1 (f_month fs) in
              let day := default 1 (f_day fs) in
              let second := default 0 (f_second fs) in
              if (1 <=? year)%Z && (day <=? days_in_month year month)%Z && (second <=? 59)%Z
              then Ok (mk_datetime year month day
                         (default 0 (f_hour fs)) (default 0 (f_minute fs)) second)
              else Raise ValueError
          | _ => Raise ValueError
          end)
  | _ => Raise TypeError
  end.

(** *** The validators of [homeassistant.helpers.config_validation] *)

(** [cv.string]: [None], lists and dicts are refused, anything else is
    printed. *)
Definition cv_string (v : PyValue) : result string :=
  match v with
  | VNone | VList _ | VDict _ => Raise Invalid
  | _ => Ok (py_str v)
  end.

(** [cv.datetime] on a datetime object.  A string would be parsed for an
    ISO 8601 date with time zone and microseconds, which [datetime] here
    does not carry: this runtime refuses it. *)
Definition cv_datetime (v : PyValue) : result datetime :=
  match v with
  | VDateTime d => Ok d
  | _ => Raise Invalid
  end.

Definition str_lower (s : string) : string :=
  string_of_list_ascii (lower <$> list_ascii_of_string s).

Definition str_strip (s : string) : string :=
  string_of_list_ascii (strip (list_ascii_of_string s)).

(** [s.split(sep)] for a separator of one character. *)
Fixpoint split_on (sep : ascii) (s : list ascii) : list (list ascii) :=
  match s with
  | [] => [[]]
  | c :: s' =>
      if Ascii.eqb c sep then [] :: split_on sep s'
      else match split_on sep s' with
           | part :: parts => (c :: part) :: parts
           | [] => [[c]]
           end
  end.

Definition is_id_char (c : ascii) : bool :=
  is_digit c || ((97 <=? code c)%Z && (code c <=? 122)%Z) || Ascii.eqb c "_".

Fixpoint has_double_underscore (s : list ascii) : bool :=
  match s with
  | c :: (c' :: _) as s' => (Ascii.eqb c "_" && Ascii.eqb c' "_") || has_double_underscore s'
  | _ => false
  end.

(** One side of an entity id: characters of [[0-9a-z_]], no underscore
    at either end. *)
Definition is_id_part (s : list ascii) : bool :=
  match s, rev s with
  | c :: _, c' :: _ => forallb is_id_char s && negb (Ascii.eqb c "_") && negb (Ascii.eqb c' "_")
  | _, _ => false
  end.

(** [valid_entity_id]: [domain.object_id], no double underscore; the
    regular expression lets one newline follow. *)
Definition valid_entity_id (s : string) : bool :=
  let cs := list_ascii_of_string s in
  let cs := match rev cs with
            | c :: r => if (code c =? 10)%Z then rev r else cs
            | [] => cs
            end in
  negb (has_double_underscore cs) &&
  match split_on "." cs with
  | [domain; object_id] => is_id_part domain && is_id_part object_id
  | _ => false
  end.

(** [cv.entity_id] *)
Definition cv_entity_id (v : PyValue) : result PyValue :=
  result_bind (cv_string v) (λ s,
    let str_value := str_lower s in
    if valid_entity_id str_value then Ok (VStr str_value) else Raise Invalid).

Fixpoint map_result {A B} (f : A → result B) (l : list A) : result (list B) :=
  match l with
  | [] => Ok []
  | x :: l' => result_bind (f x) (λ y, result_map (cons y) (map_result f l'))
  end.

(** [cv.entity_ids]: a string is split at its commas. *)
Definition cv_entity_ids (v : PyValue) : result PyValue :=
  match v with
  | VNone => Raise Invalid
  | VStr s =>
      result_map VList
        (map_result (λ part, cv_entity_id (VStr (string_of_list_ascii (strip part))))
           (split_on "," (list_ascii_of_string s)))
  | _ => result_bind (py_iter v) (λ items, result_map VList (map_result cv_entity_id items))
  end.

(** [comp_entity_ids]: ["all"], ["none"], or a list of entity ids. *)
Definition comp_entity_ids (v : PyValue) : result PyValue :=
  match v with
  | VStr s =>
      let value := str_lower (str_strip s) in
      if String.eqb value "all" || String.eqb value "none" then Ok (VStr value)
      else cv_entity_ids (VStr value)
  | _ => cv_entity_ids v
  end.

(** Modelled from the spec: [.helpers] is not among the sources; its
    function resolves the identifiers of a registry entry to the pair
    (device address, interface id), or to nothing.  The examples take an
    identifier of the integration's domain that reads
    [address@interface_id]. *)
Definition example_resolver (ids : gset (string * string)) : option (string * string) :=
  first_match
    (λ identifier : string * string,
       if String.eqb identifier.1 DOMAIN then
         match split_on "@" (list_ascii_of_string identifier.2) with
         | device_address :: interface_id :: _ =>
             Some (string_of_list_ascii device_address, string_of_list_ascii interface_id)
         | _ => None
         end
       else None)
    (elements ids).
End Python.

(** The runtime above with a backend that never raises and permission
    checks that let every call pass. *)
Definition example_platform : Platform := {|
  py_int := Python.py_int;
  py_float := Python.py_float;
  py_str := Python.py_str;
  py_format := Python.py_str;
  py_dict := Python.py_dict;
  str_upper := Python.str_upper;
  strptime := Python.strptime;
  cv_string := Python.cv_string;
  cv_datetime := Python.cv_datetime;
  comp_entity_ids := Python.comp_entity_ids;
  get_device_address_at_interface_from_identifiers := Python.example_resolver;
  backend_raises := λ _ _, None;
  domain_control_denied := λ _, None;
  admin_denied := λ _, None
|}.

(** A platform with another backend. *)
Definition with_backend (raises : list Event → Event → option PyExc) (P : Platform) : Platform := {|
  py_int := @py_int P;
  py_float := @py_float P;
  py_str := @py_str P;
  py_format := @py_format P;
  py_dict := @py_dict P;
  str_upper := @str_upper P;
  strptime := @strptime P;
  cv_string := @cv_string P;
  cv_datetime := @cv_datetime P;
  comp_entity_ids := @comp_entity_ids P;
  get_device_address_at_interface_from_identifiers :=
    @get_device_address_at_interface_from_identifiers P;
  backend_raises := raises;
  domain_control_denied := @domain_control_denied P;
  admin_denied := @admin_denied P
|}.

(** * Vocabulary of the properties *)

(** An instance without services, control units or devices. *)
Definition empty_hass : HomeAssistant := mk_hass ∅ [] ∅.

(** The registrations [async_setup_services] makes. *)
Definition hahm_registrations : gmap string Service :=
  <[SERVICE_PUT_PARAMSET := mk_service hahm_service_func PUT_PARAMSET_SCHEMA]>
  (<[SERVICE_SET_INSTALL_MODE := mk_service admin_service_func SET_INSTALL_MODE_SCHEMA]>
  (<[SERVICE_SET_DEVICE_VALUE := mk_service hahm_service_func SET_DEVICE_VALUE_SCHEMA]>
  (<[SERVICE_DISABLE_AWAY_MODE := mk_service hahm_service_func DISABLE_AWAY_MODE_SCHEMA]>
  (<[SERVICE_ENABLE_AWAY_MODE_BY_CALENDAR :=
       mk_service hahm_service_func ENABLE_AWAY_MODE_BY_CALENDAR_SCHEMA]>
  (<[SERVICE_SET_VARIABLE_VALUE := mk_service hahm_service_func SET_VARIABLE_VALUE_SCHEMA]> ∅))))).

(** A registry with one device. *)
Definition one_device_hass (device_id : string) (ids : gset (string * string))
    (control_units : list (string * ControlUnit)) : HomeAssistant :=
  mk_hass ∅ control_units {[device_id := mk_device_entry ids]}.

(** Some control unit has a client for the interface id. *)
Definition has_active_client (hass : HomeAssistant) (interface_id : string) : Prop :=
  ∃ entry_id control_unit client,
    (entry_id, control_unit) ∈ hass_data hass
    ∧ clients (central control_unit) !! interface_id = Some client.

(** A backend operation is among the events that [h'] adds to [h]. *)
Definition invokes_backend (h h' : list Event) : Prop :=
  ∃ e, e ∈ drop (length h) h' ∧ is_backend_call e = true.

(** The climate entities of all control units, control unit after control
    unit, each in the order its control unit gives. *)
Definition climate_entities (hass : HomeAssistant) : list HmEntity :=
  concat ((λ entry : string * ControlUnit,
             async_get_hm_entities_by_platform entry.2 CLIMATE) <$> hass_data hass).

(** The events of one entity in [enable_away_mode_by_calendar]. *)
Definition enable_events (start end_ away_temperature : PyValue) (entity : HmEntity)
    : list Event :=
  if isinstance_IPThermostat (entity_class entity) then
    [ enable_away_mode_by_calendar entity start end_ away_temperature;
      LOGGER_debug "Calling enable_away_mode_by_calendar: %s, %s, %s, %s"
        [VStr (entity_name entity); start; end_; away_temperature];
      asyncio_sleep 1 ]
  else [].

Section Vocabulary.
Context `{Platform}.

(** The validator of [away_set_point_temperature], lines 78-80. *)
Definition away_temperature_validator : Validator :=
  returning VFloat (vol_All (vol_Coerce py_float) (vol_Range 4.5 30.5)).

(** During the events [new] that follow the history [h], every backend
    operation that raised is the last event, and the coroutine ended with
    the exception it raised. *)
Definition raises_last {A} (h new : list Event) (r : result A) : Prop :=
  ∀ before e after exc,
    new = before ++ e :: after →
    is_backend_call e = true →
    backend_raises (h ++ before) e = Some exc →
    after = [] ∧ r = Raise exc.

(** A coroutine only extends the history, and does not outlive an
    exception of the backend. *)
Definition propagates {A} (m : M A) : Prop :=
  ∀ h h' r, m h = (h', r) → ∃ new, h' = h ++ new ∧ raises_last h new r.

(** The six handlers and the dispatcher in front of them. *)
Definition service_handlers : list (HomeAssistant → ServiceCall → M unit) :=
  [ _async_service_set_variable_value;
    _async_service_set_device_value;
    _async_service_enable_away_mode_by_calendar;
    _async_service_disable_away_mode;
    _async_service_set_install_mode;
    _async_service_put_paramset;
    async_call_hahm_service ].

(** The part the two handlers share, lines 239-269 and 363-392: resolve the
    routing pair, log, and call the operation [op] of the control unit that
    has a client for the interface. *)
Definition routed_call (hass : HomeAssistant) (device_id channel : PyValue)
    (log : string → string → Event) (op : ControlUnit → string → string → Event) : M unit :=
  address_data ← lift (_get_interface_channel_address hass device_id channel);
  match address_data with
  | None => ret tt
  | Some address_data =>
      let interface_id := address_data.1 in
      let channel_address := address_data.2 in
      emit (log interface_id channel_address) ;;
      if py_bool (VStr interface_id) && py_bool (VStr channel_address) then
        control_unit ← lift (_get_cu_by_interface_id hass (VStr interface_id));
        match control_unit with
        | Some control_unit => await_backend (op control_unit interface_id channel_address)
        | None => ret tt
        end
      else ret tt
  end.

(** What a routed call does, for a device id that is a string. *)
Definition routed_call_outcome (hass : HomeAssistant) (device_id : string) (channel : PyValue)
    (op : ControlUnit → string → string → Event) (h h' : list Event) (r : result unit) : Prop :=
  (invokes_backend h h' ↔
     ∃ interface_id channel_address,
       _get_interface_channel_address hass (VStr device_id) channel
         = Ok (Some (interface_id, channel_address))
       ∧ interface_id ≠ ""
       ∧ has_active_client hass interface_id)
  ∧ (¬ invokes_backend h h' → r = Ok tt)
  ∧ (∀ e, e ∈ drop (length h) h' → is_backend_call e = true →
       ∃ control_unit interface_id channel_address,
         e = op control_unit interface_id channel_address
         ∧ _get_interface_channel_address hass (VStr device_id) channel
           = Ok (Some (interface_id, channel_address))).

End Vocabulary.

Section CoercionVocabulary.
Context `{Platform}.

(** What [set_device_value] does once the value is converted, lines
    239-269: the routed call that logs the converted value and passes it to
    [set_value]. *)
Definition dispatch_set_value (hass : HomeAssistant) (call : ServiceCall)
    (device_id channel parameter value : PyValue) : M unit :=
  routed_call hass device_id channel
    (λ interface_id channel_address,
       LOGGER_debug "Calling setValue: %s, %s, %s, %s, %s, %s"
         [VStr interface_id; VStr channel_address; parameter; value;
          dict_get (data call) ATTR_VALUE_TYPE; dict_get (data call) ATTR_RX_MODE])
    (λ control_unit interface_id channel_address,
       set_value control_unit interface_id channel_address parameter value
         (dict_get (data call) ATTR_RX_MODE)).
End CoercionVocabulary.

(** ** An instance for the examples *)

Definition living_room : HmEntity := mk_entity IPThermostat "Living room" CLIMATE.
Definition window_contact : HmEntity := mk_entity OtherBaseEntity "Window" BINARY_SENSOR.

(** A control unit with one interface, a thermostat and a window contact. *)
Definition example_control_unit : ControlUnit :=
  mk_control_unit
    (mk_central {["BidCos-RF" := mk_client "BidCos-RF"]})
    (Some (mk_hub "sensor.ccu"))
    (λ entity_id,
       if py_eq_str entity_id "climate.living_room" then Some living_room
       else if py_eq_str entity_id "binary_sensor.window" then Some window_contact
       else None)
    (λ platform,
       match platform with
       | CLIMATE => [living_room]
       | BINARY_SENSOR => [window_contact]
       | _ => []
       end).

(** One control unit and one device, with the services set up. *)
Definition example_hass : HomeAssistant :=
  async_setup_services
    (mk_hass ∅ [("entry-1", example_control_unit)]
       {["device-1" := mk_device_entry {[ (DOMAIN, "ADDR@BidCos-RF") ]}]}).

(** A control unit whose only client has the empty interface id, and a
    device that resolves to that interface. *)
Definition nameless_control_unit : ControlUnit :=
  mk_control_unit (mk_central {["" := mk_client ""]}) None (λ _, None) (λ _, []).

Definition nameless_hass : HomeAssistant :=
  mk_hass ∅ [("entry-1", nameless_control_unit)]
    {["device-2" := mk_device_entry {[ (DOMAIN, "ADDR@") ]}]}.

Definition new_year : datetime := mk_datetime 2022 1 1 10 0 0.
Definition twelfth_night : datetime := mk_datetime 2022 1 6 10 0 0.

Definition payload (items : list (string * PyValue)) : gmap string PyValue :=
  list_to_map items.

(** [set_device_value] of a value that is no integer, for an unknown
    device. *)
Definition set_level_abc : ServiceCall :=
  mk_call SERVICE_SET_DEVICE_VALUE
    (payload [ (ATTR_DEVICE_ID, VStr "unknown"); (ATTR_CHANNEL, VInt 1);
               (ATTR_PARAMETER, VStr "LEVEL"); (ATTR_VALUE, VStr "abc");
               (ATTR_VALUE_TYPE, VStr "int") ])
    None.

(** [set_device_value] of ["5"] as an integer for the known device. *)
Definition set_level_5 : ServiceCall :=
  mk_call SERVICE_SET_DEVICE_VALUE
    (payload [ (ATTR_DEVICE_ID, VStr "device-1"); (ATTR_CHANNEL, VInt 1);
               (ATTR_PARAMETER, VStr "LEVEL"); (ATTR_VALUE, VStr "5");
               (ATTR_VALUE_TYPE, VStr "int") ])
    None.

(** [set_device_value] of ["3.5"] as a double, of a time stamp as a
    date-time, and of the integer 5 as a string, for the known device. *)
Definition set_level_double : ServiceCall :=
  mk_call SERVICE_SET_DEVICE_VALUE
    (payload [ (ATTR_DEVICE_ID, VStr "device-1"); (ATTR_CHANNEL, VInt 1);
               (ATTR_PARAMETER, VStr "LEVEL"); (ATTR_VALUE, VStr "3.5");
               (ATTR_VALUE_TYPE, VStr "double") ])
    None.

Definition set_party_start : ServiceCall :=
  mk_call SERVICE_SET_DEVICE_VALUE
    (payload [ (ATTR_DEVICE_ID, VStr "device-1"); (ATTR_CHANNEL, VInt 1);
               (ATTR_PARAMETER, VStr "PARTY_START"); (ATTR_VALUE, VStr "20220101T10:00:00");
               (ATTR_VALUE_TYPE, VStr "dateTime.iso8601") ])
    None.

Definition set_level_string : ServiceCall :=
  mk_call SERVICE_SET_DEVICE_VALUE
    (payload [ (ATTR_DEVICE_ID, VStr "device-1"); (ATTR_CHANNEL, VInt 1);
               (ATTR_PARAMETER, VStr "LEVEL"); (ATTR_VALUE, VInt 5);
               (ATTR_VALUE_TYPE, VStr "string") ])
    None.

(** [put_paramset] for the device of [nameless_hass]. *)
Definition put_master_paramset : ServiceCall :=
  mk_call SERVICE_PUT_PARAMSET
    (payload [ (ATTR_DEVICE_ID, VStr "device-2"); (ATTR_CHANNEL, VInt 1);
               (ATTR_PARAMSET_KEY, VStr "MASTER");
               (ATTR_PARAMSET, VDict [("LEVEL", VInt 1)]) ])
    None.

(** [enable_away_mode_by_calendar] for all entities, at the given
    temperature or without one. *)
Definition away_window : list (string * PyValue) :=
  [ (ATTR_ENTITY_ID, VStr "all");
    (ATTR_AWAY_START_TIME, VDateTime new_year);
    (ATTR_AWAY_END_TIME, VDateTime twelfth_night) ].

Definition enable_away_all (away_temperature : option PyValue) : ServiceCall :=
  mk_call SERVICE_ENABLE_AWAY_MODE_BY_CALENDAR
    (payload (away_window ++
              match away_temperature with
              | Some t => [(ATTR_AWAY_SET_POINT_TEMPERATURE, t)]
              | None => []
              end))
    None.

(** [disable_away_mode] for the window contact. *)
Definition disable_away_window : ServiceCall :=
  mk_call SERVICE_DISABLE_AWAY_MODE
    (payload [ (ATTR_ENTITY_ID, VList [VStr "binary_sensor.window"]) ])
    None.

(** A backend whose [set_value] fails. *)
Definition failing_set_value (h : list Event) (e : Event) : option PyExc :=
  match e with
  | set_value _ _ _ _ _ _ => Some (BackendError "set_value")
  | _ => None
  end.

Definition failing_platform : Platform := with_backend failing_set_value example_platform.

(** ** The lookup that no handler uses *)

Section GetHmEntity.
Context `{Platform}.
Context {GenericEntity : Type}.

(** [central.get_hm_entity_by_parameter(channel_address, parameter)] of the
    backend library. *)
Variable get_hm_entity_by_parameter : CentralUnit → PyValue → PyValue → option GenericEntity.

(** [_get_hm_entity], lines 440-448. *)
Definition _get_hm_entity (hass : HomeAssistant) (interface_id channel_address parameter : PyValue)
    : result (option GenericEntity) :=
  result_bind (_get_cu_by_interface_id hass interface_id) (λ control_unit,
    match control_unit with
    | Some control_unit =>
        Ok (get_hm_entity_by_parameter (central control_unit) channel_address parameter)
    | None => Ok None
    end).
End GetHmEntity.

(** ** Vocabulary of the further properties *)

(** The registration of a service, if any. *)
Definition registration (hass : HomeAssistant) (domain name : string) : option Service :=
  services hass !! domain ≫= (λ registered, registered !! name).

(** The keys a handler reads with [service.data[key]], in the order of its
    statements; the services are named by their schemas. *)
Definition indexed_keys (name : SchemaName) : list string :=
  match name with
  | SET_VARIABLE_VALUE_SCHEMA => [ATTR_ENTITY_ID; ATTR_NAME; ATTR_VALUE]
  | ENABLE_AWAY_MODE_BY_CALENDAR_SCHEMA =>
      [ATTR_ENTITY_ID; ATTR_AWAY_START_TIME; ATTR_AWAY_END_TIME;
       ATTR_AWAY_SET_POINT_TEMPERATURE]
  | DISABLE_AWAY_MODE_SCHEMA => [ATTR_ENTITY_ID]
  | SET_INSTALL_MODE_SCHEMA => [ATTR_INTERFACE_ID]
  | SET_DEVICE_VALUE_SCHEMA => [ATTR_DEVICE_ID; ATTR_CHANNEL; ATTR_PARAMETER; ATTR_VALUE]
  | PUT_PARAMSET_SCHEMA =>
      [ATTR_DEVICE_ID; ATTR_CHANNEL; ATTR_PARAMSET_KEY; ATTR_PARAMSET]
  end.

(** The handler of each service. *)
Definition handler_of `{Platform} (name : SchemaName)
    : HomeAssistant → ServiceCall → M unit :=
  match name with
  | SET_VARIABLE_VALUE_SCHEMA => _async_service_set_variable_value
  | ENABLE_AWAY_MODE_BY_CALENDAR_SCHEMA => _async_service_enable_away_mode_by_calendar
  | DISABLE_AWAY_MODE_SCHEMA => _async_service_disable_away_mode
  | SET_INSTALL_MODE_SCHEMA => _async_service_set_install_mode
  | SET_DEVICE_VALUE_SCHEMA => _async_service_set_device_value
  | PUT_PARAMSET_SCHEMA => _async_service_put_paramset
  end.

(** The name under which each service is registered. *)
Definition service_name_of (name : SchemaName) : string :=
  match name with
  | SET_VARIABLE_VALUE_SCHEMA => SERVICE_SET_VARIABLE_VALUE
  | ENABLE_AWAY_MODE_BY_CALENDAR_SCHEMA => SERVICE_ENABLE_AWAY_MODE_BY_CALENDAR
  | DISABLE_AWAY_MODE_SCHEMA => SERVICE_DISABLE_AWAY_MODE
  | SET_INSTALL_MODE_SCHEMA => SERVICE_SET_INSTALL_MODE
  | SET_DEVICE_VALUE_SCHEMA => SERVICE_SET_DEVICE_VALUE
  | PUT_PARAMSET_SCHEMA => SERVICE_PUT_PARAMSET
  end.

(** The events of one entity in [disable_away_mode]. *)
Definition disable_events (entity : HmEntity) : list Event :=
  if isinstance_IPThermostat (entity_class entity) then
    [ disable_away_mode entity;
      LOGGER_debug "Calling disable_away_mode: %s" [VStr (entity_name entity)];
      asyncio_sleep 1 ]
  else [].

(** The entities a list of entity ids resolves to, in the order of the ids;
    an id that resolves to nothing is left out. *)
Definition resolved_entities (hass : HomeAssistant) (entity_ids : list PyValue)
    : list HmEntity :=
  omap (_get_entity hass) entity_ids.

(** The permission checks in front of a handler: the administrator check of
    [set_install_mode] comes first, the domain-control check of every service
    after it. *)
Definition permission_denied `{Platform} (name : SchemaName) (call : ServiceCall)
    : option PyExc :=
  match name with
  | SET_INSTALL_MODE_SCHEMA =>
      match admin_denied call with
      | Some exc => Some exc
      | None => domain_control_denied call
      end
  | _ => domain_control_denied call
  end.

(** ** Further examples *)

(** The instance of the examples before the services are set up. *)
Definition bare_hass : HomeAssistant :=
  mk_hass ∅ [("entry-1", example_control_unit)]
    {["device-1" := mk_device_entry {[ (DOMAIN, "ADDR@BidCos-RF") ]}]}.

(** [set_variable_value] on the hub of the example control unit. *)
Definition set_presence : ServiceCall :=
  mk_call SERVICE_SET_VARIABLE_VALUE
    (payload [ (ATTR_ENTITY_ID, VStr "sensor.ccu"); (ATTR_NAME, VStr "presence");
               (ATTR_VALUE, VBool true) ])
    None.

(** [set_install_mode] with the interface id alone. *)
Definition enter_install_mode : ServiceCall :=
  mk_call SERVICE_SET_INSTALL_MODE (payload [ (ATTR_INTERFACE_ID, VStr "BidCos-RF") ]) None.

(** A [set_device_value] payload as a user writes it: no channel, the
    parameter in lower case. *)
Definition set_level_as_written : gmap string PyValue :=
  payload [ (ATTR_DEVICE_ID, VStr "device-1"); (ATTR_PARAMETER, VStr "level");
            (ATTR_VALUE, VStr "5"); (ATTR_VALUE_TYPE, VStr "int") ].

(** What the schema makes of it. *)
Definition set_level_validated : gmap string PyValue :=
  payload [ (ATTR_DEVICE_ID, VStr "device-1"); (ATTR_CHANNEL, VInt 1);
            (ATTR_PARAMETER, VStr "LEVEL"); (ATTR_VALUE, VStr "5");
            (ATTR_VALUE_TYPE, VStr "int") ].

(** What the schema makes of the payload of [enter_install_mode]. *)
Definition install_mode_validated : gmap string PyValue :=
  payload [ (ATTR_INTERFACE_ID, VStr "BidCos-RF"); (ATTR_TIME, VInt 60);
            (ATTR_MODE, VInt 1) ].

(** [enable_away_mode_by_calendar] for a thermostat, an unknown entity and
    the window contact. *)
Definition enable_away_listed : ServiceCall :=
  mk_call SERVICE_ENABLE_AWAY_MODE_BY_CALENDAR
    (payload [ (ATTR_ENTITY_ID,
                VList [VStr "climate.living_room"; VStr "climate.unknown";
                       VStr "binary_sensor.window"]);
               (ATTR_AWAY_START_TIME, VDateTime new_year);
               (ATTR_AWAY_END_TIME, VDateTime twelfth_night);
               (ATTR_AWAY_SET_POINT_TEMPERATURE, VFloat 18.0) ])
    None.

(** [disable_away_mode] for all entities. *)
Definition disable_away_all : ServiceCall :=
  mk_call SERVICE_DISABLE_AWAY_MODE (payload [ (ATTR_ENTITY_ID, VStr "all") ]) None.

(** A control unit with three thermostats, and a backend that fails for the
    second of them. *)
Definition bedroom : HmEntity := mk_entity IPThermostat "Bedroom" CLIMATE.
Definition hallway : HmEntity := mk_entity IPThermostat "Hallway" CLIMATE.

Definition three_room_control_unit : ControlUnit :=
  mk_control_unit
    (mk_central {["HmIP-RF" := mk_client "HmIP-RF"]})
    None
    (λ _, None)
    (λ platform,
       match platform with
       | CLIMATE => [living_room; bedroom; hallway]
       | _ => []
       end).

Definition three_room_hass : HomeAssistant :=
  mk_hass ∅ [("entry-1", three_room_control_unit)] ∅.

Definition failing_bedroom (h : list Event) (e : Event) : option PyExc :=
  match e with
  | enable_away_mode_by_calendar entity _ _ _ =>
      if String.eqb (entity_name entity) "Bedroom"
      then Some (BackendError "enable_away_mode_by_calendar")
      else None
  | _ => None
  end.

Definition failing_bedroom_platform : Platform := with_backend failing_bedroom example_platform.

(** * Properties *)

(** ** Setup and teardown *)

Lemma dict_is_empty_true {V} (m : gmap string V) : dict_is_empty m = true → m = ∅.
Proof.
  unfold dict_is_empty. destruct (map_to_list m) eqn:E; [|discriminate].
  intros _. by apply map_to_list_empty_iff.
Qed.

Lemma dict_is_empty_false {V} (m : gmap string V) k v :
  m !! k = Some v → dict_is_empty m = false.
Proof.
  intros Hk. unfold dict_is_empty. destruct (map_to_list m) eqn:E; [|done].
  apply map_to_list_empty_iff in E. subst. by rewrite lookup_empty in Hk.
Qed.

Lemma not_registered_default hass :
  domain_services_registered hass = false → default ∅ (services hass !! DOMAIN) = ∅.
Proof.
  unfold domain_services_registered. destruct (services hass !! DOMAIN) as [m|]; [|done].
  intros E. apply negb_false_iff, dict_is_empty_true in E. by subst.
Qed.

Lemma services_async_register domain name f schema hass :
  services (async_register domain name f schema hass)
  = <[domain := <[name := mk_service f schema]> (default ∅ (services hass !! domain))]>
      (services hass).
Proof. reflexivity. Qed.

(** What setup leaves in the registry when the domain had no services. *)
Lemma async_setup_services_registers hass :
  domain_services_registered hass = false →
  async_setup_services hass
  = mk_hass (<[DOMAIN := hahm_registrations]> (services hass))
      (hass_data hass) (device_registry hass).
Proof.
  intros Hno. unfold async_setup_services. rewrite Hno.
  unfold async_register_admin_service, async_register.
  cbn [services hass_data device_registry].
  rewrite !lookup_insert_eq. cbn [default]. rewrite !insert_insert_eq.
  rewrite (not_registered_default _ Hno). reflexivity.
Qed.

Lemma async_setup_services_registered hass :
  domain_services_registered (async_setup_services hass) = true.
Proof.
  destruct (domain_services_registered hass) eqn:E.
  - unfold async_setup_services. by rewrite E.
  - rewrite (async_setup_services_registers _ E).
    unfold domain_services_registered. simpl. rewrite lookup_insert_eq.
    reflexivity.
Qed.

(** Setup twice is setup once. *)
Lemma async_setup_services_twice hass :
  async_setup_services (async_setup_services hass) = async_setup_services hass.
Proof.
  unfold async_setup_services at 1. by rewrite async_setup_services_registered.
Qed.

(** Removing a registered service that is not the last of its domain. *)
Lemma async_remove_registered registry control_units devices registered name :
  bool_decide (is_Some (registered !! name)) = true →
  dict_is_empty (delete name registered) = false →
  async_remove DOMAIN name (mk_hass (<[DOMAIN := registered]> registry) control_units devices)
  = mk_hass (<[DOMAIN := delete name registered]> registry) control_units devices.
Proof.
  intros Hn He. apply bool_decide_eq_true in Hn as [s Hs].
  unfold async_remove. cbn [services hass_data device_registry].
  rewrite lookup_insert_eq, Hs, He, insert_insert_eq. reflexivity.
Qed.

Lemma async_unload_services_after_setup hass :
  hass_data hass = [] →
  domain_services_registered hass = false →
  async_unload_services (async_setup_services hass)
  = mk_hass
      (<[DOMAIN := {[SERVICE_DISABLE_AWAY_MODE :=
                       mk_service hahm_service_func DISABLE_AWAY_MODE_SCHEMA]}]> (services hass))
      [] (device_registry hass).
Proof.
  intros Hdata Hno. rewrite (async_setup_services_registers _ Hno).
  unfold async_unload_services. cbn [hass_data]. rewrite Hdata.
  unfold HAHM_SERVICES. cbn [foldl].
  do 5 (rewrite async_remove_registered; [| vm_compute; reflexivity | vm_compute; reflexivity]).
  apply (f_equal (λ m, mk_hass (<[DOMAIN := m]> (services hass)) [] (device_registry hass))).
  vm_compute. reflexivity.
Qed.

(** C1 (does not hold of the code).  Setup registers six services; teardown
    with no control unit left walks [HAHM_SERVICES], which lacks
    [SERVICE_DISABLE_AWAY_MODE]: the five listed services are gone, and
    [disable_away_mode] is still registered. *)
Theorem async_unload_services_leaves_disable_away_mode hass :
  hass_data hass = [] →
  domain_services_registered hass = false →
  let after := async_unload_services (async_setup_services hass) in
  Forall (λ name, has_service (async_setup_services hass) DOMAIN name = true) REGISTERED_SERVICES
  ∧ Forall (λ name, has_service after DOMAIN name = false) HAHM_SERVICES
  ∧ has_service after DOMAIN SERVICE_DISABLE_AWAY_MODE = true.
Proof.
  intros Hdata Hno after. subst after.
  rewrite (async_unload_services_after_setup _ Hdata Hno).
  rewrite (async_setup_services_registers _ Hno).
  unfold has_service. cbn [services]. rewrite !lookup_insert_eq.
  repeat split; repeat constructor.
Qed.

(** Setup and teardown of the empty instance. *)
Lemma async_unload_services_leaves_disable_away_mode_witness :
  has_service (async_unload_services (async_setup_services empty_hass))
    DOMAIN SERVICE_DISABLE_AWAY_MODE = true.
Proof.
  apply (async_unload_services_leaves_disable_away_mode empty_hass); reflexivity.
Defined.

(** C8.  [async_setup_services] called while the domain has its services
    registers nothing: the instance is left as it was. *)
Theorem async_setup_services_idempotent hass :
  domain_services_registered hass = true →
  async_setup_services hass = hass.
Proof. intros Hreg. unfold async_setup_services. by rewrite Hreg. Qed.

(** A second setup of the empty instance. *)
Lemma async_setup_services_idempotent_witness :
  async_setup_services (async_setup_services empty_hass) = async_setup_services empty_hass.
Proof.
  apply (async_setup_services_idempotent (async_setup_services empty_hass)).
  vm_compute. reflexivity.
Defined.

(** ** The dispatcher *)

(** A coroutine of type [M unit] followed by nothing is the coroutine. *)
Lemma bind_ret_tt (m : M unit) h : (m ;; ret tt) h = m h.
Proof.
  unfold mbind, M_bind, bind, ret. destruct (m h) as [h' [[]|e]]; reflexivity.
Qed.

Lemma ret_bind {A B} (a : A) (f : A → M B) h : (ret a ≫= f) h = f a h.
Proof. reflexivity. Qed.

(** C10.  For each of the six service names the dispatcher runs the
    coroutine of that name and no other, whatever the six coroutines are; for
    any other name it runs none.  The second part is the same for the
    handlers of the module. *)
Theorem call_hahm_service_dispatches :
  (∀ (p e d i v s : M unit) (h : list Event),
      call_hahm_service SERVICE_PUT_PARAMSET p e d i v s h = p h
      ∧ call_hahm_service SERVICE_ENABLE_AWAY_MODE_BY_CALENDAR p e d i v s h = e h
      ∧ call_hahm_service SERVICE_DISABLE_AWAY_MODE p e d i v s h = d h
      ∧ call_hahm_service SERVICE_SET_INSTALL_MODE p e d i v s h = i h
      ∧ call_hahm_service SERVICE_SET_DEVICE_VALUE p e d i v s h = v h
      ∧ call_hahm_service SERVICE_SET_VARIABLE_VALUE p e d i v s h = s h
      ∧ ∀ name, name ∉ REGISTERED_SERVICES →
          call_hahm_service name p e d i v s h = (h, Ok tt))
  ∧ (∀ (P : Platform) (hass : HomeAssistant) (call : ServiceCall) (h : list Event),
      (service call = SERVICE_PUT_PARAMSET →
         async_call_hahm_service hass call h = _async_service_put_paramset hass call h)
      ∧ (service call = SERVICE_ENABLE_AWAY_MODE_BY_CALENDAR →
         async_call_hahm_service hass call h
         = _async_service_enable_away_mode_by_calendar hass call h)
      ∧ (service call = SERVICE_DISABLE_AWAY_MODE →
         async_call_hahm_service hass call h = _async_service_disable_away_mode hass call h)
      ∧ (service call = SERVICE_SET_INSTALL_MODE →
         async_call_hahm_service hass call h = _async_service_set_install_mode hass call h)
      ∧ (service call = SERVICE_SET_DEVICE_VALUE →
         async_call_hahm_service hass call h = _async_service_set_device_value hass call h)
      ∧ (service call = SERVICE_SET_VARIABLE_VALUE →
         async_call_hahm_service hass call h = _async_service_set_variable_value hass call h)
      ∧ (service call ∉ REGISTERED_SERVICES →
         async_call_hahm_service hass call h = (h, Ok tt))).
Proof.
  assert (generic : ∀ (p e d i v s : M unit) (h : list Event),
      call_hahm_service SERVICE_PUT_PARAMSET p e d i v s h = p h
      ∧ call_hahm_service SERVICE_ENABLE_AWAY_MODE_BY_CALENDAR p e d i v s h = e h
      ∧ call_hahm_service SERVICE_DISABLE_AWAY_MODE p e d i v s h = d h
      ∧ call_hahm_service SERVICE_SET_INSTALL_MODE p e d i v s h = i h
      ∧ call_hahm_service SERVICE_SET_DEVICE_VALUE p e d i v s h = v h
      ∧ call_hahm_service SERVICE_SET_VARIABLE_VALUE p e d i v s h = s h
      ∧ ∀ name, name ∉ REGISTERED_SERVICES →
          call_hahm_service name p e d i v s h = (h, Ok tt)).
  { intros p e d i v s h. repeat apply conj.
    - change ((p ;; ret tt) h = p h). apply bind_ret_tt.
    - change ((e ;; ret tt) h = e h). apply bind_ret_tt.
    - reflexivity.
    - reflexivity.
    - reflexivity.
    - reflexivity.
    - intros name Hname. unfold REGISTERED_SERVICES in Hname.
      rewrite !not_elem_of_cons in Hname.
      destruct Hname as (H1 & H2 & H3 & H4 & H5 & H6 & _).
      unfold call_hahm_service.
      apply String.eqb_neq in H1, H2, H3, H4, H5, H6.
      rewrite H1, H2, H3, H4, H5, H6. reflexivity. }
  split; [exact generic|].
  intros P hass call h. unfold async_call_hahm_service. cbn zeta.
  repeat apply conj; intros Hname; rewrite ?Hname; by apply generic.
Qed.

(** ** Routing resolution *)

(** C3.  An unknown device id, and an entry whose identifiers resolve to
    nothing, give [None]; otherwise the result is the interface id with the
    device address, a colon and the channel.  With address ["ADDR"] and
    channel 1 that is [(interface_id, "ADDR:1")]. *)
Theorem interface_channel_address_resolution :
  (∀ (P : Platform) (hass : HomeAssistant) (device_id : string) (channel : PyValue),
      (device_registry hass !! device_id = None →
         _get_interface_channel_address hass (VStr device_id) channel = Ok None)
      ∧ (∀ device_entry,
           device_registry hass !! device_id = Some device_entry →
           get_device_address_at_interface_from_identifiers (identifiers device_entry) = None →
           _get_interface_channel_address hass (VStr device_id) channel = Ok None)
      ∧ (∀ device_entry device_address interface_id,
           device_registry hass !! device_id = Some device_entry →
           get_device_address_at_interface_from_identifiers (identifiers device_entry)
             = Some (device_address, interface_id) →
           _get_interface_channel_address hass (VStr device_id) channel
             = Ok (Some (interface_id, device_address +:+ ":" +:+ py_format channel))))
  ∧ (∀ (hass : HomeAssistant) (device_id interface_id : string) device_entry,
      device_registry hass !! device_id = Some device_entry →
      Python.example_resolver (identifiers device_entry) = Some ("ADDR", interface_id) →
      @_get_interface_channel_address example_platform hass (VStr device_id) (VInt 1)
        = Ok (Some (interface_id, "ADDR:1"))).
Proof.
  split.
  - intros P hass device_id channel. unfold _get_interface_channel_address.
    cbn [str_dict_get result_bind]. repeat apply conj.
    + intros ->. reflexivity.
    + intros device_entry -> ->. reflexivity.
    + intros device_entry device_address interface_id -> ->. reflexivity.
  - intros hass device_id interface_id device_entry Hentry Hresolve.
    unfold _get_interface_channel_address. cbn [str_dict_get result_bind].
    rewrite Hentry. cbn [get_device_address_at_interface_from_identifiers example_platform].
    rewrite Hresolve. reflexivity.
Qed.

(** A device with the identifier [ADDR@BidCos-RF], channel 1. *)
Lemma interface_channel_address_resolution_witness :
  @_get_interface_channel_address example_platform
    (one_device_hass "device-1" {[ (DOMAIN, "ADDR@BidCos-RF") ]} []) (VStr "device-1") (VInt 1)
  = Ok (Some ("BidCos-RF", "ADDR:1")).
Proof.
  apply (proj2 interface_channel_address_resolution
           (one_device_hass "device-1" {[ (DOMAIN, "ADDR@BidCos-RF") ]} [])
           "device-1" "BidCos-RF" (mk_device_entry {[ (DOMAIN, "ADDR@BidCos-RF") ]}));
    vm_compute; reflexivity.
Defined.

(** ** Away mode *)

Section AwayMode.
Context `{Platform}.

Lemma foldl_extend (control_units : list (string * ControlUnit)) platform acc :
  foldl (λ hm_entities entry,
           hm_entities ++ async_get_hm_entities_by_platform entry.2 platform)
        acc control_units
  = acc ++ concat ((λ entry : string * ControlUnit,
                      async_get_hm_entities_by_platform entry.2 platform) <$> control_units).
Proof.
  revert acc. induction control_units as [|entry rest IH]; intros acc; cbn.
  - by rewrite app_nil_r.
  - rewrite IH. by rewrite <- app_assoc.
Qed.

Lemma _get_entities_by_platform_climate hass :
  _get_entities_by_platform hass CLIMATE = climate_entities hass.
Proof. unfold _get_entities_by_platform. by rewrite foldl_extend. Qed.

Lemma item_present call key v h (k : PyValue → M unit) :
  data call !! key = Some v → (item call key ≫= k) h = k v h.
Proof. intros Hv. unfold item, dict_item. rewrite Hv. reflexivity. Qed.

(** With a backend that does not raise, the coroutine of one entity leaves
    exactly the events of that entity. *)
Lemma _enable_away_mode_by_calendar_run start end_ away_temperature entity h :
  (∀ h e, backend_raises h e = None) →
  _enable_away_mode_by_calendar start end_ away_temperature entity h
  = (h ++ enable_events start end_ away_temperature entity, Ok tt).
Proof.
  intros Hquiet. unfold _enable_away_mode_by_calendar, enable_events.
  destruct (isinstance_IPThermostat (entity_class entity)); cbn [negb].
  - unfold mbind, M_bind, bind, await_backend, emit. rewrite Hquiet.
    by rewrite <- !app_assoc.
  - unfold ret. by rewrite app_nil_r.
Qed.

Lemma for_each_run {A} (l : list A) (body : A → M unit) (events : A → list Event) h :
  (∀ x h, body x h = (h ++ events x, Ok tt)) →
  for_each l body h = (h ++ concat (events <$> l), Ok tt).
Proof.
  intros Hbody. revert h. induction l as [|x l IH]; intros h; cbn.
  - unfold ret. by rewrite app_nil_r.
  - unfold mbind, M_bind, bind. rewrite Hbody, IH. by rewrite <- app_assoc.
Qed.

(** C5.  With [entity_ids] the literal ["all"], the handler is the loop of
    the per-entity coroutine over the climate entities of all control
    units in enumeration order; while the backend does not raise, every
    one of them is visited once, and each thermostat gets its
    [enable_away_mode_by_calendar(start, end, away_temperature)], the log
    line and the sleep of one second before the next entity. *)
Theorem enable_away_mode_by_calendar_all hass call start end_ away_temperature h :
  data call !! ATTR_ENTITY_ID = Some (VStr "all") →
  data call !! ATTR_AWAY_START_TIME = Some start →
  data call !! ATTR_AWAY_END_TIME = Some end_ →
  data call !! ATTR_AWAY_SET_POINT_TEMPERATURE = Some away_temperature →
  _async_service_enable_away_mode_by_calendar hass call h
  = for_each (climate_entities hass)
      (_enable_away_mode_by_calendar start end_ away_temperature) h
  ∧ ((∀ h e, backend_raises h e = None) →
     _async_service_enable_away_mode_by_calendar hass call h
     = (h ++ concat (enable_events start end_ away_temperature <$> climate_entities hass),
        Ok tt)).
Proof.
  intros Hids Hstart Hend Htemp.
  assert (Hrun : _async_service_enable_away_mode_by_calendar hass call h
                 = for_each (climate_entities hass)
                     (_enable_away_mode_by_calendar start end_ away_temperature) h).
  { unfold _async_service_enable_away_mode_by_calendar.
    rewrite (item_present _ _ _ _ _ Hids), (item_present _ _ _ _ _ Hstart),
      (item_present _ _ _ _ _ Hend), (item_present _ _ _ _ _ Htemp).
    unfold for_entities. cbn [py_eq_str String.eqb Ascii.eqb Bool.eqb].
    by rewrite _get_entities_by_platform_climate. }
  split; [exact Hrun|].
  intros Hquiet. rewrite Hrun. apply for_each_run.
  intros entity h0. by apply _enable_away_mode_by_calendar_run.
Qed.

(** The coroutine of an entity that is no thermostat does nothing. *)
Lemma _disable_away_mode_skips entity h :
  isinstance_IPThermostat (entity_class entity) = false →
  _disable_away_mode entity h = (h, Ok tt).
Proof. intros Hclass. unfold _disable_away_mode. by rewrite Hclass. Qed.

Lemma for_each_skips {A} (l : list A) (body : A → M unit) h :
  (∀ x h, x ∈ l → body x h = (h, Ok tt)) →
  for_each l body h = (h, Ok tt).
Proof.
  revert h. induction l as [|x l IH]; intros h Hbody; cbn; [done|].
  unfold mbind, M_bind, bind. rewrite Hbody by left.
  apply IH. intros y h0 Hy. apply Hbody. by right.
Qed.

(** C6.  [disable_away_mode] on entity ids that resolve to entities that
    are no thermostats: the coroutine of such an entity returns at once,
    and the handler leaves the history as it was (no backend call, no log
    line, no sleep). *)
Theorem disable_away_mode_non_thermostat hass call entity_ids h :
  data call !! ATTR_ENTITY_ID = Some (VList entity_ids) →
  (∀ entity_id entity,
      entity_id ∈ entity_ids →
      _get_entity hass entity_id = Some entity →
      isinstance_IPThermostat (entity_class entity) = false) →
  (∀ entity_id entity h0,
      entity_id ∈ entity_ids →
      _get_entity hass entity_id = Some entity →
      _disable_away_mode entity h0 = (h0, Ok tt))
  ∧ _async_service_disable_away_mode hass call h = (h, Ok tt).
Proof.
  intros Hids Hclass. split.
  - intros entity_id entity h0 Hin Hget. apply _disable_away_mode_skips. eauto.
  - unfold _async_service_disable_away_mode. rewrite (item_present _ _ _ _ _ Hids).
    unfold for_entities. cbn [py_eq_str py_iter lift].
    rewrite ret_bind. apply for_each_skips.
    intros entity_id h0 Hin. destruct (_get_entity hass entity_id) as [entity|] eqn:Hget.
    + apply _disable_away_mode_skips. eauto.
    + reflexivity.
Qed.
End AwayMode.

(** ** Exceptions of the backend *)

Section Propagation.
Context `{Platform}.

Lemma propagates_ret {A} (a : A) : propagates (ret a).
Proof.
  intros h h' r [= <- <-]. exists []. split; [by rewrite app_nil_r|].
  intros before e after exc Hsplit. by destruct before.
Qed.

Lemma propagates_raise {A} (exc : PyExc) : propagates (@raise A exc).
Proof.
  intros h h' r [= <- <-]. exists []. split; [by rewrite app_nil_r|].
  intros before e after exc' Hsplit. by destruct before.
Qed.

Lemma propagates_lift {A} (r : result A) : propagates (lift r).
Proof. destruct r; [apply propagates_ret | apply propagates_raise]. Qed.

Lemma propagates_emit e : is_backend_call e = false → propagates (emit e).
Proof.
  intros Hlog h h' r [= <- <-]. exists [e]. split; [done|].
  intros before e' after exc Hsplit Hcall.
  destruct before as [|? [|]]; simplify_eq/=. congruence.
Qed.

Lemma propagates_await_backend e : propagates (await_backend e).
Proof.
  intros h h' r Hrun. unfold await_backend in Hrun. exists [e].
  destruct (backend_raises h e) as [exc|] eqn:Hraises; simplify_eq; (split; [done|]);
    intros before e' after exc' Hsplit Hcall Hexc;
    destruct before as [|? [|]]; simplify_eq/=;
    rewrite app_nil_r in Hexc; by simplify_eq.
Qed.

Lemma propagates_bind {A B} (m : M A) (f : A → M B) :
  propagates m → (∀ a, propagates (f a)) → propagates (m ≫= f).
Proof.
  intros Hm Hf h h' r Hrun. unfold mbind, M_bind, bind in Hrun.
  destruct (m h) as [h1 [a|exc]] eqn:Hmh.
  - destruct (Hm _ _ _ Hmh) as (new1 & -> & Hlast1).
    destruct (Hf a _ _ _ Hrun) as (new2 & -> & Hlast2).
    exists (new1 ++ new2). split; [by rewrite app_assoc|].
    intros before e after exc Hsplit Hcall Hexc.
    apply app_eq_app in Hsplit as [l [[-> Hl] | [-> ->]]].
    + destruct l as [|e' l]; cbn in Hl.
      * subst new2. rewrite app_nil_r in Hlast2.
        apply (Hlast2 [] e after exc eq_refl Hcall). by rewrite app_nil_r.
      * injection Hl as <- ->.
        by destruct (Hlast1 before e l exc eq_refl Hcall Hexc).
    + rewrite app_assoc in Hexc. exact (Hlast2 l e after exc eq_refl Hcall Hexc).
  - simplify_eq. destruct (Hm _ _ _ Hmh) as (new1 & -> & Hlast1).
    exists new1. split; [done|].
    intros before e after exc' Hsplit Hcall Hexc.
    destruct (Hlast1 before e after exc' Hsplit Hcall Hexc) as [-> [= ->]]. done.
Qed.

Lemma propagates_for_each {A} (l : list A) (body : A → M unit) :
  (∀ x, propagates (body x)) → propagates (for_each l body).
Proof.
  intros Hbody. induction l as [|x l IH]; cbn.
  - apply propagates_ret.
  - apply propagates_bind; [apply Hbody | intros _; apply IH].
Qed.

Lemma propagates_item call key : propagates (item call key).
Proof. apply propagates_lift. Qed.

Ltac propagate :=
  repeat first
    [ apply propagates_ret
    | apply propagates_raise
    | apply propagates_lift
    | apply propagates_item
    | apply propagates_await_backend
    | apply propagates_emit; reflexivity
    | apply propagates_for_each; intros ?
    | apply propagates_bind; [| intros ?]
    | match goal with
      | |- propagates (match ?x with _ => _ end) => destruct x
      | |- propagates (if ?b then _ else _) => destruct b
      | |- propagates (let _ := _ in _) => cbv zeta
      end ].

Lemma propagates_set_variable_value hass call :
  propagates (_async_service_set_variable_value hass call).
Proof. unfold _async_service_set_variable_value. propagate. Qed.

Lemma propagates_set_device_value hass call :
  propagates (_async_service_set_device_value hass call).
Proof. unfold _async_service_set_device_value. propagate. Qed.

Lemma propagates_enable_away_mode hass call :
  propagates (_async_service_enable_away_mode_by_calendar hass call).
Proof.
  unfold _async_service_enable_away_mode_by_calendar, for_entities,
    _enable_away_mode_by_calendar.
  propagate.
Qed.

Lemma propagates_disable_away_mode hass call :
  propagates (_async_service_disable_away_mode hass call).
Proof.
  unfold _async_service_disable_away_mode, for_entities, _disable_away_mode.
  propagate.
Qed.

Lemma propagates_set_install_mode hass call :
  propagates (_async_service_set_install_mode hass call).
Proof. unfold _async_service_set_install_mode. propagate. Qed.

Lemma propagates_put_paramset hass call :
  propagates (_async_service_put_paramset hass call).
Proof. unfold _async_service_put_paramset. propagate. Qed.

Lemma propagates_call_hahm_service hass call :
  propagates (async_call_hahm_service hass call).
Proof.
  unfold async_call_hahm_service, call_hahm_service. cbv zeta.
  repeat first
    [ apply propagates_ret
    | apply propagates_put_paramset
    | apply propagates_enable_away_mode
    | apply propagates_disable_away_mode
    | apply propagates_set_install_mode
    | apply propagates_set_device_value
    | apply propagates_set_variable_value
    | apply propagates_bind; [| intros ?]
    | match goal with
      | |- propagates (if ?b then _ else _) => destruct b
      end ].
Qed.

(** C9.  Whenever a backend operation raises while a handler runs, it is
    the last thing the handler did (no later event: no retry, no recovery)
    and the handler ends by raising the same exception to its caller. *)
Theorem backend_exception_propagates handler hass call h h' r :
  handler ∈ service_handlers →
  handler hass call h = (h', r) →
  ∃ new, h' = h ++ new ∧
    ∀ before e after exc,
      new = before ++ e :: after →
      is_backend_call e = true →
      backend_raises (h ++ before) e = Some exc →
      after = [] ∧ r = Raise exc.
Proof.
  intros Hhandler Hrun.
  assert (Hp : propagates (handler hass call)).
  { unfold service_handlers in Hhandler.
    repeat (apply elem_of_cons in Hhandler as [-> | Hhandler]);
      [ apply propagates_set_variable_value
      | apply propagates_set_device_value
      | apply propagates_enable_away_mode
      | apply propagates_disable_away_mode
      | apply propagates_set_install_mode
      | apply propagates_put_paramset
      | apply propagates_call_hahm_service
      | by apply elem_of_nil in Hhandler ]. }
  exact (Hp h h' r Hrun).
Qed.
End Propagation.

(** ** Schema validation *)

Lemma insert_defaults_present schema (d : gmap string PyValue) k v :
  d !! k = Some v → insert_defaults schema d !! k = Some v.
Proof.
  intros Hk. unfold insert_defaults.
  induction schema as [|entry schema IH]; cbn [foldr]; [done|].
  set (provided := foldr _ d schema) in *.
  destruct (marker_default entry.1) as [dflt|]; [|done].
  destruct (provided !! marker_key entry.1) eqn:Hentry; [done|].
  rewrite lookup_insert_ne; [done|]. intros <-. congruence.
Qed.

(** A value its validator refuses makes the validation of the values end
    with an exception or with the flag of a collected error. *)
Lemma validate_values_refused schema (d : gmap string PyValue) marker validator v exc :
  (marker, validator) ∈ schema →
  d !! marker_key marker = Some v →
  validator v = Raise exc →
  (∃ e, validate_values schema d = Raise e)
  ∨ (∃ out, validate_values schema d = Ok (out, true)).
Proof.
  intros Hin Hv Hrefused. induction schema as [|[marker' validator'] schema IH].
  - by apply elem_of_nil in Hin.
  - apply elem_of_cons in Hin as [[= <- <-] | Hin]; cbn.
    + rewrite Hv, Hrefused.
      destruct exc; eauto;
        destruct (validate_values schema d) as [[out b]|e]; cbn; eauto.
    + specialize (IH Hin).
      destruct (d !! marker_key marker') as [v0|]; [|done].
      destruct (validator' v0) as [v1|[]]; eauto;
        destruct IH as [[e ->] | [out ->]]; cbn; eauto.
Qed.

(** A validated payload holds, for every key of the schema that was
    provided, the value its validator returned. *)
Lemma validate_values_accepted schema (d : gmap string PyValue) out marker validator v :
  NoDup (schema_keys schema) →
  validate_values schema d = Ok (out, false) →
  (marker, validator) ∈ schema →
  d !! marker_key marker = Some v →
  ∃ v', validator v = Ok v' ∧ out !! marker_key marker = Some v'.
Proof.
  revert out. induction schema as [|[marker' validator'] schema IH]; intros out Hnodup Hrun Hin Hv.
  - by apply elem_of_nil in Hin.
  - cbn in Hnodup. apply NoDup_cons in Hnodup as [Hfresh Hnodup].
    cbn in Hrun.
    apply elem_of_cons in Hin as [[= <- <-] | Hin].
    + rewrite Hv in Hrun. destruct (validator v) as [v'|[]]; try discriminate;
        destruct (validate_values schema d) as [[out' b]|e]; try discriminate.
      cbn in Hrun. injection Hrun as <- ->. exists v'. by rewrite lookup_insert_eq.
    + assert (marker_key marker' ≠ marker_key marker) as Hne.
      { intros Heq. apply Hfresh. rewrite Heq. unfold schema_keys.
        apply (list_elem_of_fmap_2 (λ entry : Marker * Validator, marker_key entry.1)
                 _ (marker, validator) Hin). }
      destruct (d !! marker_key marker') as [v0|].
      * destruct (validator' v0) as [v1|[]]; try discriminate;
          destruct (validate_values schema d) as [[out' b]|e] eqn:Hrest; try discriminate.
        cbn in Hrun. injection Hrun as <- ->.
        destruct (IH out' Hnodup eq_refl Hin Hv) as (v' & Hok & Hout).
        exists v'. by rewrite lookup_insert_ne.
      * by apply IH.
Qed.

Section Validation.
Context `{Platform}.

Lemma away_temperature_refused v :
  (∀ t, py_float v = Ok t → PrimFloat.leb 4.5 t && PrimFloat.leb t 30.5 = false) →
  ∃ exc, away_temperature_validator v = Raise exc.
Proof.
  intros Hout. unfold away_temperature_validator, returning, vol_All, vol_Coerce, vol_Range.
  destruct (py_float v) as [t|exc] eqn:Hfloat.
  - specialize (Hout t eq_refl). cbn.
    destruct (PrimFloat.leb 4.5 t); cbn in *; [rewrite Hout|]; eauto.
  - destruct exc; cbn; eauto.
Qed.

Lemma insert_defaults_away_temperature (d : gmap string PyValue) :
  insert_defaults SCHEMA_SERVICE_ENABLE_AWAY_MODE_BY_CALENDAR d
  = match d !! ATTR_AWAY_SET_POINT_TEMPERATURE with
    | Some _ => d
    | None => <[ATTR_AWAY_SET_POINT_TEMPERATURE := VFloat 18.0]> d
    end.
Proof.
  unfold SCHEMA_SERVICE_ENABLE_AWAY_MODE_BY_CALENDAR, insert_defaults.
  cbn [foldr marker_default marker_key fst Required Required_default].
  by destruct (d !! ATTR_AWAY_SET_POINT_TEMPERATURE).
Qed.

(** A payload with the entity ids and the two times, all of them accepted,
    and nothing else passes the schema with the temperature 18.0. *)
Lemma away_temperature_default (d : gmap string PyValue)
    entity_ids start end_ entity_ids' start' end_' :
  d !! ATTR_ENTITY_ID = Some entity_ids →
  d !! ATTR_AWAY_START_TIME = Some start →
  d !! ATTR_AWAY_END_TIME = Some end_ →
  d !! ATTR_AWAY_SET_POINT_TEMPERATURE = None →
  (∀ key, is_Some (d !! key) →
          key ∈ [ATTR_ENTITY_ID; ATTR_AWAY_START_TIME; ATTR_AWAY_END_TIME]) →
  comp_entity_ids entity_ids = Ok entity_ids' →
  cv_datetime start = Ok start' →
  cv_datetime end_ = Ok end_' →
  py_float (VFloat 18.0) = Ok 18.0%float →
  vol_Schema SCHEMA_SERVICE_ENABLE_AWAY_MODE_BY_CALENDAR d
  = Ok (<[ATTR_ENTITY_ID := entity_ids']>
        (<[ATTR_AWAY_START_TIME := VDateTime start']>
         (<[ATTR_AWAY_END_TIME := VDateTime end_']>
          (<[ATTR_AWAY_SET_POINT_TEMPERATURE := VFloat 18.0]> ∅)))).
Proof.
  intros Hids Hstart Hend Hmissing Honly Hcomp Hcvs Hcve Hfloat.
  unfold vol_Schema. rewrite insert_defaults_away_temperature, Hmissing.
  set (provided := <[ATTR_AWAY_SET_POINT_TEMPERATURE := VFloat 18.0]> d).
  assert (Hp1 : provided !! ATTR_ENTITY_ID = Some entity_ids)
    by (subst provided; by rewrite lookup_insert_ne).
  assert (Hp2 : provided !! ATTR_AWAY_START_TIME = Some start)
    by (subst provided; by rewrite lookup_insert_ne).
  assert (Hp3 : provided !! ATTR_AWAY_END_TIME = Some end_)
    by (subst provided; by rewrite lookup_insert_ne).
  assert (Hp4 : provided !! ATTR_AWAY_SET_POINT_TEMPERATURE = Some (VFloat 18.0))
    by (subst provided; by rewrite lookup_insert_eq).
  assert (Hextra : has_extra_keys SCHEMA_SERVICE_ENABLE_AWAY_MODE_BY_CALENDAR provided = false).
  { unfold has_extra_keys. apply not_true_iff_false. intros Hex.
    apply existsb_exists in Hex as ([key v] & Hin & Hkey).
    apply list_elem_of_In, elem_of_map_to_list in Hin. cbn [fst] in Hkey.
    apply negb_true_iff in Hkey.
    destruct (decide (key = ATTR_AWAY_SET_POINT_TEMPERATURE)) as [-> | Hne].
    - vm_compute in Hkey. discriminate.
    - subst provided. rewrite lookup_insert_ne in Hin by done.
      specialize (Honly key (mk_is_Some _ _ Hin)).
      repeat (apply elem_of_cons in Honly as [-> | Honly];
              [vm_compute in Hkey; discriminate|]).
      by apply elem_of_nil in Honly. }
  assert (Hrequired :
            missing_required SCHEMA_SERVICE_ENABLE_AWAY_MODE_BY_CALENDAR provided = false).
  { unfold missing_required, SCHEMA_SERVICE_ENABLE_AWAY_MODE_BY_CALENDAR.
    cbn [existsb marker_required marker_key fst Required Required_default andb].
    rewrite Hp1, Hp2, Hp3, Hp4.
    rewrite !bool_decide_eq_true_2 by eauto. reflexivity. }
  rewrite Hextra, Hrequired.
  unfold SCHEMA_SERVICE_ENABLE_AWAY_MODE_BY_CALENDAR.
  cbn [validate_values marker_key fst Required Required_default].
  rewrite Hp1, Hp2, Hp3, Hp4, Hcomp.
  unfold returning, vol_All, vol_Coerce, vol_Range, result_map, result_bind.
  rewrite Hcvs, Hcve, Hfloat.
  reflexivity.
Qed.

(** C7.  A call of [enable_away_mode_by_calendar] whose
    [away_set_point_temperature] does not convert to a float within
    [4.5, 30.5] fails in the schema: the platform raises the error of the
    validation and the history is untouched, whatever the instance holds, so
    no handler and no lookup ran.  A payload without the key is validated as
    the same payload with the temperature 18.0 is; if it is accepted, the
    validated payload holds 18.0; and it is accepted, with 18.0, whenever
    its entity ids and times are, and then the service function runs on the
    payload with 18.0. *)
Theorem away_set_point_temperature_validated :
  (∀ hass call registered service_func v h,
      services hass !! DOMAIN = Some registered →
      registered !! SERVICE_ENABLE_AWAY_MODE_BY_CALENDAR
        = Some (mk_service service_func ENABLE_AWAY_MODE_BY_CALENDAR_SCHEMA) →
      service call = SERVICE_ENABLE_AWAY_MODE_BY_CALENDAR →
      data call !! ATTR_AWAY_SET_POINT_TEMPERATURE = Some v →
      (∀ t, py_float v = Ok t → PrimFloat.leb 4.5 t && PrimFloat.leb t 30.5 = false) →
      ∃ exc,
        vol_Schema SCHEMA_SERVICE_ENABLE_AWAY_MODE_BY_CALENDAR (data call) = Raise exc
        ∧ async_call hass DOMAIN call h = (h, Raise exc))
  ∧ (∀ d out,
      d !! ATTR_AWAY_SET_POINT_TEMPERATURE = None →
      py_float (VFloat 18.0) = Ok 18.0%float →
      vol_Schema SCHEMA_SERVICE_ENABLE_AWAY_MODE_BY_CALENDAR d = Ok out →
      out !! ATTR_AWAY_SET_POINT_TEMPERATURE = Some (VFloat 18.0))
  ∧ (∀ d : gmap string PyValue,
      d !! ATTR_AWAY_SET_POINT_TEMPERATURE = None →
      vol_Schema SCHEMA_SERVICE_ENABLE_AWAY_MODE_BY_CALENDAR d
      = vol_Schema SCHEMA_SERVICE_ENABLE_AWAY_MODE_BY_CALENDAR
          (<[ATTR_AWAY_SET_POINT_TEMPERATURE := VFloat 18.0]> d))
  ∧ (∀ hass call registered func entity_ids start end_ entity_ids' start' end_' h,
      services hass !! DOMAIN = Some registered →
      registered !! SERVICE_ENABLE_AWAY_MODE_BY_CALENDAR
        = Some (mk_service func ENABLE_AWAY_MODE_BY_CALENDAR_SCHEMA) →
      service call = SERVICE_ENABLE_AWAY_MODE_BY_CALENDAR →
      data call !! ATTR_ENTITY_ID = Some entity_ids →
      data call !! ATTR_AWAY_START_TIME = Some start →
      data call !! ATTR_AWAY_END_TIME = Some end_ →
      data call !! ATTR_AWAY_SET_POINT_TEMPERATURE = None →
      (∀ key, is_Some (data call !! key) →
              key ∈ [ATTR_ENTITY_ID; ATTR_AWAY_START_TIME; ATTR_AWAY_END_TIME]) →
      comp_entity_ids entity_ids = Ok entity_ids' →
      cv_datetime start = Ok start' →
      cv_datetime end_ = Ok end_' →
      py_float (VFloat 18.0) = Ok 18.0%float →
      let validated : gmap string PyValue :=
        <[ATTR_ENTITY_ID := entity_ids']>
        (<[ATTR_AWAY_START_TIME := VDateTime start']>
         (<[ATTR_AWAY_END_TIME := VDateTime end_']>
          (<[ATTR_AWAY_SET_POINT_TEMPERATURE := VFloat 18.0]> ∅))) in
      vol_Schema SCHEMA_SERVICE_ENABLE_AWAY_MODE_BY_CALENDAR (data call) = Ok validated
      ∧ async_call hass DOMAIN call h
        = run_service_func hass func
            (mk_call (service call) validated (context_user_id call)) h).
Proof.
  refine (conj _ (conj _ (conj _ _))).
  - intros hass call registered service_func v h Hdomain Hservice Hname Hv Hout.
    assert (∃ exc, vol_Schema SCHEMA_SERVICE_ENABLE_AWAY_MODE_BY_CALENDAR (data call)
                   = Raise exc) as [exc Hexc].
    { destruct (away_temperature_refused v Hout) as [exc Hexc].
      unfold vol_Schema.
      destruct (validate_values_refused SCHEMA_SERVICE_ENABLE_AWAY_MODE_BY_CALENDAR
                  (insert_defaults SCHEMA_SERVICE_ENABLE_AWAY_MODE_BY_CALENDAR (data call))
                  (Required_default ATTR_AWAY_SET_POINT_TEMPERATURE (VFloat 18.0))
                  away_temperature_validator v exc) as [[e ->] | [out ->]].
      + unfold SCHEMA_SERVICE_ENABLE_AWAY_MODE_BY_CALENDAR. do 3 right. left.
      + by apply insert_defaults_present.
      + exact Hexc.
      + eauto.
      + cbn. eauto. }
    exists exc. split; [exact Hexc|].
    unfold async_call. rewrite Hdomain. cbn [mbind option_bind]. rewrite Hname, Hservice.
    cbn [service_schema schema_of]. rewrite Hexc. reflexivity.
  - intros d out Hmissing Hfloat Hvalid. unfold vol_Schema in Hvalid.
    set (schema := SCHEMA_SERVICE_ENABLE_AWAY_MODE_BY_CALENDAR) in *.
    destruct (validate_values schema (insert_defaults schema d)) as [[out' bad]|e] eqn:Hvalues;
      [|discriminate].
    cbn [result_bind fst snd] in Hvalid.
    destruct bad; [discriminate|]. cbn [orb] in Hvalid.
    match type of Hvalid with
    | (if ?c then _ else _) = _ => destruct c; [discriminate|]
    end.
    injection Hvalid as <-.
    destruct (validate_values_accepted schema (insert_defaults schema d) out'
                (Required_default ATTR_AWAY_SET_POINT_TEMPERATURE (VFloat 18.0))
                away_temperature_validator (VFloat 18.0)) as (v' & Hok & Hlookup).
    + apply (bool_decide_unpack _). vm_compute. exact I.
    + exact Hvalues.
    + subst schema. unfold SCHEMA_SERVICE_ENABLE_AWAY_MODE_BY_CALENDAR. do 3 right. left.
    + subst schema. unfold SCHEMA_SERVICE_ENABLE_AWAY_MODE_BY_CALENDAR, insert_defaults.
      cbn [foldr marker_default marker_key fst Required Required_default].
      rewrite Hmissing. apply lookup_insert_eq.
    + unfold away_temperature_validator, returning, vol_All, vol_Coerce in Hok.
      rewrite Hfloat in Hok. cbn in Hok. injection Hok as <-. exact Hlookup.
  - intros d Hmissing. unfold vol_Schema.
    rewrite !insert_defaults_away_temperature, Hmissing. by rewrite lookup_insert_eq.
  - intros hass call registered func entity_ids start end_ entity_ids' start' end_' h
      Hdomain Hservice Hname Hids Hstart Hend Hmissing Honly Hcomp Hcvs Hcve Hfloat validated.
    assert (Hvalid : vol_Schema SCHEMA_SERVICE_ENABLE_AWAY_MODE_BY_CALENDAR (data call)
                     = Ok validated)
      by exact (away_temperature_default _ _ _ _ _ _ _ Hids Hstart Hend Hmissing Honly
                  Hcomp Hcvs Hcve Hfloat).
    split; [exact Hvalid|].
    unfold async_call. rewrite Hdomain. cbn [mbind option_bind]. rewrite Hname, Hservice.
    cbn [service_schema service_func schema_of]. rewrite Hvalid. reflexivity.
Qed.
End Validation.

(** ** Routing of [set_device_value] and [put_paramset] *)

Lemma channel_address_truthy (device_address channel : string) :
  py_bool (VStr (device_address +:+ ":" +:+ channel)) = true.
Proof. destruct device_address; reflexivity. Qed.

Lemma interface_id_truthy (interface_id : string) :
  py_bool (VStr interface_id) = true ↔ interface_id ≠ "".
Proof.
  cbn. rewrite negb_true_iff. split.
  - intros Hne ->. discriminate.
  - intros Hne. by apply String.eqb_neq.
Qed.

Section Routing.
Context `{Platform}.

Lemma _get_cu_by_interface_id_in_str control_units (interface_id : string) :
  (∃ control_unit,
      _get_cu_by_interface_id_in control_units (VStr interface_id) = Ok (Some control_unit)
      ∧ ∃ entry_id client,
          (entry_id, control_unit) ∈ control_units
          ∧ clients (central control_unit) !! interface_id = Some client)
  ∨ (_get_cu_by_interface_id_in control_units (VStr interface_id) = Ok None
     ∧ ∀ entry_id control_unit,
         (entry_id, control_unit) ∈ control_units →
         clients (central control_unit) !! interface_id = None).
Proof.
  induction control_units as [|[entry_id control_unit] rest IH]; cbn.
  - right. split; [done|]. intros ? ? Hin. by apply elem_of_nil in Hin.
  - destruct (clients (central control_unit) !! interface_id) as [client|] eqn:Hclient; cbn.
    + left. exists control_unit. split; [done|]. exists entry_id, client. split; [left|done].
    + destruct IH as [(cu & -> & eid & client & Hin & Hcl) | [-> Hnone]].
      * left. exists cu. split; [done|]. exists eid, client. split; [by right|done].
      * right. split; [done|]. intros eid cu Hin.
        apply elem_of_cons in Hin as [[= -> ->] | Hin]; eauto.
Qed.

Lemma routed_call_spec hass device_id channel log op h h' r :
  (∀ i c, is_backend_call (log i c) = false) →
  (∀ cu i c, is_backend_call (op cu i c) = true) →
  routed_call hass (VStr device_id) channel log op h = (h', r) →
  routed_call_outcome hass device_id channel op h h' r.
Proof.
  intros Hlog Hop. unfold routed_call, routed_call_outcome, invokes_backend.
  unfold _get_interface_channel_address. cbn [str_dict_get result_bind].
  destruct (device_registry hass !! device_id) as [device_entry|]; cbn [lift];
    [destruct (get_device_address_at_interface_from_identifiers (identifiers device_entry))
       as [[device_address interface_id]|]|]; cbn [lift fst snd].
  - rewrite ret_bind. cbv zeta. cbn [fst snd].
    rewrite channel_address_truthy, andb_true_r.
    set (channel_address := device_address +:+ ":" +:+ py_format channel).
    set (line := log interface_id channel_address).
    destruct (py_bool (VStr interface_id)) eqn:Htruthy.
    + apply interface_id_truthy in Htruthy.
      unfold _get_cu_by_interface_id.
      destruct (_get_cu_by_interface_id_in_str (hass_data hass) interface_id)
        as [(cu & Hcu & eid & client & Hin & Hclient) | [Hcu Hnone]].
      * unfold mbind, M_bind, bind, emit. rewrite Hcu. cbn [lift ret].
        unfold await_backend. intros Hrun.
        assert (h' = h ++ [line; op cu interface_id channel_address]) as ->.
        { destruct (backend_raises (h ++ [line]) (op cu interface_id channel_address));
            injection Hrun as <- _; by rewrite <- app_assoc. }
        rewrite drop_app_length. refine (conj _ (conj _ _)).
        -- split; [intros _ | intros _].
           ++ exists interface_id, channel_address. repeat split; [done|].
              by exists eid, cu, client.
           ++ exists (op cu interface_id channel_address). split; [|apply Hop].
              right. left.
        -- intros Hnot. exfalso. apply Hnot.
           exists (op cu interface_id channel_address). split; [|apply Hop]. right. left.
        -- intros e He Hcall. apply elem_of_cons in He as [-> | He].
           ++ subst line. by rewrite Hlog in Hcall.
           ++ apply list_elem_of_singleton in He as ->. by exists cu, interface_id, channel_address.
      * unfold mbind, M_bind, bind, emit. rewrite Hcu. cbn [lift ret].
        intros [= <- <-]. rewrite drop_app_length. refine (conj _ (conj _ _)).
        -- split.
           ++ intros (e & He & Hcall). apply list_elem_of_singleton in He as ->.
              subst line. by rewrite Hlog in Hcall.
           ++ intros (i & c & [= <- <-] & _ & eid & cu & client & Hin & Hclient).
              by rewrite (Hnone _ _ Hin) in Hclient.
        -- done.
        -- intros e He Hcall. apply list_elem_of_singleton in He as ->.
           subst line. by rewrite Hlog in Hcall.
    + unfold mbind, M_bind, bind, emit. cbn [ret].
      intros [= <- <-]. rewrite drop_app_length. refine (conj _ (conj _ _)).
      * split.
        -- intros (e & He & Hcall). apply list_elem_of_singleton in He as ->.
           subst line. by rewrite Hlog in Hcall.
        -- intros (i & c & [= <- <-] & Hne & _).
           apply interface_id_truthy in Hne. congruence.
      * done.
      * intros e He Hcall. apply list_elem_of_singleton in He as ->.
        subst line. by rewrite Hlog in Hcall.
  - rewrite ret_bind. intros [= <- <-]. rewrite drop_all. refine (conj _ (conj _ _)).
    + split; [intros (e & He & _); by apply elem_of_nil in He | intros (? & ? & [=] & _)].
    + done.
    + intros e He. by apply elem_of_nil in He.
  - rewrite ret_bind. intros [= <- <-]. rewrite drop_all. refine (conj _ (conj _ _)).
    + split; [intros (e & He & _); by apply elem_of_nil in He | intros (? & ? & [=] & _)].
    + done.
    + intros e He. by apply elem_of_nil in He.
Qed.

(** C2, as the code has it.  Let the payload hold the required keys with a
    string for the device id.  For [set_device_value] whose value converts,
    and for [put_paramset] whose paramset is a dict, the backend operation is
    invoked exactly when the device id resolves to a routing pair, the
    resolved interface id is not empty, and some control unit has a client
    for it; the operation invoked is [set_value] (with the converted value)
    or [put_paramset]; when none is invoked the handler returns without
    error.  A value that does not convert makes [set_device_value] raise
    before anything else happens. *)
Theorem backend_invoked_iff_routed :
  (∀ hass call h h' r device_id channel parameter value value',
      data call !! ATTR_DEVICE_ID = Some (VStr device_id) →
      data call !! ATTR_CHANNEL = Some channel →
      data call !! ATTR_PARAMETER = Some parameter →
      data call !! ATTR_VALUE = Some value →
      coerce_value (dict_get (data call) ATTR_VALUE_TYPE) value = Ok value' →
      _async_service_set_device_value hass call h = (h', r) →
      routed_call_outcome hass device_id channel
        (λ control_unit interface_id channel_address,
           set_value control_unit interface_id channel_address parameter value'
             (dict_get (data call) ATTR_RX_MODE))
        h h' r)
  ∧ (∀ hass call h h' r device_id channel paramset_key paramset items,
      data call !! ATTR_DEVICE_ID = Some (VStr device_id) →
      data call !! ATTR_CHANNEL = Some channel →
      data call !! ATTR_PARAMSET_KEY = Some paramset_key →
      data call !! ATTR_PARAMSET = Some paramset →
      py_dict paramset = Ok items →
      _async_service_put_paramset hass call h = (h', r) →
      routed_call_outcome hass device_id channel
        (λ control_unit interface_id channel_address,
           put_paramset control_unit interface_id channel_address paramset_key (VDict items)
             (dict_get (data call) ATTR_RX_MODE))
        h h' r)
  ∧ (∀ hass call h device_id channel parameter value exc,
      data call !! ATTR_DEVICE_ID = Some device_id →
      data call !! ATTR_CHANNEL = Some channel →
      data call !! ATTR_PARAMETER = Some parameter →
      data call !! ATTR_VALUE = Some value →
      coerce_value (dict_get (data call) ATTR_VALUE_TYPE) value = Raise exc →
      _async_service_set_device_value hass call h = (h, Raise exc)).
Proof.
  refine (conj _ (conj _ _)).
  - intros hass call h h' r device_id channel parameter value value'
      Hdevice Hchannel Hparameter Hvalue Hcoerce Hrun.
    unfold _async_service_set_device_value in Hrun.
    rewrite (item_present _ _ _ _ _ Hdevice), (item_present _ _ _ _ _ Hchannel),
      (item_present _ _ _ _ _ Hparameter), (item_present _ _ _ _ _ Hvalue) in Hrun.
    cbv zeta in Hrun. rewrite Hcoerce in Hrun.
    apply (routed_call_spec hass device_id channel
             (λ interface_id channel_address,
                LOGGER_debug "Calling setValue: %s, %s, %s, %s, %s, %s"
                  [VStr interface_id; VStr channel_address; parameter; value';
                   dict_get (data call) ATTR_VALUE_TYPE; dict_get (data call) ATTR_RX_MODE]));
      [done | done | exact Hrun].
  - intros hass call h h' r device_id channel paramset_key paramset items
      Hdevice Hchannel Hkey Hparamset Hdict Hrun.
    unfold _async_service_put_paramset in Hrun.
    rewrite (item_present _ _ _ _ _ Hdevice), (item_present _ _ _ _ _ Hchannel),
      (item_present _ _ _ _ _ Hkey), (item_present _ _ _ _ _ Hparamset) in Hrun.
    rewrite Hdict in Hrun. cbv zeta in Hrun.
    apply (routed_call_spec hass device_id channel
             (λ interface_id channel_address,
                LOGGER_debug "Calling putParamset: %s, %s, %s, %s, %s"
                  [VStr interface_id; VStr channel_address; paramset_key; VDict items;
                   dict_get (data call) ATTR_RX_MODE]));
      [done | done | exact Hrun].
  - intros hass call h device_id channel parameter value exc
      Hdevice Hchannel Hparameter Hvalue Hcoerce.
    unfold _async_service_set_device_value.
    rewrite (item_present _ _ _ _ _ Hdevice), (item_present _ _ _ _ _ Hchannel),
      (item_present _ _ _ _ _ Hparameter), (item_present _ _ _ _ _ Hvalue).
    cbv zeta. rewrite Hcoerce. reflexivity.
Qed.
End Routing.

(** ** Coercion of the value *)

(** A value type the schema of [set_device_value] admits is a non-empty
    string, so the conversion applies to it. *)
Lemma admitted_value_type_truthy (value_type v' : PyValue) :
  vol_In_str ["boolean"; "dateTime.iso8601"; "double"; "int"; "string"] value_type = Ok v' →
  py_bool value_type = true.
Proof.
  unfold vol_In_str. destruct value_type as [| | | |s| | |]; try discriminate.
  cbn [existsb py_eq_str py_bool].
  destruct s as [|c s]; [discriminate|reflexivity].
Qed.

Section Coercion.
Context `{Platform}.

(** The handler is the conversion of the value followed by the routed call
    with the converted value; a conversion that raises ends the handler. *)
Lemma set_device_value_converts hass call h device_id channel parameter value :
  data call !! ATTR_DEVICE_ID = Some device_id →
  data call !! ATTR_CHANNEL = Some channel →
  data call !! ATTR_PARAMETER = Some parameter →
  data call !! ATTR_VALUE = Some value →
  _async_service_set_device_value hass call h
  = match coerce_value (dict_get (data call) ATTR_VALUE_TYPE) value with
    | Ok value' => dispatch_set_value hass call device_id channel parameter value' h
    | Raise exc => (h, Raise exc)
    end.
Proof.
  intros Hdevice Hchannel Hparameter Hvalue. unfold _async_service_set_device_value.
  rewrite (item_present _ _ _ _ _ Hdevice), (item_present _ _ _ _ _ Hchannel),
    (item_present _ _ _ _ _ Hparameter), (item_present _ _ _ _ _ Hvalue).
  cbv zeta. unfold mbind at 1, M_bind at 1, bind at 1.
  destruct (coerce_value (dict_get (data call) ATTR_VALUE_TYPE) value) as [value'|exc];
    reflexivity.
Qed.

(** The backend calls of a routed call are calls of its operation. *)
Lemma routed_call_backend_events hass device_id channel log op h h' r e :
  (∀ i c, is_backend_call (log i c) = false) →
  routed_call hass device_id channel log op h = (h', r) →
  e ∈ drop (length h) h' →
  is_backend_call e = true →
  ∃ control_unit interface_id channel_address, e = op control_unit interface_id channel_address.
Proof.
  intros Hlog Hrun Hin Hbackend. unfold routed_call in Hrun.
  unfold mbind, M_bind, bind in Hrun.
  destruct (_get_interface_channel_address hass device_id channel) as [[[i c]|]|exc];
    cbn [lift ret raise fst snd] in Hrun.
  - unfold emit in Hrun.
    assert (Hnew : ∀ new, e ∈ drop (length h) (h ++ new) → e ∈ new).
    { intros new. by rewrite drop_app_length. }
    destruct (py_bool (VStr i) && py_bool (VStr c)).
    + destruct (_get_cu_by_interface_id hass (VStr i)) as [[cu|]|exc];
        cbn [lift ret raise] in Hrun.
      * unfold await_backend in Hrun.
        assert (h' = h ++ [log i c; op cu i c]) as ->.
        { destruct (backend_raises (h ++ [log i c]) (op cu i c));
            injection Hrun as <- _; by rewrite <- app_assoc. }
        apply Hnew in Hin. apply elem_of_cons in Hin as [-> | Hin].
        -- by rewrite Hlog in Hbackend.
        -- apply list_elem_of_singleton in Hin. eauto.
      * injection Hrun as <- _. apply Hnew, list_elem_of_singleton in Hin. subst e.
        by rewrite Hlog in Hbackend.
      * injection Hrun as <- _. apply Hnew, list_elem_of_singleton in Hin. subst e.
        by rewrite Hlog in Hbackend.
    + injection Hrun as <- _. apply Hnew, list_elem_of_singleton in Hin. subst e.
      by rewrite Hlog in Hbackend.
  - injection Hrun as <- _. rewrite drop_all in Hin. by apply elem_of_nil in Hin.
  - injection Hrun as <- _. rewrite drop_all in Hin. by apply elem_of_nil in Hin.
Qed.
End Coercion.

(** C4.  [set_device_value] converts the value by its value type before it
    dispatches: the handler, given its four keys, runs as the routed call
    (log line and [set_value]) with [int(value)] for [int], [float(value)]
    for [double], the truth value for [boolean], [strptime] with the pattern
    [%Y%m%dT%H:%M:%S] for [dateTime.iso8601], [str(value)] for any other
    value type that is present (one whose truth value is true, as every
    value type the schema admits is), and the value as it is without a value
    type; a conversion that raises ends the handler before anything happens;
    and every backend call of the run is [set_value] with the converted
    value.  The three conversions of the examples, as the calls leave them
    in the history. *)
Theorem coerce_value_by_value_type :
  (∀ (P : Platform) hass call h device_id channel parameter value,
      data call !! ATTR_DEVICE_ID = Some device_id →
      data call !! ATTR_CHANNEL = Some channel →
      data call !! ATTR_PARAMETER = Some parameter →
      data call !! ATTR_VALUE = Some value →
      let value_type := dict_get (data call) ATTR_VALUE_TYPE in
      let run := _async_service_set_device_value hass call h in
      let dispatch := λ value',
        dispatch_set_value hass call device_id channel parameter value' h in
      (value_type = VStr "int" →
         run = match py_int value with
               | Ok z => dispatch (VInt z)
               | Raise exc => (h, Raise exc)
               end)
      ∧ (value_type = VStr "double" →
           run = match py_float value with
                 | Ok f => dispatch (VFloat f)
                 | Raise exc => (h, Raise exc)
                 end)
      ∧ (value_type = VStr "boolean" → run = dispatch (VBool (py_bool value)))
      ∧ (value_type = VStr "dateTime.iso8601" →
           run = match strptime value "%Y%m%dT%H:%M:%S" with
                 | Ok d => dispatch (VDateTime d)
                 | Raise exc => (h, Raise exc)
                 end)
      ∧ (py_bool value_type = true →
         py_eq_str value_type "int" = false →
         py_eq_str value_type "double" = false →
         py_eq_str value_type "boolean" = false →
         py_eq_str value_type "dateTime.iso8601" = false →
         run = dispatch (VStr (py_str value)))
      ∧ (data call !! ATTR_VALUE_TYPE = None → run = dispatch value)
      ∧ (∀ value' h' r e,
           dispatch value' = (h', r) →
           e ∈ drop (length h) h' →
           is_backend_call e = true →
           ∃ control_unit interface_id channel_address,
             e = set_value control_unit interface_id channel_address parameter value'
                   (dict_get (data call) ATTR_RX_MODE)))
  ∧ (∀ value_type v',
       vol_In_str ["boolean"; "dateTime.iso8601"; "double"; "int"; "string"] value_type
         = Ok v' →
       py_bool value_type = true)
  ∧ @_async_service_set_device_value example_platform example_hass set_level_5 []
    = ([ LOGGER_debug "Calling setValue: %s, %s, %s, %s, %s, %s"
           [VStr "BidCos-RF"; VStr "ADDR:1"; VStr "LEVEL"; VInt 5; VStr "int"; VNone];
         set_value example_control_unit "BidCos-RF" "ADDR:1" (VStr "LEVEL") (VInt 5) VNone ],
       Ok tt)
  ∧ @_async_service_set_device_value example_platform example_hass set_level_double []
    = ([ LOGGER_debug "Calling setValue: %s, %s, %s, %s, %s, %s"
           [VStr "BidCos-RF"; VStr "ADDR:1"; VStr "LEVEL"; VFloat 3.5; VStr "double"; VNone];
         set_value example_control_unit "BidCos-RF" "ADDR:1" (VStr "LEVEL") (VFloat 3.5)
           VNone ],
       Ok tt)
  ∧ @_async_service_set_device_value example_platform example_hass set_party_start []
    = ([ LOGGER_debug "Calling setValue: %s, %s, %s, %s, %s, %s"
           [VStr "BidCos-RF"; VStr "ADDR:1"; VStr "PARTY_START"; VDateTime new_year;
            VStr "dateTime.iso8601"; VNone];
         set_value example_control_unit "BidCos-RF" "ADDR:1" (VStr "PARTY_START")
           (VDateTime new_year) VNone ],
       Ok tt).
Proof.
  refine (conj _ (conj admitted_value_type_truthy _));
    [|repeat apply conj; vm_compute; reflexivity].
  intros P hass call h device_id channel parameter value Hdevice Hchannel Hparameter Hvalue
    value_type run dispatch.
  assert (Hrun : run = match coerce_value value_type value with
                       | Ok value' => dispatch value'
                       | Raise exc => (h, Raise exc)
                       end)
    by exact (set_device_value_converts _ _ _ _ _ _ _ Hdevice Hchannel Hparameter Hvalue).
  rewrite Hrun. unfold coerce_value.
  refine (conj _ (conj _ (conj _ (conj _ (conj _ (conj _ _)))))).
  - intros ->. cbn [py_bool py_eq_str String.eqb Ascii.eqb Bool.eqb negb].
    unfold result_map, result_bind. by destruct (py_int value).
  - intros ->. cbn [py_bool py_eq_str String.eqb Ascii.eqb Bool.eqb negb].
    unfold result_map, result_bind. by destruct (py_float value).
  - intros ->. reflexivity.
  - intros ->. cbn [py_bool py_eq_str String.eqb Ascii.eqb Bool.eqb negb].
    unfold result_map, result_bind. by destruct (strptime value _).
  - intros -> -> -> -> ->. reflexivity.
  - intros Habsent. unfold value_type, dict_get. rewrite Habsent. reflexivity.
  - intros value' h' r e Hdispatch. unfold dispatch, dispatch_set_value in Hdispatch.
    intros Hin Hbackend.
    eapply (routed_call_backend_events hass device_id channel _
              (λ control_unit interface_id channel_address,
                 set_value control_unit interface_id channel_address parameter value'
                   (dict_get (data call) ATTR_RX_MODE)));
      [ | exact Hdispatch | exact Hin | exact Hbackend ].
    intros i c. reflexivity.
Qed.

(** The value type [string] prints the integer 5, and the string reaches
    [set_value]. *)
Lemma coerce_value_by_value_type_witness :
  @_async_service_set_device_value example_platform example_hass set_level_string []
  = ([ LOGGER_debug "Calling setValue: %s, %s, %s, %s, %s, %s"
         [VStr "BidCos-RF"; VStr "ADDR:1"; VStr "LEVEL"; VStr "5"; VStr "string"; VNone];
       set_value example_control_unit "BidCos-RF" "ADDR:1" (VStr "LEVEL") (VStr "5") VNone ],
     Ok tt).
Proof.
  pose proof (proj1 coerce_value_by_value_type example_platform example_hass set_level_string []
                (VStr "device-1") (VInt 1) (VStr "LEVEL") (VInt 5)
                eq_refl eq_refl eq_refl eq_refl) as Hcases.
  cbv zeta in Hcases. destruct Hcases as (_ & _ & _ & _ & Hstring & _).
  rewrite Hstring by reflexivity. vm_compute. reflexivity.
Defined.

(** ** The examples *)

(** C2 as stated does not hold.  A [set_device_value] payload that passes
    its schema, for a device id that does not resolve, makes the handler
    raise [ValueError] (the value does not convert); and a [put_paramset]
    call whose device resolves to an empty interface id, for which a control
    unit has a client, leaves the log line and no backend operation. *)
Lemma routing_counterexample :
  (@vol_Schema (@SCHEMA_SERVICE_SET_DEVICE_VALUE example_platform) (data set_level_abc)
     = Ok (data set_level_abc)
   ∧ @_get_interface_channel_address example_platform example_hass (VStr "unknown") (VInt 1)
     = Ok None
   ∧ @_async_service_set_device_value example_platform example_hass set_level_abc []
     = ([], Raise ValueError))
  ∧ (@_get_interface_channel_address example_platform nameless_hass (VStr "device-2") (VInt 1)
       = Ok (Some ("", "ADDR:1"))
     ∧ hass_data nameless_hass = [("entry-1", nameless_control_unit)]
     ∧ clients (central nameless_control_unit) !! "" = Some (mk_client "")
     ∧ @_async_service_put_paramset example_platform nameless_hass put_master_paramset []
       = ([LOGGER_debug "Calling putParamset: %s, %s, %s, %s, %s"
             [VStr ""; VStr "ADDR:1"; VStr "MASTER"; VDict [("LEVEL", VInt 1)]; VNone]],
          Ok tt)).
Proof. repeat apply conj; vm_compute; reflexivity. Qed.

(** [set_device_value] of ["5"] as an integer reaches [set_value] with 5. *)
Lemma backend_invoked_iff_routed_witness :
  routed_call_outcome (H := example_platform) example_hass "device-1" (VInt 1)
    (λ control_unit interface_id channel_address,
       set_value control_unit interface_id channel_address (VStr "LEVEL") (VInt 5) VNone)
    []
    [ LOGGER_debug "Calling setValue: %s, %s, %s, %s, %s, %s"
        [VStr "BidCos-RF"; VStr "ADDR:1"; VStr "LEVEL"; VInt 5; VStr "int"; VNone];
      set_value example_control_unit "BidCos-RF" "ADDR:1" (VStr "LEVEL") (VInt 5) VNone ]
    (Ok tt).
Proof.
  apply (proj1 (backend_invoked_iff_routed (H := example_platform))
           example_hass set_level_5 [] _ _ "device-1" (VInt 1) (VStr "LEVEL") (VStr "5") (VInt 5));
    vm_compute; reflexivity.
Defined.

(** The events of [enable_away_mode_by_calendar] for all entities of the
    example instance. *)
Lemma enable_away_mode_by_calendar_all_witness :
  _async_service_enable_away_mode_by_calendar (H := example_platform)
    example_hass (enable_away_all (Some (VFloat 18.0))) []
  = ([ enable_away_mode_by_calendar living_room
         (VDateTime new_year) (VDateTime twelfth_night) (VFloat 18.0);
       LOGGER_debug "Calling enable_away_mode_by_calendar: %s, %s, %s, %s"
         [VStr "Living room"; VDateTime new_year; VDateTime twelfth_night; VFloat 18.0];
       asyncio_sleep 1 ],
     Ok tt).
Proof.
  apply (proj2 (enable_away_mode_by_calendar_all (H := example_platform)
                  example_hass (enable_away_all (Some (VFloat 18.0)))
                  (VDateTime new_year) (VDateTime twelfth_night) (VFloat 18.0) []
                  eq_refl eq_refl eq_refl eq_refl)).
  reflexivity.
Defined.

(** [disable_away_mode] for the window contact does nothing. *)
Lemma disable_away_mode_non_thermostat_witness :
  _async_service_disable_away_mode (H := example_platform) example_hass disable_away_window []
  = ([], Ok tt).
Proof.
  apply (disable_away_mode_non_thermostat (H := example_platform)
           example_hass disable_away_window [VStr "binary_sensor.window"] []).
  - reflexivity.
  - intros entity_id entity Hin Hget. apply list_elem_of_singleton in Hin. subst entity_id.
    injection Hget as <-. reflexivity.
Defined.

(** A temperature of 40.0 is refused by the schema; without a temperature,
    the call is validated with 18.0 and the thermostat is sent away at
    18.0. *)
Lemma away_set_point_temperature_validated_witness :
  (∃ exc,
     vol_Schema (SCHEMA_SERVICE_ENABLE_AWAY_MODE_BY_CALENDAR (H := example_platform))
       (data (enable_away_all (Some (VFloat 40.0)))) = Raise exc
     ∧ async_call (H := example_platform) example_hass DOMAIN
         (enable_away_all (Some (VFloat 40.0))) [] = ([], Raise exc))
  ∧ vol_Schema (SCHEMA_SERVICE_ENABLE_AWAY_MODE_BY_CALENDAR (H := example_platform))
      (data (enable_away_all None))
    = Ok (data (enable_away_all (Some (VFloat 18.0))))
  ∧ async_call (H := example_platform) example_hass DOMAIN (enable_away_all None) []
    = ([ enable_away_mode_by_calendar living_room
           (VDateTime new_year) (VDateTime twelfth_night) (VFloat 18.0);
         LOGGER_debug "Calling enable_away_mode_by_calendar: %s, %s, %s, %s"
           [VStr "Living room"; VDateTime new_year; VDateTime twelfth_night; VFloat 18.0];
         asyncio_sleep 1 ],
       Ok tt).
Proof.
  split.
  - apply (proj1 (away_set_point_temperature_validated (H := example_platform))
             example_hass (enable_away_all (Some (VFloat 40.0))) hahm_registrations
             hahm_service_func (VFloat 40.0) []).
    + reflexivity.
    + reflexivity.
    + reflexivity.
    + reflexivity.
    + intros t [= <-]. reflexivity.
  - assert (Honly : ∀ key, is_Some (data (enable_away_all None) !! key) →
                     key ∈ [ATTR_ENTITY_ID; ATTR_AWAY_START_TIME; ATTR_AWAY_END_TIME]).
    { intros key [v Hkey]. apply elem_of_list_to_map_2 in Hkey.
      unfold away_window in Hkey. cbn [app] in Hkey.
      apply elem_of_cons in Hkey as [[= -> _] | Hkey]; [left|].
      apply elem_of_cons in Hkey as [[= -> _] | Hkey]; [right; left|].
      apply elem_of_cons in Hkey as [[= -> _] | Hkey]; [do 2 right; left|].
      by apply elem_of_nil in Hkey. }
    pose proof (proj2 (proj2 (proj2 (away_set_point_temperature_validated
                                       (H := example_platform))))
                  example_hass (enable_away_all None) hahm_registrations hahm_service_func
                  (VStr "all") (VDateTime new_year) (VDateTime twelfth_night)
                  (VStr "all") new_year twelfth_night []
                  eq_refl eq_refl eq_refl eq_refl eq_refl eq_refl eq_refl Honly
                  eq_refl eq_refl eq_refl eq_refl) as Hdefault.
    cbv zeta in Hdefault. destruct Hdefault as [Hvalid Hcall]. split.
    + rewrite Hvalid. vm_compute. reflexivity.
    + rewrite Hcall. vm_compute. reflexivity.
Defined.

(** With a backend whose [set_value] fails, the handler ends with that
    failure right after the call. *)
Lemma backend_exception_propagates_witness :
  ∃ new,
    [ LOGGER_debug "Calling setValue: %s, %s, %s, %s, %s, %s"
        [VStr "BidCos-RF"; VStr "ADDR:1"; VStr "LEVEL"; VInt 5; VStr "int"; VNone];
      set_value example_control_unit "BidCos-RF" "ADDR:1" (VStr "LEVEL") (VInt 5) VNone ]
    = [] ++ new
    ∧ ∀ before e after exc,
        new = before ++ e :: after →
        is_backend_call e = true →
        failing_set_value ([] ++ before) e = Some exc →
        after = [] ∧ Raise (BackendError "set_value") = @Raise unit exc.
Proof.
  apply (backend_exception_propagates (H := failing_platform)
           (@_async_service_set_device_value failing_platform) example_hass set_level_5 []).
  - right. left.
  - vm_compute. reflexivity.
Defined.

(** * Further properties *)

(** ** The registry under setup and teardown *)

Lemma has_service_registration hass domain name :
  has_service hass domain name = true ↔ is_Some (registration hass domain name).
Proof.
  unfold has_service, registration.
  destruct (services hass !! domain) as [registered|]; cbn.
  - by rewrite bool_decide_eq_true.
  - split; [discriminate | by intros [? ?]].
Qed.

Lemma registration_async_register domain name f schema hass domain' name' :
  registration (async_register domain name f schema hass) domain' name'
  = if decide (domain' = domain ∧ name' = name) then Some (mk_service f schema)
    else registration hass domain' name'.
Proof.
  unfold registration, async_register. cbn [services].
  destruct (decide (domain' = domain)) as [->|Hdomain].
  - rewrite lookup_insert_eq. cbn.
    destruct (decide (name' = name)) as [->|Hname].
    + rewrite lookup_insert_eq. by rewrite decide_True.
    + rewrite lookup_insert_ne by done. rewrite decide_False by naive_solver.
      by destruct (services hass !! domain).
  - rewrite lookup_insert_ne by done. by rewrite decide_False by naive_solver.
Qed.

Lemma dict_is_empty_lookup {V} (m : gmap string V) k :
  dict_is_empty m = true → m !! k = None.
Proof. intros Hempty. by rewrite (dict_is_empty_true m Hempty). Qed.

Lemma registration_async_remove domain name hass domain' name' :
  registration (async_remove domain name hass) domain' name'
  = if decide (domain' = domain ∧ name' = name) then None
    else registration hass domain' name'.
Proof.
  unfold registration, async_remove.
  destruct (services hass !! domain) as [registered|] eqn:Hdomain.
  - destruct (registered !! name) as [s|] eqn:Hname.
    + cbn [services].
      destruct (dict_is_empty (delete name registered)) eqn:Hempty.
      * destruct (decide (domain' = domain)) as [->|Hne].
        -- rewrite lookup_delete_eq, Hdomain. cbn.
           destruct (decide (name' = name)) as [->|Hname'].
           ++ by rewrite decide_True.
           ++ rewrite decide_False by naive_solver.
              rewrite <- (dict_is_empty_lookup _ name' Hempty).
              by rewrite lookup_delete_ne.
        -- rewrite lookup_delete_ne by done. by rewrite decide_False by naive_solver.
      * destruct (decide (domain' = domain)) as [->|Hne].
        -- rewrite lookup_insert_eq, Hdomain. cbn.
           destruct (decide (name' = name)) as [->|Hname'].
           ++ rewrite decide_True by done. apply lookup_delete_eq.
           ++ rewrite decide_False by naive_solver. by rewrite lookup_delete_ne.
        -- rewrite lookup_insert_ne by done. by rewrite decide_False by naive_solver.
    + case_decide as Heq; [|done]. destruct Heq as [-> ->]. by rewrite Hdomain.
  - case_decide as Heq; [|done]. destruct Heq as [-> ->]. by rewrite Hdomain.
Qed.

Lemma async_remove_absent domain name hass :
  registration hass domain name = None → async_remove domain name hass = hass.
Proof.
  unfold registration, async_remove.
  destruct (services hass !! domain) as [registered|]; cbn; [|done].
  by intros ->.
Qed.

Lemma hass_data_async_remove domain name hass :
  hass_data (async_remove domain name hass) = hass_data hass
  ∧ device_registry (async_remove domain name hass) = device_registry hass.
Proof.
  unfold async_remove. destruct (services hass !! domain) as [registered|]; [|done].
  by destruct (registered !! name).
Qed.

Lemma registration_unregistered hass name :
  domain_services_registered hass = false → registration hass DOMAIN name = None.
Proof.
  unfold domain_services_registered, registration.
  destruct (services hass !! DOMAIN) as [registered|]; [|done]. cbn.
  intros Hempty. apply negb_false_iff in Hempty. by apply dict_is_empty_lookup.
Qed.

Lemma registration_registered hass name s :
  registration hass DOMAIN name = Some s → domain_services_registered hass = true.
Proof.
  unfold domain_services_registered, registration.
  destruct (services hass !! DOMAIN) as [registered|]; [|done]. cbn.
  intros Hname. by rewrite (dict_is_empty_false _ _ _ Hname).
Qed.

(** The registrations after the removal of a list of names of the domain. *)
Lemma registration_remove_all names hass domain name :
  registration (foldl (λ hass n, async_remove DOMAIN n hass) hass names) domain name
  = if decide (domain = DOMAIN ∧ name ∈ names) then None else registration hass domain name.
Proof.
  revert hass. induction names as [|n names IH]; intros hass; cbn [foldl].
  - rewrite decide_False; [done|]. intros [_ Hin]. by apply elem_of_nil in Hin.
  - rewrite IH, registration_async_remove.
    repeat case_decide; try done; exfalso; set_solver.
Qed.

(** The registrations after setup on an instance without services of the
    domain. *)
Lemma registration_async_setup_services hass domain name :
  domain_services_registered hass = false →
  registration (async_setup_services hass) domain name
  = if decide (domain = DOMAIN ∧ name = SERVICE_PUT_PARAMSET)
    then Some (mk_service hahm_service_func PUT_PARAMSET_SCHEMA)
    else if decide (domain = DOMAIN ∧ name = SERVICE_SET_INSTALL_MODE)
    then Some (mk_service admin_service_func SET_INSTALL_MODE_SCHEMA)
    else if decide (domain = DOMAIN ∧ name = SERVICE_SET_DEVICE_VALUE)
    then Some (mk_service hahm_service_func SET_DEVICE_VALUE_SCHEMA)
    else if decide (domain = DOMAIN ∧ name = SERVICE_DISABLE_AWAY_MODE)
    then Some (mk_service hahm_service_func DISABLE_AWAY_MODE_SCHEMA)
    else if decide (domain = DOMAIN ∧ name = SERVICE_ENABLE_AWAY_MODE_BY_CALENDAR)
    then Some (mk_service hahm_service_func ENABLE_AWAY_MODE_BY_CALENDAR_SCHEMA)
    else if decide (domain = DOMAIN ∧ name = SERVICE_SET_VARIABLE_VALUE)
    then Some (mk_service hahm_service_func SET_VARIABLE_VALUE_SCHEMA)
    else registration hass domain name.
Proof.
  intros Hfresh. unfold async_setup_services. rewrite Hfresh.
  unfold async_register_admin_service. by rewrite !registration_async_register.
Qed.

Lemma hass_data_async_setup_services hass :
  hass_data (async_setup_services hass) = hass_data hass
  ∧ device_registry (async_setup_services hass) = device_registry hass.
Proof. unfold async_setup_services. by destruct (domain_services_registered hass). Qed.

Lemma hass_data_remove_all names hass :
  hass_data (foldl (λ hass n, async_remove DOMAIN n hass) hass names) = hass_data hass
  ∧ device_registry (foldl (λ hass n, async_remove DOMAIN n hass) hass names)
    = device_registry hass.
Proof.
  revert hass. induction names as [|n names IH]; intros hass; cbn [foldl]; [done|].
  destruct (IH (async_remove DOMAIN n hass)) as [-> ->].
  apply hass_data_async_remove.
Qed.

(** The registrations after teardown with no control unit left. *)
Lemma registration_async_unload_services hass domain name :
  hass_data hass = [] →
  registration (async_unload_services hass) domain name
  = if decide (domain = DOMAIN ∧ name ∈ HAHM_SERVICES) then None
    else registration hass domain name.
Proof.
  intros Hnone. unfold async_unload_services. rewrite Hnone.
  apply registration_remove_all.
Qed.

Lemma foldl_async_remove_absent names hass :
  (∀ n, n ∈ names → registration hass DOMAIN n = None) →
  foldl (λ hass n, async_remove DOMAIN n hass) hass names = hass.
Proof.
  induction names as [|n names IH]; intros Habsent; cbn [foldl]; [done|].
  rewrite async_remove_absent by (apply Habsent; left).
  apply IH. intros n' Hin. apply Habsent. by right.
Qed.

(** X1.  On an instance that has no service of the domain, setup registers
    exactly the six services, each with the schema of its name and
    [set_install_mode] alone behind the administrator check; the services of
    other domains, the control units and the device registry stay as they
    were. *)
Theorem async_setup_services_registry hass :
  domain_services_registered hass = false →
  let after := async_setup_services hass in
  (∀ name, has_service after DOMAIN name = true ↔ name ∈ REGISTERED_SERVICES)
  ∧ registration after DOMAIN SERVICE_SET_VARIABLE_VALUE
    = Some (mk_service hahm_service_func SET_VARIABLE_VALUE_SCHEMA)
  ∧ registration after DOMAIN SERVICE_ENABLE_AWAY_MODE_BY_CALENDAR
    = Some (mk_service hahm_service_func ENABLE_AWAY_MODE_BY_CALENDAR_SCHEMA)
  ∧ registration after DOMAIN SERVICE_DISABLE_AWAY_MODE
    = Some (mk_service hahm_service_func DISABLE_AWAY_MODE_SCHEMA)
  ∧ registration after DOMAIN SERVICE_SET_DEVICE_VALUE
    = Some (mk_service hahm_service_func SET_DEVICE_VALUE_SCHEMA)
  ∧ registration after DOMAIN SERVICE_SET_INSTALL_MODE
    = Some (mk_service admin_service_func SET_INSTALL_MODE_SCHEMA)
  ∧ registration after DOMAIN SERVICE_PUT_PARAMSET
    = Some (mk_service hahm_service_func PUT_PARAMSET_SCHEMA)
  ∧ (∀ domain name, domain ≠ DOMAIN →
       registration after domain name = registration hass domain name)
  ∧ hass_data after = hass_data hass
  ∧ device_registry after = device_registry hass.
Proof.
  intros Hfresh after. subst after.
  refine (conj _ (conj _ (conj _ (conj _ (conj _ (conj _ (conj _ (conj _ _)))))))).
  - intros name. rewrite has_service_registration.
    rewrite (registration_async_setup_services _ _ _ Hfresh).
    rewrite (registration_unregistered _ name Hfresh). unfold REGISTERED_SERVICES.
    rewrite !elem_of_cons, elem_of_nil.
    repeat case_decide; split; intros Hyp; try (by eexists); try naive_solver;
      by destruct Hyp.
  - by rewrite (registration_async_setup_services _ _ _ Hfresh).
  - by rewrite (registration_async_setup_services _ _ _ Hfresh).
  - by rewrite (registration_async_setup_services _ _ _ Hfresh).
  - by rewrite (registration_async_setup_services _ _ _ Hfresh).
  - by rewrite (registration_async_setup_services _ _ _ Hfresh).
  - by rewrite (registration_async_setup_services _ _ _ Hfresh).
  - intros domain name Hne. rewrite (registration_async_setup_services _ _ _ Hfresh).
    repeat (rewrite decide_False by naive_solver). done.
  - apply hass_data_async_setup_services.
Qed.

(** On the empty instance, [set_install_mode] is registered behind the
    administrator check, and [disable_away_mode] is a service. *)
Lemma async_setup_services_registry_witness :
  registration (async_setup_services empty_hass) DOMAIN SERVICE_SET_INSTALL_MODE
  = Some (mk_service admin_service_func SET_INSTALL_MODE_SCHEMA)
  ∧ has_service (async_setup_services empty_hass) DOMAIN SERVICE_DISABLE_AWAY_MODE = true.
Proof.
  destruct (async_setup_services_registry empty_hass eq_refl)
    as (Hnames & _ & _ & _ & _ & Hinstall & _).
  split; [exact Hinstall|].
  apply Hnames. apply (bool_decide_unpack _). vm_compute. exact I.
Defined.

(** X2.  Teardown while a control unit is left changes nothing.  Teardown
    with none left removes the registrations of the names in
    [HAHM_SERVICES], whatever was registered, and nothing else: every other
    registration, of the domain or of another one, the control units and the
    device registry stay as they were. *)
Theorem async_unload_services_registry hass :
  (hass_data hass ≠ [] → async_unload_services hass = hass)
  ∧ (hass_data hass = [] →
     (∀ domain name,
        registration (async_unload_services hass) domain name
        = if decide (domain = DOMAIN ∧ name ∈ HAHM_SERVICES) then None
          else registration hass domain name)
     ∧ hass_data (async_unload_services hass) = []
     ∧ device_registry (async_unload_services hass) = device_registry hass).
Proof.
  split.
  - unfold async_unload_services. by destruct (hass_data hass).
  - intros Hnone. refine (conj _ (conj _ _)).
    + intros domain name. by apply registration_async_unload_services.
    + unfold async_unload_services. rewrite Hnone.
      by rewrite (proj1 (hass_data_remove_all _ _)).
    + unfold async_unload_services. rewrite Hnone.
      by rewrite (proj2 (hass_data_remove_all _ _)).
Qed.

(** Teardown of the instance that was just set up removes [put_paramset]. *)
Lemma async_unload_services_registry_witness :
  registration (async_unload_services (async_setup_services empty_hass))
    DOMAIN SERVICE_PUT_PARAMSET = None.
Proof.
  rewrite (proj1 (proj2 (async_unload_services_registry (async_setup_services empty_hass))
                    eq_refl)).
  reflexivity.
Defined.

(** X3.  Teardown is idempotent: a second teardown finds nothing left to
    remove. *)
Theorem async_unload_services_twice hass :
  async_unload_services (async_unload_services hass) = async_unload_services hass.
Proof.
  destruct (hass_data hass) as [|entry rest] eqn:Hdata.
  - assert (Hnone : hass_data (async_unload_services hass) = []).
    { unfold async_unload_services. rewrite Hdata.
      by rewrite (proj1 (hass_data_remove_all _ _)). }
    unfold async_unload_services at 1. rewrite Hnone.
    apply foldl_async_remove_absent. intros n Hin.
    rewrite (registration_async_unload_services _ _ _ Hdata). by rewrite decide_True.
  - unfold async_unload_services. rewrite Hdata. cbn. by rewrite Hdata.
Qed.

(** X4.  After a setup and a teardown with no control unit left,
    [disable_away_mode] is the one registration of the domain, so the guard
    of the next setup sees the domain as set up: that setup registers
    nothing, and the five removed services stay away. *)
Theorem async_setup_services_after_unload hass :
  hass_data hass = [] →
  domain_services_registered hass = false →
  let torn_down := async_unload_services (async_setup_services hass) in
  async_setup_services torn_down = torn_down
  ∧ Forall (λ name, has_service (async_setup_services torn_down) DOMAIN name = false)
      HAHM_SERVICES.
Proof.
  intros Hnone Hfresh torn_down.
  rewrite <- (proj1 (hass_data_async_setup_services hass)) in Hnone.
  assert (Hlookup : ∀ domain name,
    registration torn_down domain name
    = if decide (domain = DOMAIN ∧ name ∈ HAHM_SERVICES) then None
      else registration (async_setup_services hass) domain name).
  { intros domain name. by apply registration_async_unload_services. }
  assert (Hguard : async_setup_services torn_down = torn_down).
  { unfold async_setup_services.
    rewrite (registration_registered torn_down SERVICE_DISABLE_AWAY_MODE
               (mk_service hahm_service_func DISABLE_AWAY_MODE_SCHEMA)); [done|].
    rewrite Hlookup, decide_False.
    - by rewrite (registration_async_setup_services _ _ _ Hfresh).
    - intros [_ Hin]. unfold HAHM_SERVICES in Hin.
      rewrite !elem_of_cons, elem_of_nil in Hin. naive_solver. }
  split; [exact Hguard|]. rewrite Hguard.
  apply Forall_forall. intros name Hin.
  apply not_true_is_false. rewrite has_service_registration, Hlookup.
  rewrite decide_True by done. by intros [? ?].
Qed.

(** Setup, teardown and setup again of the empty instance. *)
Lemma async_setup_services_after_unload_witness :
  async_setup_services (async_unload_services (async_setup_services empty_hass))
  = async_unload_services (async_setup_services empty_hass).
Proof. apply (async_setup_services_after_unload empty_hass); reflexivity. Defined.

(** ** The lookups *)

Section LookupProperties.
Context `{Platform}.

Lemma _get_cu_by_interface_id_in_first before entry_id control_unit after interface_id :
  (∀ e c, (e, c) ∈ before → clients (central c) !! interface_id = None) →
  is_Some (clients (central control_unit) !! interface_id) →
  _get_cu_by_interface_id_in (before ++ (entry_id, control_unit) :: after) (VStr interface_id)
  = Ok (Some control_unit).
Proof.
  intros Hbefore [client Hclient]. induction before as [|[e c] before IH]; cbn.
  - by rewrite Hclient.
  - rewrite (Hbefore e c) by left. cbn. apply IH.
    intros e' c' Hin. apply (Hbefore e' c'). by right.
Qed.

Lemma _get_cu_by_interface_id_in_none control_units interface_id :
  (∀ e c, (e, c) ∈ control_units → clients (central c) !! interface_id = None) →
  _get_cu_by_interface_id_in control_units (VStr interface_id) = Ok None.
Proof.
  intros Hnone. induction control_units as [|[e c] rest IH]; cbn; [done|].
  rewrite (Hnone e c) by left. cbn. apply IH.
  intros e' c' Hin. apply (Hnone e' c'). by right.
Qed.

(** X5.  [_get_cu_by_interface_id] returns the first control unit, in the
    order of the dict, whose central unit has a client for the interface id,
    and [None] when no control unit has one; a key that is not a string finds
    nothing, and a list or a dict as key raises [TypeError] as soon as there
    is a control unit to ask. *)
Theorem get_cu_by_interface_id_first hass :
  (∀ before entry_id control_unit after interface_id,
      hass_data hass = before ++ (entry_id, control_unit) :: after →
      (∀ e c, (e, c) ∈ before → clients (central c) !! interface_id = None) →
      is_Some (clients (central control_unit) !! interface_id) →
      _get_cu_by_interface_id hass (VStr interface_id) = Ok (Some control_unit))
  ∧ (∀ interface_id,
      (∀ e c, (e, c) ∈ hass_data hass → clients (central c) !! interface_id = None) →
      _get_cu_by_interface_id hass (VStr interface_id) = Ok None)
  ∧ (∀ interface_id control_unit,
      _get_cu_by_interface_id hass (VStr interface_id) = Ok (Some control_unit) →
      is_Some (clients (central control_unit) !! interface_id)
      ∧ ∃ entry_id, (entry_id, control_unit) ∈ hass_data hass)
  ∧ (∀ key,
      match key with
      | VStr _ => True
      | VList _ | VDict _ =>
          _get_cu_by_interface_id hass key
          = match hass_data hass with [] => Ok None | _ :: _ => Raise TypeError end
      | _ => _get_cu_by_interface_id hass key = Ok None
      end).
Proof.
  unfold _get_cu_by_interface_id. refine (conj _ (conj _ (conj _ _))).
  - intros before entry_id control_unit after interface_id -> Hbefore Hclient.
    by apply _get_cu_by_interface_id_in_first.
  - intros interface_id. apply _get_cu_by_interface_id_in_none.
  - intros interface_id control_unit. induction (hass_data hass) as [|[e c] rest IH]; cbn.
    + discriminate.
    + destruct (clients (central c) !! interface_id) as [client|] eqn:Hclient; cbn.
      * intros [= <-]. split; [by eexists|]. exists e. left.
      * intros Hrest. destruct (IH Hrest) as [Hsome [e' Hin]].
        split; [done|]. exists e'. by right.
  - intros key. destruct key; try done;
      induction (hass_data hass) as [|[e c] rest IH]; cbn; done.
Qed.

(** X6.  [_get_entity] returns an entity only if it is a [BaseEntity] that
    some control unit knows under the id; a control unit that knows the id
    as something else is passed over and the search goes on; the result is
    [None] exactly when no control unit knows the id as a [BaseEntity]. *)
Theorem get_entity_first hass entity_id :
  (∀ hm_entity,
      _get_entity hass entity_id = Some hm_entity →
      isinstance_BaseEntity (entity_class hm_entity) = true
      ∧ ∃ entry_id control_unit,
          (entry_id, control_unit) ∈ hass_data hass
          ∧ async_get_hm_entity control_unit entity_id = Some hm_entity)
  ∧ (_get_entity hass entity_id = None ↔
     ∀ entry_id control_unit hm_entity,
       (entry_id, control_unit) ∈ hass_data hass →
       async_get_hm_entity control_unit entity_id = Some hm_entity →
       isinstance_BaseEntity (entity_class hm_entity) = false)
  ∧ (∀ before entry_id control_unit after hm_entity,
      hass_data hass = before ++ (entry_id, control_unit) :: after →
      (∀ e c x, (e, c) ∈ before → async_get_hm_entity c entity_id = Some x →
                isinstance_BaseEntity (entity_class x) = false) →
      async_get_hm_entity control_unit entity_id = Some hm_entity →
      isinstance_BaseEntity (entity_class hm_entity) = true →
      _get_entity hass entity_id = Some hm_entity).
Proof.
  unfold _get_entity. refine (conj _ (conj _ _)).
  - intros hm_entity. induction (hass_data hass) as [|[e c] rest IH]; cbn; [discriminate|].
    destruct (async_get_hm_entity c entity_id) as [x|] eqn:Hknown.
    + destruct (isinstance_BaseEntity (entity_class x)) eqn:Hbase.
      * intros [= <-]. split; [done|]. exists e, c. split; [left|done].
      * intros Hrest. destruct (IH Hrest) as (Hb & e' & c' & Hin & Hget).
        split; [done|]. exists e', c'. split; [by right|done].
    + intros Hrest. destruct (IH Hrest) as (Hb & e' & c' & Hin & Hget).
      split; [done|]. exists e', c'. split; [by right|done].
  - induction (hass_data hass) as [|[e c] rest IH]; cbn.
    + split; [|done]. intros _ ? ? ? Hin. by apply elem_of_nil in Hin.
    + destruct (async_get_hm_entity c entity_id) as [x|] eqn:Hknown.
      * destruct (isinstance_BaseEntity (entity_class x)) eqn:Hbase.
        -- split; [discriminate|]. intros Hall.
           specialize (Hall e c x ltac:(left) Hknown). congruence.
        -- rewrite IH. split.
           ++ intros Hall e' c' x' Hin Hget.
              apply elem_of_cons in Hin as [[= -> ->] | Hin]; [congruence | eauto].
           ++ intros Hall e' c' x' Hin. apply (Hall e' c' x'). by right.
      * rewrite IH. split.
        -- intros Hall e' c' x' Hin Hget.
           apply elem_of_cons in Hin as [[= -> ->] | Hin]; [congruence | eauto].
        -- intros Hall e' c' x' Hin. apply (Hall e' c' x'). by right.
  - intros before entry_id control_unit after hm_entity -> Hbefore Hknown Hbase.
    induction before as [|[e c] before IH]; cbn.
    + by rewrite Hknown, Hbase.
    + destruct (async_get_hm_entity c entity_id) as [x|] eqn:Hx.
      * rewrite (Hbefore e c x) by (done || left).
        apply IH. intros e' c' x' Hin. apply (Hbefore e' c' x'). by right.
      * apply IH. intros e' c' x' Hin. apply (Hbefore e' c' x'). by right.
Qed.

(** X7.  [_get_hub_by_entity_id] returns the hub of a control unit whose
    entity id is the given string, the first one in the order of the dict;
    it returns [None] exactly when no control unit has such a hub, in
    particular for every entity id that is not a string. *)
Theorem get_hub_by_entity_id_first hass entity_id :
  (∀ h,
      _get_hub_by_entity_id hass entity_id = Some h →
      entity_id = VStr (hub_entity_id h)
      ∧ ∃ entry_id control_unit,
          (entry_id, control_unit) ∈ hass_data hass ∧ hub control_unit = Some h)
  ∧ (_get_hub_by_entity_id hass entity_id = None ↔
     ∀ entry_id control_unit h,
       (entry_id, control_unit) ∈ hass_data hass →
       hub control_unit = Some h →
       entity_id ≠ VStr (hub_entity_id h))
  ∧ (∀ before entry_id control_unit after h,
      hass_data hass = before ++ (entry_id, control_unit) :: after →
      (∀ e c x, (e, c) ∈ before → hub c = Some x → entity_id ≠ VStr (hub_entity_id x)) →
      hub control_unit = Some h →
      entity_id = VStr (hub_entity_id h) →
      _get_hub_by_entity_id hass entity_id = Some h).
Proof.
  assert (Heq : ∀ s, py_eq_str entity_id s = true ↔ entity_id = VStr s).
  { intros s. destruct entity_id; cbn; try (split; [discriminate | by intros [=]]).
    rewrite String.eqb_eq. split; [by intros -> | by intros [= ->]]. }
  assert (Hne : ∀ s, py_eq_str entity_id s = false ↔ entity_id ≠ VStr s).
  { intros s. rewrite <- Heq. by destruct (py_eq_str entity_id s). }
  unfold _get_hub_by_entity_id. refine (conj _ (conj _ _)).
  - intros h. induction (hass_data hass) as [|[e c] rest IH]; cbn; [discriminate|].
    destruct (hub c) as [x|] eqn:Hhub.
    + destruct (py_eq_str entity_id (hub_entity_id x)) eqn:Hid.
      * intros [= <-]. split; [by apply Heq|]. exists e, c. split; [left|done].
      * intros Hrest. destruct (IH Hrest) as (Hb & e' & c' & Hin & Hget).
        split; [done|]. exists e', c'. split; [by right|done].
    + intros Hrest. destruct (IH Hrest) as (Hb & e' & c' & Hin & Hget).
      split; [done|]. exists e', c'. split; [by right|done].
  - induction (hass_data hass) as [|[e c] rest IH]; cbn.
    + split; [|done]. intros _ ? ? ? Hin. by apply elem_of_nil in Hin.
    + destruct (hub c) as [x|] eqn:Hhub.
      * destruct (py_eq_str entity_id (hub_entity_id x)) eqn:Hid.
        -- split; [discriminate|]. intros Hall. apply Heq in Hid.
           by destruct (Hall e c x ltac:(left) Hhub).
        -- rewrite IH. split.
           ++ intros Hall e' c' x' Hin Hget.
              apply elem_of_cons in Hin as [[= -> ->] | Hin]; [|eauto].
              apply Hne. congruence.
           ++ intros Hall e' c' x' Hin. apply (Hall e' c' x'). by right.
      * rewrite IH. split.
        -- intros Hall e' c' x' Hin Hget.
           apply elem_of_cons in Hin as [[= -> ->] | Hin]; [congruence | eauto].
        -- intros Hall e' c' x' Hin. apply (Hall e' c' x'). by right.
  - intros before entry_id control_unit after h -> Hbefore Hhub Hid.
    induction before as [|[e c] before IH]; cbn.
    + rewrite Hhub. apply Heq in Hid. by rewrite Hid.
    + destruct (hub c) as [x|] eqn:Hx.
      * rewrite (proj2 (Hne _) (Hbefore e c x ltac:(left) Hx)).
        apply IH. intros e' c' x' Hin. apply (Hbefore e' c' x'). by right.
      * apply IH. intros e' c' x' Hin. apply (Hbefore e' c' x'). by right.
Qed.

(** X21.  [_get_hm_entity] asks one central unit only: that of the first
    control unit, in the order of the dict, that has a client for the
    interface id, whatever the control units behind it would answer; when no
    control unit has such a client it returns [None] and asks none. *)
Theorem get_hm_entity_first {GenericEntity : Type}
    (get_hm_entity_by_parameter : CentralUnit → PyValue → PyValue → option GenericEntity)
    hass channel_address parameter :
  (∀ before entry_id control_unit after interface_id,
      hass_data hass = before ++ (entry_id, control_unit) :: after →
      (∀ e c, (e, c) ∈ before → clients (central c) !! interface_id = None) →
      is_Some (clients (central control_unit) !! interface_id) →
      _get_hm_entity get_hm_entity_by_parameter hass (VStr interface_id) channel_address
        parameter
      = Ok (get_hm_entity_by_parameter (central control_unit) channel_address parameter))
  ∧ (∀ interface_id,
      (∀ e c, (e, c) ∈ hass_data hass → clients (central c) !! interface_id = None) →
      _get_hm_entity get_hm_entity_by_parameter hass (VStr interface_id) channel_address
        parameter
      = Ok None).
Proof.
  unfold _get_hm_entity, _get_cu_by_interface_id. split.
  - intros before entry_id control_unit after interface_id -> Hbefore Hclient.
    by rewrite (_get_cu_by_interface_id_in_first _ _ _ _ _ Hbefore Hclient).
  - intros interface_id Hnone.
    by rewrite (_get_cu_by_interface_id_in_none _ _ Hnone).
Qed.
End LookupProperties.

(** ** The handlers of [set_variable_value] and [set_install_mode] *)

Section HandlerProperties.
Context `{Platform}.

Lemma _get_hub_by_entity_id_in_cases control_units entity_id :
  (∃ h, _get_hub_by_entity_id_in control_units entity_id = Some h
        ∧ entity_id = VStr (hub_entity_id h)
        ∧ ∃ entry_id control_unit,
            (entry_id, control_unit) ∈ control_units ∧ hub control_unit = Some h)
  ∨ (_get_hub_by_entity_id_in control_units entity_id = None
     ∧ ∀ entry_id control_unit h,
         (entry_id, control_unit) ∈ control_units →
         hub control_unit = Some h →
         entity_id ≠ VStr (hub_entity_id h)).
Proof.
  induction control_units as [|[e c] rest IH]; cbn.
  - right. split; [done|]. intros ? ? ? Hin. by apply elem_of_nil in Hin.
  - destruct (hub c) as [x|] eqn:Hhub.
    + destruct (py_eq_str entity_id (hub_entity_id x)) eqn:Hid.
      * left. exists x. split; [done|]. split.
        -- destruct entity_id; try discriminate. cbn in Hid.
           apply String.eqb_eq in Hid. by subst.
        -- exists e, c. split; [left|done].
      * destruct IH as [(h & -> & Heq & e' & c' & Hin & Hh) | [-> Hnone]].
        -- left. exists h. repeat split; [done|]. exists e', c'. split; [by right|done].
        -- right. split; [done|]. intros e' c' h' Hin Hh.
           apply elem_of_cons in Hin as [[= -> ->] | Hin]; [|eauto].
           intros ->. rewrite Hhub in Hh. injection Hh as ->.
           cbn in Hid. by rewrite String.eqb_refl in Hid.
    + destruct IH as [(h & -> & Heq & e' & c' & Hin & Hh) | [-> Hnone]].
      * left. exists h. repeat split; [done|]. exists e', c'. split; [by right|done].
      * right. split; [done|]. intros e' c' h' Hin Hh.
        apply elem_of_cons in Hin as [[= -> ->] | Hin]; [congruence | eauto].
Qed.

(** X9.  [set_variable_value] with its three keys: when no control unit has
    a hub with the entity id, nothing happens and the handler returns; when
    one has, the one event is [async_set_variable(name, value)] on that hub,
    and the handler ends as that call ends. *)
Theorem set_variable_value_on_hub hass call entity_id name value h :
  data call !! ATTR_ENTITY_ID = Some entity_id →
  data call !! ATTR_NAME = Some name →
  data call !! ATTR_VALUE = Some value →
  (_async_service_set_variable_value hass call h = (h, Ok tt)
   ∧ ∀ entry_id control_unit hb,
       (entry_id, control_unit) ∈ hass_data hass →
       hub control_unit = Some hb →
       entity_id ≠ VStr (hub_entity_id hb))
  ∨ (∃ hb,
       entity_id = VStr (hub_entity_id hb)
       ∧ (∃ entry_id control_unit,
            (entry_id, control_unit) ∈ hass_data hass ∧ hub control_unit = Some hb)
       ∧ _async_service_set_variable_value hass call h
         = (h ++ [async_set_variable hb name value],
            match backend_raises h (async_set_variable hb name value) with
            | Some exc => Raise exc
            | None => Ok tt
            end)).
Proof.
  intros Hid Hname Hvalue. unfold _async_service_set_variable_value.
  rewrite (item_present _ _ _ _ _ Hid), (item_present _ _ _ _ _ Hname),
    (item_present _ _ _ _ _ Hvalue).
  unfold _get_hub_by_entity_id.
  destruct (_get_hub_by_entity_id_in_cases (hass_data hass) entity_id)
    as [(hb & -> & Heq & Hin) | [-> Hnone]].
  - right. exists hb. split; [done|]. split; [done|].
    unfold await_backend. by destruct (backend_raises h (async_set_variable hb name value)).
  - left. split; [done|]. exact Hnone.
Qed.

(** X10.  [set_install_mode] with a string as interface id: when no control
    unit has a client for the interface nothing happens; otherwise the one
    event is [set_install_mode] of a control unit of the instance that has
    one, with the time and the mode of the payload, 60 and 1 where the
    payload has none, and the device address or [None]; the handler ends as
    that call ends. *)
Theorem set_install_mode_on_interface hass call interface_id h :
  data call !! ATTR_INTERFACE_ID = Some (VStr interface_id) →
  (_async_service_set_install_mode hass call h = (h, Ok tt)
   ∧ ¬ has_active_client hass interface_id)
  ∨ (∃ entry_id control_unit,
       (entry_id, control_unit) ∈ hass_data hass
       ∧ is_Some (clients (central control_unit) !! interface_id)
       ∧ let e := set_install_mode control_unit (VStr interface_id)
                    (default (VInt 60) (data call !! ATTR_TIME))
                    (default (VInt 1) (data call !! ATTR_MODE))
                    (default VNone (data call !! ATTR_ADDRESS)) in
         _async_service_set_install_mode hass call h
         = (h ++ [e],
            match backend_raises h e with Some exc => Raise exc | None => Ok tt end)).
Proof.
  intros Hid. unfold _async_service_set_install_mode.
  rewrite (item_present _ _ _ _ _ Hid). cbv zeta.
  unfold _get_cu_by_interface_id.
  destruct (_get_cu_by_interface_id_in_str (hass_data hass) interface_id)
    as [(cu & Hcu & eid & client & Hin & Hclient) | [Hcu Hnone]].
  - right. exists eid, cu. split; [done|]. split; [by eexists|].
    unfold mbind, M_bind, bind. rewrite Hcu. cbn [lift ret].
    unfold await_backend, dict_get_default, dict_get.
    by destruct (backend_raises h _).
  - left. unfold mbind, M_bind, bind. rewrite Hcu. split; [done|].
    intros (eid & cu & client & Hin & Hclient). by rewrite (Hnone _ _ Hin) in Hclient.
Qed.

(** X11.  A handler whose payload lacks a key it reads with
    [service.data[key]] raises [KeyError] of the first such key, before any
    lookup or backend call: the history is untouched. *)
Theorem handler_missing_key name hass call present key rest h :
  indexed_keys name = present ++ key :: rest →
  (∀ k, k ∈ present → is_Some (data call !! k)) →
  data call !! key = None →
  handler_of name hass call h = (h, Raise (KeyError key)).
Proof.
  intros Hkeys Hpresent Hmissing.
  assert (Hitem : ∀ (k : PyValue → M unit), (item call key ≫= k) h = (h, Raise (KeyError key))).
  { intros k. unfold item, dict_item. by rewrite Hmissing. }
  destruct name; cbn in Hkeys;
    repeat match goal with
    | Hk : _ :: _ = ?p ++ _ :: _, Hp : ∀ k, k ∈ ?p → is_Some (data call !! k) |- _ =>
        destruct p as [|k0 p0]; cbn in Hk;
        [ injection Hk as <- <-
        | injection Hk as <- Hk;
          let v := fresh "v" in
          let Hv := fresh "Hv" in
          destruct (Hp _ ltac:(left)) as [v Hv];
          assert (∀ k, k ∈ p0 → is_Some (data call !! k))
            by (intros ? ?; apply Hp; by right);
          clear Hp ]
    | Hk : [] = ?p ++ _ :: _ |- _ => by destruct p
    end;
    cbn [handler_of];
    unfold _async_service_set_variable_value, _async_service_enable_away_mode_by_calendar,
      _async_service_disable_away_mode, _async_service_set_install_mode,
      _async_service_set_device_value, _async_service_put_paramset;
    repeat match goal with
    | Hv : data call !! ?k = Some ?v |- _ =>
        rewrite (item_present call k v _ _ Hv); clear Hv
    end;
    apply Hitem.
Qed.
End HandlerProperties.

(** ** What a schema guarantees the handler *)

Lemma insert_defaults_other schema (d : gmap string PyValue) k :
  k ∉ schema_keys schema → insert_defaults schema d !! k = d !! k.
Proof.
  unfold insert_defaults, schema_keys.
  induction schema as [|entry schema IH]; cbn [foldr fmap list_fmap]; [done|].
  intros Hk. apply not_elem_of_cons in Hk as [Hne Hk].
  set (provided := foldr _ d schema) in *.
  destruct (marker_default entry.1) as [dflt|]; [|by apply IH].
  destruct (provided !! marker_key entry.1); [by apply IH|].
  rewrite lookup_insert_ne by done. by apply IH.
Qed.

(** The payload with its defaults, at a key of the schema. *)
Lemma insert_defaults_lookup schema (d : gmap string PyValue) marker validator :
  NoDup (schema_keys schema) →
  (marker, validator) ∈ schema →
  insert_defaults schema d !! marker_key marker
  = match d !! marker_key marker with
    | Some v => Some v
    | None => marker_default marker
    end.
Proof.
  induction schema as [|entry schema IH]; intros Hnodup Hin.
  - by apply elem_of_nil in Hin.
  - cbn in Hnodup. apply NoDup_cons in Hnodup as [Hfresh Hnodup].
    change (insert_defaults (entry :: schema) d)
      with (match marker_default entry.1, insert_defaults schema d !! marker_key entry.1 with
            | Some dflt, None => <[marker_key entry.1 := dflt]> (insert_defaults schema d)
            | _, _ => insert_defaults schema d
            end).
    apply elem_of_cons in Hin as [<- | Hin].
    + cbn [fst] in *. rewrite (insert_defaults_other schema d _ Hfresh).
      destruct (marker_default marker) as [dflt|].
      * destruct (d !! marker_key marker) eqn:Hd.
        -- by rewrite insert_defaults_other, Hd.
        -- by rewrite lookup_insert_eq.
      * rewrite insert_defaults_other by done. by destruct (d !! marker_key marker).
    + assert (marker_key entry.1 ≠ marker_key marker) as Hne.
      { intros Heq. apply Hfresh. rewrite Heq.
        apply (list_elem_of_fmap_2 (λ entry : Marker * Validator, marker_key entry.1)
                 _ (marker, validator) Hin). }
      destruct (marker_default entry.1) as [dflt|]; [|by apply IH].
      destruct (insert_defaults schema d !! marker_key entry.1); [by apply IH|].
      rewrite lookup_insert_ne by done. by apply IH.
Qed.

Lemma vol_Schema_inv schema d out :
  vol_Schema schema d = Ok out →
  validate_values schema (insert_defaults schema d) = Ok (out, false)
  ∧ missing_required schema (insert_defaults schema d) = false.
Proof.
  unfold vol_Schema.
  destruct (validate_values schema (insert_defaults schema d)) as [[out' bad]|e];
    [|discriminate].
  cbn [result_bind fst snd]. destruct bad; [discriminate|]. cbn [orb].
  destruct (has_extra_keys schema (insert_defaults schema d)); [discriminate|].
  cbn [orb].
  destruct (missing_required schema (insert_defaults schema d)); [discriminate|].
  by intros [= ->].
Qed.

(** A key of the schema that the payload or a default provides has, in the
    validated payload, the value its validator returned. *)
Lemma vol_Schema_provided schema d out marker validator v :
  NoDup (schema_keys schema) →
  vol_Schema schema d = Ok out →
  (marker, validator) ∈ schema →
  match d !! marker_key marker with
  | Some v => Some v
  | None => marker_default marker
  end = Some v →
  ∃ v', validator v = Ok v' ∧ out !! marker_key marker = Some v'.
Proof.
  intros Hnodup Hvalid Hin Hv.
  destruct (vol_Schema_inv _ _ _ Hvalid) as [Hvalues _].
  apply (validate_values_accepted schema (insert_defaults schema d)); try done.
  by rewrite (insert_defaults_lookup _ _ _ _ Hnodup Hin).
Qed.

(** A required key is provided, by the payload or by its default. *)
Lemma vol_Schema_required schema d out marker validator :
  NoDup (schema_keys schema) →
  vol_Schema schema d = Ok out →
  (marker, validator) ∈ schema →
  marker_required marker = true →
  ∃ v v',
    match d !! marker_key marker with
    | Some v => Some v
    | None => marker_default marker
    end = Some v
    ∧ validator v = Ok v'
    ∧ out !! marker_key marker = Some v'.
Proof.
  intros Hnodup Hvalid Hin Hrequired.
  destruct (vol_Schema_inv _ _ _ Hvalid) as [_ Hmissing].
  unfold missing_required in Hmissing.
  assert (is_Some (insert_defaults schema d !! marker_key marker)) as [v Hv].
  { destruct (insert_defaults schema d !! marker_key marker) eqn:Hp; [by eexists|].
    exfalso. apply not_true_iff_false in Hmissing. apply Hmissing.
    apply existsb_exists. exists (marker, validator). split; [by apply list_elem_of_In|].
    cbn [fst]. rewrite Hrequired, Hp. reflexivity. }
  rewrite (insert_defaults_lookup _ _ _ _ Hnodup Hin) in Hv.
  destruct (vol_Schema_provided _ _ _ _ _ _ Hnodup Hvalid Hin Hv) as (v' & Hok & Hout).
  by exists v, v'.
Qed.

(** A key of the validated payload comes from the entry of the schema with
    that key: its value is what the validator of the entry returned. *)
Lemma validate_values_origin schema (d : gmap string PyValue) out bad k v' :
  validate_values schema d = Ok (out, bad) →
  out !! k = Some v' →
  ∃ marker validator v,
    (marker, validator) ∈ schema ∧ marker_key marker = k
    ∧ d !! k = Some v ∧ validator v = Ok v'.
Proof.
  revert out bad. induction schema as [|[marker validator] schema IH]; intros out bad Hrun Hout.
  - cbn in Hrun. injection Hrun as <- _. by rewrite lookup_empty in Hout.
  - cbn in Hrun.
    assert (Hrest : ∀ out0 bad0, validate_values schema d = Ok (out0, bad0) →
                      out0 !! k = Some v' →
                      ∃ marker0 validator0 v,
                        (marker0, validator0) ∈ (marker, validator) :: schema
                        ∧ marker_key marker0 = k ∧ d !! k = Some v ∧ validator0 v = Ok v').
    { intros out0 bad0 H0 Hk. destruct (IH out0 bad0 H0 Hk) as (m0 & v0 & v & Hin & ?).
      exists m0, v0, v. split; [by right|done]. }
    destruct (d !! marker_key marker) as [v|] eqn:Hv; [|by eapply Hrest].
    destruct (validator v) as [v1|exc] eqn:Hok.
    + destruct (validate_values schema d) as [[out0 bad0]|e]; [|discriminate].
      cbn in Hrun. injection Hrun as <- <-.
      destruct (decide (marker_key marker = k)) as [<-|Hne].
      * rewrite lookup_insert_eq in Hout. injection Hout as <-.
        exists marker, validator, v. split; [left|done].
      * rewrite lookup_insert_ne in Hout by done. by eapply Hrest.
    + destruct exc; try discriminate;
        destruct (validate_values schema d) as [[out0 bad0]|e]; try discriminate;
        cbn in Hrun; injection Hrun as <- <-; by eapply Hrest.
Qed.

Section SchemaGuarantees.
Context `{Platform}.

Lemma NoDup_schema_keys name : NoDup (schema_keys (schema_of name)).
Proof. destruct name; apply (bool_decide_unpack _); vm_compute; exact I. Qed.

(** X12.  A payload that passes the schema of a service holds every key
    the handler of that service reads with [service.data[key]]. *)
Theorem validated_payload_has_indexed_keys name d out key :
  vol_Schema (schema_of name) d = Ok out →
  key ∈ indexed_keys name →
  is_Some (out !! key).
Proof.
  intros Hvalid Hkey.
  assert (∃ marker validator,
            (marker, validator) ∈ schema_of name
            ∧ marker_required marker = true ∧ marker_key marker = key)
    as (marker & validator & Hin & Hrequired & <-).
  { destruct name; cbn in Hkey; rewrite ?elem_of_cons, elem_of_nil in Hkey;
      repeat (destruct Hkey as [-> | Hkey]); try done;
      cbn [schema_of];
      unfold SCHEMA_SERVICE_SET_VARIABLE_VALUE, SCHEMA_SERVICE_ENABLE_AWAY_MODE_BY_CALENDAR,
        SCHEMA_SERVICE_DISABLE_AWAY_MODE, SCHEMA_SERVICE_SET_INSTALL_MODE,
        SCHEMA_SERVICE_SET_DEVICE_VALUE, SCHEMA_SERVICE_PUT_PARAMSET;
      first
        [ eexists _, _; split; [left|]; split; reflexivity
        | eexists _, _; split; [right; left|]; split; reflexivity
        | eexists _, _; split; [right; right; left|]; split; reflexivity
        | eexists _, _; split; [right; right; right; left|]; split; reflexivity ]. }
  destruct (vol_Schema_required _ _ _ _ _ (NoDup_schema_keys name) Hvalid Hin Hrequired)
    as (v & v' & _ & _ & Hout).
  by eexists.
Qed.

Lemma vol_Coerce_ok {A} (type : PyValue → result A) v a :
  vol_Coerce type v = Ok a → type v = Ok a.
Proof. unfold vol_Coerce. by destruct (type v) as [?|[]]. Qed.

Lemma returning_ok {A} (inj : A → PyValue) (validator : PyValue → result A) v v' :
  returning inj validator v = Ok v' → ∃ a, validator v = Ok a ∧ v' = inj a.
Proof.
  unfold returning, result_map, result_bind. destruct (validator v) as [a|]; [|discriminate].
  intros [= <-]. by exists a.
Qed.

Lemma upper_cased_ok v v' :
  returning VStr (vol_All cv_string vol_Upper) v = Ok v' →
  ∃ s, cv_string v = Ok s ∧ v' = VStr (str_upper s).
Proof.
  intros Hok. apply returning_ok in Hok as (a & Hok & ->).
  unfold vol_All, vol_Upper, result_bind in Hok.
  destruct (cv_string v) as [s|]; [|discriminate]. injection Hok as <-. by exists s.
Qed.

Lemma vol_In_str_ok container v v' :
  vol_In_str container v = Ok v' → v' = v ∧ ∃ s, s ∈ container ∧ v = VStr s.
Proof.
  unfold vol_In_str. destruct (existsb (py_eq_str v) container) eqn:Hin; [|discriminate].
  intros [= <-]. split; [done|].
  apply existsb_exists in Hin as (s & Hs & Heq). exists s. split; [by apply list_elem_of_In|].
  destruct v; try discriminate. cbn in Heq. apply String.eqb_eq in Heq. by subst.
Qed.

(** An optional key without default is absent from the validated payload
    or carries what its validator returned. *)
Lemma vol_Schema_optional schema d out key :
  vol_Schema schema d = Ok out →
  out !! key = None
  ∨ ∃ marker validator v v',
      (marker, validator) ∈ schema ∧ marker_key marker = key
      ∧ validator v = Ok v' ∧ out !! key = Some v'.
Proof.
  intros Hvalid. destruct (vol_Schema_inv _ _ _ Hvalid) as [Hvalues _].
  destruct (out !! key) as [v'|] eqn:Hout; [|by left]. right.
  destruct (validate_values_origin _ _ _ _ _ _ Hvalues Hout)
    as (marker & validator & v & Hin & Hkey & _ & Hok).
  by exists marker, validator, v, v'.
Qed.

Local Tactic Notation "schema_entry" integer(n) := do n right; left.

(** X13.  A payload that passes the schema of [set_device_value] has a
    string as device id, an integer as channel (the conversion of the
    channel given, or of 1), an upper-cased string as parameter, the value
    as it was given, and as value type nothing or one of the five admitted
    strings; [rx_mode], if any, is an upper-cased string. *)
Theorem validated_set_device_value d out :
  vol_Schema SCHEMA_SERVICE_SET_DEVICE_VALUE d = Ok out →
  (∃ s, out !! ATTR_DEVICE_ID = Some (VStr s))
  ∧ (∃ z, out !! ATTR_CHANNEL = Some (VInt z)
          ∧ py_int (default (VInt DEFAULT_CHANNEL) (d !! ATTR_CHANNEL)) = Ok z)
  ∧ (∃ s, out !! ATTR_PARAMETER = Some (VStr (str_upper s)))
  ∧ (is_Some (d !! ATTR_VALUE) ∧ out !! ATTR_VALUE = d !! ATTR_VALUE)
  ∧ dict_get out ATTR_VALUE_TYPE
    ∈ [VNone; VStr "boolean"; VStr "dateTime.iso8601"; VStr "double"; VStr "int";
       VStr "string"]
  ∧ (out !! ATTR_RX_MODE = None ∨ ∃ s, out !! ATTR_RX_MODE = Some (VStr (str_upper s))).
Proof.
  intros Hvalid.
  pose proof (NoDup_schema_keys SET_DEVICE_VALUE_SCHEMA) as Hnodup. cbn [schema_of] in Hnodup.
  refine (conj _ (conj _ (conj _ (conj _ (conj _ _))))).
  - destruct (vol_Schema_required _ _ _ (Required ATTR_DEVICE_ID) _ Hnodup Hvalid
                ltac:(schema_entry 0) eq_refl) as (v & v' & _ & Hok & Hout).
    apply returning_ok in Hok as (s & _ & ->). by exists s.
  - destruct (vol_Schema_required _ _ _ (Required_default ATTR_CHANNEL (VInt DEFAULT_CHANNEL)) _
                Hnodup Hvalid ltac:(schema_entry 1) eq_refl) as (v & v' & Hv & Hok & Hout).
    apply returning_ok in Hok as (z & Hok & ->). apply vol_Coerce_ok in Hok.
    exists z. split; [done|]. cbn [marker_key marker_default Required_default] in Hv.
    destruct (d !! ATTR_CHANNEL); injection Hv as <-; exact Hok.
  - destruct (vol_Schema_required _ _ _ (Required ATTR_PARAMETER) _ Hnodup Hvalid
                ltac:(schema_entry 2) eq_refl) as (v & v' & _ & Hok & Hout).
    apply upper_cased_ok in Hok as (s & _ & ->). by exists s.
  - destruct (vol_Schema_required _ _ _ (Required ATTR_VALUE) _ Hnodup Hvalid
                ltac:(schema_entry 3) eq_refl) as (v & v' & Hv & Hok & Hout).
    cbn [marker_key marker_default Required] in Hv. injection Hok as <-.
    destruct (d !! ATTR_VALUE) as [v0|]; [|discriminate]. injection Hv as ->.
    split; [by eexists | done].
  - unfold dict_get.
    destruct (vol_Schema_optional _ _ _ ATTR_VALUE_TYPE Hvalid)
      as [-> | (marker & validator & v & v' & Hin & Hkey & Hok & ->)]; [left|].
    cbn [default]. unfold SCHEMA_SERVICE_SET_DEVICE_VALUE in Hin.
    repeat (apply elem_of_cons in Hin as [[= -> ->] | Hin]); try discriminate;
      [|by apply elem_of_nil in Hin].
    apply vol_In_str_ok in Hok as (-> & s & Hs & ->).
    rewrite !elem_of_cons, elem_of_nil in Hs. rewrite !elem_of_cons.
    naive_solver.
  - destruct (vol_Schema_optional _ _ _ ATTR_RX_MODE Hvalid)
      as [-> | (marker & validator & v & v' & Hin & Hkey & Hok & ->)]; [by left|right].
    unfold SCHEMA_SERVICE_SET_DEVICE_VALUE in Hin.
    repeat (apply elem_of_cons in Hin as [[= -> ->] | Hin]); try discriminate;
      [|by apply elem_of_nil in Hin].
    apply upper_cased_ok in Hok as (s & _ & ->). by exists s.
Qed.

(** A payload that passes the schema of [put_paramset] carries its paramset
    unchanged, and it is a dict; the device id is a string, the channel an
    integer and the paramset key an upper-cased string. *)
Lemma vol_Schema_put_paramset d out :
  vol_Schema SCHEMA_SERVICE_PUT_PARAMSET d = Ok out →
  (∃ items, d !! ATTR_PARAMSET = Some (VDict items)
            ∧ out !! ATTR_PARAMSET = Some (VDict items))
  ∧ (∃ s, out !! ATTR_DEVICE_ID = Some (VStr s))
  ∧ (∃ z, out !! ATTR_CHANNEL = Some (VInt z)
          ∧ py_int (default (VInt DEFAULT_CHANNEL) (d !! ATTR_CHANNEL)) = Ok z)
  ∧ (∃ s, out !! ATTR_PARAMSET_KEY = Some (VStr (str_upper s))).
Proof.
  intros Hvalid.
  pose proof (NoDup_schema_keys PUT_PARAMSET_SCHEMA) as Hnodup. cbn [schema_of] in Hnodup.
  refine (conj _ (conj _ (conj _ _))).
  - destruct (vol_Schema_required _ _ _ (Required ATTR_PARAMSET) _ Hnodup Hvalid
                ltac:(schema_entry 3) eq_refl) as (v & v' & Hv & Hok & Hout).
    cbn [marker_key marker_default Required] in Hv.
    destruct (d !! ATTR_PARAMSET) as [v0|]; [|discriminate]. injection Hv as ->.
    unfold vol_dict in Hok. destruct v; try discriminate. injection Hok as <-.
    by eexists.
  - destruct (vol_Schema_required _ _ _ (Required ATTR_DEVICE_ID) _ Hnodup Hvalid
                ltac:(schema_entry 0) eq_refl) as (v & v' & _ & Hok & Hout).
    apply returning_ok in Hok as (s & _ & ->). by exists s.
  - destruct (vol_Schema_required _ _ _ (Required_default ATTR_CHANNEL (VInt DEFAULT_CHANNEL)) _
                Hnodup Hvalid ltac:(schema_entry 1) eq_refl) as (v & v' & Hv & Hok & Hout).
    apply returning_ok in Hok as (z & Hok & ->). apply vol_Coerce_ok in Hok.
    exists z. split; [done|]. cbn [marker_key marker_default Required_default] in Hv.
    destruct (d !! ATTR_CHANNEL); injection Hv as <-; exact Hok.
  - destruct (vol_Schema_required _ _ _ (Required ATTR_PARAMSET_KEY) _ Hnodup Hvalid
                ltac:(schema_entry 2) eq_refl) as (v & v' & _ & Hok & Hout).
    apply upper_cased_ok in Hok as (s & _ & ->). by exists s.
Qed.

(** X14.  The cast [dict(service.data[ATTR_PARAMSET])] of [put_paramset]
    works on every payload that passed the schema, as the comment in lines
    358-360 says: with [dict(...)] of a dict being that dict, the handler
    reads its four keys, casts, and goes on to the routed call with a string
    as device id, an integer as channel, an upper-cased paramset key and the
    paramset as it was given. *)
Theorem put_paramset_cast_works hass call d h :
  vol_Schema SCHEMA_SERVICE_PUT_PARAMSET d = Ok (data call) →
  (∀ items, py_dict (VDict items) = Ok items) →
  ∃ device_id channel paramset_key items,
    d !! ATTR_PARAMSET = Some (VDict items)
    ∧ py_int (default (VInt DEFAULT_CHANNEL) (d !! ATTR_CHANNEL)) = Ok channel
    ∧ data call !! ATTR_DEVICE_ID = Some (VStr device_id)
    ∧ data call !! ATTR_PARAMSET_KEY = Some (VStr (str_upper paramset_key))
    ∧ _async_service_put_paramset hass call h
      = routed_call hass (VStr device_id) (VInt channel)
          (λ interface_id channel_address,
             LOGGER_debug "Calling putParamset: %s, %s, %s, %s, %s"
               [VStr interface_id; VStr channel_address; VStr (str_upper paramset_key);
                VDict items; dict_get (data call) ATTR_RX_MODE])
          (λ control_unit interface_id channel_address,
             put_paramset control_unit interface_id channel_address
               (VStr (str_upper paramset_key)) (VDict items)
               (dict_get (data call) ATTR_RX_MODE))
          h.
Proof.
  intros Hvalid Hdict.
  destruct (vol_Schema_put_paramset _ _ Hvalid)
    as ((items & Hgiven & Hparamset) & (device_id & Hdevice) & (channel & Hchannel & Hint)
        & (paramset_key & Hkey)).
  exists device_id, channel, paramset_key, items.
  repeat (split; [done|]).
  unfold _async_service_put_paramset.
  rewrite (item_present _ _ _ _ _ Hdevice), (item_present _ _ _ _ _ Hchannel),
    (item_present _ _ _ _ _ Hkey), (item_present _ _ _ _ _ Hparamset).
  rewrite Hdict. reflexivity.
Qed.

(** X15.  A payload that passes the schema of [set_install_mode] always
    has a time and a mode (the defaults 60 and 1 are validated like given
    values), the time is a non-negative integer and the mode is 1 or 2; the
    interface id is a string and the address, if any, an upper-cased
    string. *)
Theorem validated_set_install_mode d out :
  vol_Schema SCHEMA_SERVICE_SET_INSTALL_MODE d = Ok out →
  (∃ s, out !! ATTR_INTERFACE_ID = Some (VStr s))
  ∧ (∃ z, out !! ATTR_TIME = Some (VInt z) ∧ (0 ≤ z)%Z
          ∧ py_int (default (VInt 60) (d !! ATTR_TIME)) = Ok z)
  ∧ (∃ z, out !! ATTR_MODE = Some (VInt z) ∧ (z = 1 ∨ z = 2)
          ∧ py_int (default (VInt 1) (d !! ATTR_MODE)) = Ok z)
  ∧ (out !! ATTR_ADDRESS = None ∨ ∃ s, out !! ATTR_ADDRESS = Some (VStr (str_upper s))).
Proof.
  intros Hvalid.
  pose proof (NoDup_schema_keys SET_INSTALL_MODE_SCHEMA) as Hnodup. cbn [schema_of] in Hnodup.
  refine (conj _ (conj _ (conj _ _))).
  - destruct (vol_Schema_required _ _ _ (Required ATTR_INTERFACE_ID) _ Hnodup Hvalid
                ltac:(schema_entry 0) eq_refl) as (v & v' & _ & Hok & Hout).
    apply returning_ok in Hok as (s & _ & ->). by exists s.
  - destruct (vol_Schema_provided _ d _ (Optional_default ATTR_TIME (VInt 60)) _
                (default (VInt 60) (d !! ATTR_TIME)) Hnodup Hvalid ltac:(schema_entry 1))
      as (v' & Hok & Hout).
    { cbn [marker_key marker_default Optional_default]. by destruct (d !! ATTR_TIME). }
    apply returning_ok in Hok as (z & Hok & ->). exists z. split; [done|].
    unfold cv_positive_int, vol_All, result_bind in Hok.
    destruct (vol_Coerce py_int _) as [z0|] eqn:Hint; [|discriminate].
    apply vol_Coerce_ok in Hint. unfold vol_Range_min in Hok.
    destruct (Z.leb 0 z0) eqn:Hle; [|discriminate]. cbn in Hok. injection Hok as <-.
    split; [by apply Z.leb_le | done].
  - destruct (vol_Schema_provided _ d _ (Optional_default ATTR_MODE (VInt 1)) _
                (default (VInt 1) (d !! ATTR_MODE)) Hnodup Hvalid ltac:(schema_entry 2))
      as (v' & Hok & Hout).
    { cbn [marker_key marker_default Optional_default]. by destruct (d !! ATTR_MODE). }
    apply returning_ok in Hok as (z & Hok & ->). exists z. split; [done|].
    unfold vol_All, result_bind in Hok.
    destruct (vol_Coerce py_int _) as [z0|] eqn:Hint; [|discriminate].
    apply vol_Coerce_ok in Hint. unfold vol_In_int in Hok. cbn [existsb] in Hok.
    destruct (Z.eqb z0 1) eqn:H1; cbn in Hok.
    + injection Hok as <-. apply Z.eqb_eq in H1. by split; [left|].
    + destruct (Z.eqb z0 2) eqn:H2; cbn in Hok; [|discriminate].
      injection Hok as <-. apply Z.eqb_eq in H2. by split; [right|].
  - destruct (vol_Schema_optional _ _ _ ATTR_ADDRESS Hvalid)
      as [-> | (marker & validator & v & v' & Hin & Hkey & Hok & ->)]; [by left|right].
    unfold SCHEMA_SERVICE_SET_INSTALL_MODE in Hin.
    repeat (apply elem_of_cons in Hin as [[= -> ->] | Hin]); try discriminate;
      [|by apply elem_of_nil in Hin].
    apply upper_cased_ok in Hok as (s & _ & ->). by exists s.
Qed.
End SchemaGuarantees.

(** ** Away mode for listed entities *)

Section AwayModeLists.
Context `{Platform}.

Lemma for_each_resolved hass ids (body : HmEntity → M unit) h :
  for_each ids (λ entity_id,
    match _get_entity hass entity_id with
    | Some hm_entity => body hm_entity
    | None => ret tt
    end) h
  = for_each (resolved_entities hass ids) body h.
Proof.
  unfold resolved_entities. revert h. induction ids as [|entity_id ids IH]; intros h; [done|].
  cbn [for_each omap list_omap]. destruct (_get_entity hass entity_id) as [hm_entity|].
  - cbn [for_each]. unfold mbind, M_bind, bind.
    destruct (body hm_entity h) as [h' [[]|exc]]; [apply IH|done].
  - rewrite ret_bind. apply IH.
Qed.

Lemma _disable_away_mode_run entity h :
  (∀ h e, backend_raises h e = None) →
  _disable_away_mode entity h = (h ++ disable_events entity, Ok tt).
Proof.
  intros Hquiet. unfold _disable_away_mode, disable_events.
  destruct (isinstance_IPThermostat (entity_class entity)); cbn [negb].
  - unfold mbind, M_bind, bind, await_backend, emit. rewrite Hquiet.
    by rewrite <- !app_assoc.
  - unfold ret. by rewrite app_nil_r.
Qed.

Lemma for_entities_listed hass entity_ids body h :
  py_eq_str entity_ids "all" = false →
  for_entities hass entity_ids body h
  = match py_iter entity_ids with
    | Ok ids => for_each (resolved_entities hass ids) body h
    | Raise exc => (h, Raise exc)
    end.
Proof.
  intros Hlisted. unfold for_entities. rewrite Hlisted.
  destruct (py_iter entity_ids) as [ids|exc]; [|done].
  cbn [lift]. rewrite ret_bind. apply for_each_resolved.
Qed.

(** X16.  [enable_away_mode_by_calendar] for entity ids other than the
    literal ["all"]: the ids are taken in their order, each is resolved by
    [_get_entity], an id that resolves to nothing is skipped, and while the
    backend does not raise every resolved thermostat gets its call, log line
    and sleep; entity ids that cannot be iterated end the handler with the
    error of the iteration before anything happens. *)
Theorem enable_away_mode_by_calendar_listed hass call entity_ids start end_ away_temperature h :
  data call !! ATTR_ENTITY_ID = Some entity_ids →
  data call !! ATTR_AWAY_START_TIME = Some start →
  data call !! ATTR_AWAY_END_TIME = Some end_ →
  data call !! ATTR_AWAY_SET_POINT_TEMPERATURE = Some away_temperature →
  py_eq_str entity_ids "all" = false →
  (∀ exc, py_iter entity_ids = Raise exc →
     _async_service_enable_away_mode_by_calendar hass call h = (h, Raise exc))
  ∧ (∀ ids, py_iter entity_ids = Ok ids →
       (∀ h e, backend_raises h e = None) →
       _async_service_enable_away_mode_by_calendar hass call h
       = (h ++ concat (enable_events start end_ away_temperature
                         <$> resolved_entities hass ids),
          Ok tt)).
Proof.
  intros Hids Hstart Hend Htemp Hlisted.
  assert (Hrun : _async_service_enable_away_mode_by_calendar hass call h
                 = for_entities hass entity_ids
                     (_enable_away_mode_by_calendar start end_ away_temperature) h).
  { unfold _async_service_enable_away_mode_by_calendar.
    by rewrite (item_present _ _ _ _ _ Hids), (item_present _ _ _ _ _ Hstart),
      (item_present _ _ _ _ _ Hend), (item_present _ _ _ _ _ Htemp). }
  rewrite Hrun, (for_entities_listed _ _ _ _ Hlisted). split.
  - by intros exc ->.
  - intros ids -> Hquiet. apply for_each_run.
    intros entity h0. by apply _enable_away_mode_by_calendar_run.
Qed.

(** X17.  [disable_away_mode], while the backend does not raise: for the
    literal ["all"] the climate entities of all control units are taken in
    enumeration order, for other entity ids the entities they resolve to in
    the order of the ids; every thermostat among them gets
    [disable_away_mode()], the log line and a sleep of one second, and any
    other entity nothing. *)
Theorem disable_away_mode_events hass call entity_ids h :
  data call !! ATTR_ENTITY_ID = Some entity_ids →
  (∀ h e, backend_raises h e = None) →
  (entity_ids = VStr "all" →
     _async_service_disable_away_mode hass call h
     = (h ++ concat (disable_events <$> climate_entities hass), Ok tt))
  ∧ (∀ ids, py_eq_str entity_ids "all" = false → py_iter entity_ids = Ok ids →
       _async_service_disable_away_mode hass call h
       = (h ++ concat (disable_events <$> resolved_entities hass ids), Ok tt)).
Proof.
  intros Hids Hquiet. unfold _async_service_disable_away_mode.
  rewrite (item_present _ _ _ _ _ Hids). split.
  - intros ->. unfold for_entities. cbn [py_eq_str String.eqb Ascii.eqb Bool.eqb].
    rewrite _get_entities_by_platform_climate. apply for_each_run.
    intros entity h0. by apply _disable_away_mode_run.
  - intros ids Hlisted Hiter. rewrite (for_entities_listed _ _ _ _ Hlisted), Hiter.
    apply for_each_run. intros entity h0. by apply _disable_away_mode_run.
Qed.

Lemma for_each_app {A} (l1 l2 : list A) (body : A → M unit) h :
  for_each (l1 ++ l2) body h
  = match for_each l1 body h with
    | (h', Ok _) => for_each l2 body h'
    | (h', Raise exc) => (h', Raise exc)
    end.
Proof.
  revert h. induction l1 as [|x l1 IH]; intros h; [done|].
  cbn [app for_each]. unfold mbind, M_bind, bind.
  destruct (body x h) as [h' [[]|exc]]; [apply IH|done].
Qed.

Lemma for_each_run_in {A} (l : list A) (body : A → M unit) (events : A → list Event) h :
  (∀ x h, x ∈ l → body x h = (h ++ events x, Ok tt)) →
  for_each l body h = (h ++ concat (events <$> l), Ok tt).
Proof.
  revert h. induction l as [|x l IH]; intros h Hbody; cbn.
  - unfold ret. by rewrite app_nil_r.
  - unfold mbind, M_bind, bind. rewrite Hbody by left.
    rewrite IH by (intros y h0 Hy; apply Hbody; by right). by rewrite <- app_assoc.
Qed.

(** X18.  A batch stops at the first thermostat whose backend call raises:
    with ["all"], the entities enumerated before it have had their calls,
    the failing call is the last event, no entity after it is touched, and
    the handler ends with the exception. *)
Theorem enable_away_mode_by_calendar_stops hass call start end_ away_temperature
    before entity after exc h :
  data call !! ATTR_ENTITY_ID = Some (VStr "all") →
  data call !! ATTR_AWAY_START_TIME = Some start →
  data call !! ATTR_AWAY_END_TIME = Some end_ →
  data call !! ATTR_AWAY_SET_POINT_TEMPERATURE = Some away_temperature →
  climate_entities hass = before ++ entity :: after →
  isinstance_IPThermostat (entity_class entity) = true →
  (∀ x h0, x ∈ before →
     backend_raises h0 (enable_away_mode_by_calendar x start end_ away_temperature) = None) →
  (∀ h0, backend_raises h0 (enable_away_mode_by_calendar entity start end_ away_temperature)
         = Some exc) →
  _async_service_enable_away_mode_by_calendar hass call h
  = (h ++ concat (enable_events start end_ away_temperature <$> before)
       ++ [enable_away_mode_by_calendar entity start end_ away_temperature],
     Raise exc).
Proof.
  intros Hids Hstart Hend Htemp Hentities Hthermostat Hquiet Hraises.
  unfold _async_service_enable_away_mode_by_calendar.
  rewrite (item_present _ _ _ _ _ Hids), (item_present _ _ _ _ _ Hstart),
    (item_present _ _ _ _ _ Hend), (item_present _ _ _ _ _ Htemp).
  unfold for_entities. cbn [py_eq_str String.eqb Ascii.eqb Bool.eqb].
  rewrite _get_entities_by_platform_climate, Hentities, for_each_app.
  rewrite (for_each_run_in before _ (enable_events start end_ away_temperature)).
  - cbn [for_each]. unfold mbind, M_bind, bind.
    unfold _enable_away_mode_by_calendar at 1. rewrite Hthermostat. cbn [negb].
    unfold mbind, M_bind, bind, await_backend. rewrite Hraises.
    by rewrite <- app_assoc.
  - intros x h0 Hx. unfold _enable_away_mode_by_calendar, enable_events.
    destruct (isinstance_IPThermostat (entity_class x)); cbn [negb].
    + unfold mbind, M_bind, bind, await_backend, emit. rewrite (Hquiet x _ Hx).
      by rewrite <- !app_assoc.
    + unfold ret. by rewrite app_nil_r.
Qed.
End AwayModeLists.

(** ** A service call from registration to handler *)

Section ServiceCalls.
Context `{Platform}.

Lemma async_call_hahm_service_handler_of name hass call h :
  service call = service_name_of name →
  async_call_hahm_service hass call h = handler_of name hass call h.
Proof.
  intros Hname. unfold async_call_hahm_service, call_hahm_service. rewrite Hname.
  destruct name; cbn [service_name_of handler_of];
    match goal with
    | |- context [String.eqb ?a ?b] => idtac
    end;
    repeat match goal with
    | |- context [String.eqb ?a ?b] =>
        let c := eval vm_compute in (String.eqb a b) in
        change (String.eqb a b) with c; cbv iota
    end;
    rewrite ?ret_bind, ?bind_ret_tt; reflexivity.
Qed.

(** X19.  After [async_setup_services] on an instance without services of
    the domain, a call of any of the six services is validated by the schema
    of that service, passes the permission checks (for [set_install_mode]
    the administrator check first) and runs the handler of that service on
    the validated payload; a refused payload or a refused caller ends the
    call with the exception before anything happens. *)
Theorem async_call_after_setup hass name call h :
  domain_services_registered hass = false →
  service call = service_name_of name →
  async_call (async_setup_services hass) DOMAIN call h
  = match vol_Schema (schema_of name) (data call) with
    | Raise exc => (h, Raise exc)
    | Ok processed_data =>
        let validated := mk_call (service call) processed_data (context_user_id call) in
        match permission_denied name validated with
        | Some exc => (h, Raise exc)
        | None => handler_of name (async_setup_services hass) validated h
        end
    end.
Proof.
  intros Hfresh Hname.
  assert (Hreg : registration (async_setup_services hass) DOMAIN (service call)
                 = Some (mk_service
                           match name with
                           | SET_INSTALL_MODE_SCHEMA => admin_service_func
                           | _ => hahm_service_func
                           end name)).
  { rewrite (registration_async_setup_services _ _ _ Hfresh), Hname.
    destruct name; cbn [service_name_of];
      repeat (case_decide as Hcase;
              [ try (exfalso; destruct Hcase as [_ Hcase]; vm_compute in Hcase;
                     discriminate Hcase)
              | try (exfalso; apply Hcase; split; reflexivity) ]);
      reflexivity. }
  unfold async_call.
  change (services (async_setup_services hass) !! DOMAIN
            ≫= (λ registered, registered !! service call))
    with (registration (async_setup_services hass) DOMAIN (service call)).
  rewrite Hreg. cbn [service_schema service_func].
  unfold mbind, M_bind, bind.
  destruct (vol_Schema (schema_of name) (data call)) as [processed_data|exc];
    cbn [lift ret raise]; [|reflexivity].
  cbv zeta.
  set (validated := mk_call (service call) processed_data (context_user_id call)).
  assert (Hrun : verify_domain_control (async_call_hahm_service (async_setup_services hass))
                   validated h
                 = match domain_control_denied validated with
                   | Some exc => (h, Raise exc)
                   | None => handler_of name (async_setup_services hass) validated h
                   end).
  { unfold verify_domain_control. destruct (domain_control_denied validated); [reflexivity|].
    by apply async_call_hahm_service_handler_of. }
  destruct name; cbn [run_service_func permission_denied]; try exact Hrun.
  unfold admin_handler. by destruct (admin_denied validated).
Qed.

(** X20.  After [async_unload_services] with no control unit left, a call
    of a service named in [HAHM_SERVICES] finds no registration: it ends
    with [ServiceNotFound] and nothing happens. *)
Theorem async_call_after_unload hass call h :
  hass_data hass = [] →
  service call ∈ HAHM_SERVICES →
  async_call (async_unload_services hass) DOMAIN call h = (h, Raise ServiceNotFound).
Proof.
  intros Hnone Hname. unfold async_call.
  change (services (async_unload_services hass) !! DOMAIN
            ≫= (λ registered, registered !! service call))
    with (registration (async_unload_services hass) DOMAIN (service call)).
  rewrite (registration_async_unload_services _ _ _ Hnone).
  by rewrite decide_True.
Qed.
End ServiceCalls.

(** ** The further examples *)

(** [set_variable_value] for the hub of the example reaches that hub. *)
Lemma set_variable_value_on_hub_witness :
  _async_service_set_variable_value (H := example_platform) example_hass set_presence []
  = ([async_set_variable (mk_hub "sensor.ccu") (VStr "presence") (VBool true)], Ok tt).
Proof.
  destruct (set_variable_value_on_hub (H := example_platform) example_hass set_presence
              (VStr "sensor.ccu") (VStr "presence") (VBool true) [] eq_refl eq_refl eq_refl)
    as [[_ Hnone] | (hb & Heq & _ & Hrun)].
  - exfalso. apply (Hnone "entry-1" example_control_unit (mk_hub "sensor.ccu")).
    + left.
    + reflexivity.
    + reflexivity.
  - destruct hb as [hub_id]. injection Heq as <-. exact Hrun.
Defined.

(** [set_install_mode] with the interface id alone: 60 seconds, mode 1, no
    device address, on the control unit of the interface. *)
Lemma set_install_mode_on_interface_witness :
  _async_service_set_install_mode (H := example_platform) example_hass enter_install_mode []
  = ([set_install_mode example_control_unit (VStr "BidCos-RF") (VInt 60) (VInt 1) VNone],
     Ok tt).
Proof.
  destruct (set_install_mode_on_interface (H := example_platform) example_hass
              enter_install_mode "BidCos-RF" [] eq_refl)
    as [[_ Hnone] | (entry_id & control_unit & Hin & _ & Hrun)].
  - exfalso. apply Hnone. exists "entry-1", example_control_unit, (mk_client "BidCos-RF").
    split; [left | reflexivity].
  - apply list_elem_of_singleton in Hin. injection Hin as -> ->. exact Hrun.
Defined.

(** [enable_away_mode_by_calendar] with the entity id alone stops at the
    start time. *)
Lemma handler_missing_key_witness :
  _async_service_enable_away_mode_by_calendar (H := example_platform)
    example_hass disable_away_window []
  = ([], Raise (KeyError ATTR_AWAY_START_TIME)).
Proof.
  apply (handler_missing_key (H := example_platform) ENABLE_AWAY_MODE_BY_CALENDAR_SCHEMA
           example_hass disable_away_window [ATTR_ENTITY_ID] ATTR_AWAY_START_TIME
           [ATTR_AWAY_END_TIME; ATTR_AWAY_SET_POINT_TEMPERATURE] []).
  - reflexivity.
  - intros k Hk. apply list_elem_of_singleton in Hk. subst k. eexists. reflexivity.
  - reflexivity.
Defined.

(** The payload as written, validated: the channel is there. *)
Lemma validated_payload_has_indexed_keys_witness :
  is_Some (set_level_validated !! ATTR_CHANNEL).
Proof.
  apply (validated_payload_has_indexed_keys (H := example_platform)
           SET_DEVICE_VALUE_SCHEMA set_level_as_written).
  - vm_compute. reflexivity.
  - right. left.
Defined.

(** The payload as written, validated: the channel is the default, and the
    parameter is in upper case. *)
Lemma validated_set_device_value_witness :
  (∃ z, set_level_validated !! ATTR_CHANNEL = Some (VInt z)
        ∧ py_int (Platform := example_platform)
            (default (VInt DEFAULT_CHANNEL) (set_level_as_written !! ATTR_CHANNEL)) = Ok z)
  ∧ (∃ s, set_level_validated !! ATTR_PARAMETER
          = Some (VStr (str_upper (Platform := example_platform) s))).
Proof.
  destruct (validated_set_device_value (H := example_platform)
              set_level_as_written set_level_validated)
    as (_ & Hchannel & Hparameter & _).
  - vm_compute. reflexivity.
  - exact (conj Hchannel Hparameter).
Defined.

(** The payload of [put_master_paramset] passes its schema as it is, and
    the handler goes on to the routed call. *)
Lemma put_paramset_cast_works_witness :
  ∃ device_id channel paramset_key items,
    data put_master_paramset !! ATTR_PARAMSET = Some (VDict items)
    ∧ py_int (Platform := example_platform)
        (default (VInt DEFAULT_CHANNEL) (data put_master_paramset !! ATTR_CHANNEL)) = Ok channel
    ∧ data put_master_paramset !! ATTR_DEVICE_ID = Some (VStr device_id)
    ∧ data put_master_paramset !! ATTR_PARAMSET_KEY
      = Some (VStr (str_upper (Platform := example_platform) paramset_key))
    ∧ _async_service_put_paramset (H := example_platform) nameless_hass put_master_paramset []
      = routed_call (H := example_platform) nameless_hass (VStr device_id) (VInt channel)
          (λ interface_id channel_address,
             LOGGER_debug "Calling putParamset: %s, %s, %s, %s, %s"
               [VStr interface_id; VStr channel_address;
                VStr (str_upper (Platform := example_platform) paramset_key);
                VDict items; dict_get (data put_master_paramset) ATTR_RX_MODE])
          (λ control_unit interface_id channel_address,
             put_paramset control_unit interface_id channel_address
               (VStr (str_upper (Platform := example_platform) paramset_key)) (VDict items)
               (dict_get (data put_master_paramset) ATTR_RX_MODE))
          [].
Proof.
  apply (put_paramset_cast_works (H := example_platform)
           nameless_hass put_master_paramset (data put_master_paramset) []).
  - vm_compute. reflexivity.
  - intros items. reflexivity.
Defined.

(** The interface id alone, validated: 60 seconds and mode 1. *)
Lemma validated_set_install_mode_witness :
  (∃ z, install_mode_validated !! ATTR_TIME = Some (VInt z) ∧ (0 ≤ z)%Z
        ∧ py_int (Platform := example_platform)
            (default (VInt 60) (data enter_install_mode !! ATTR_TIME)) = Ok z)
  ∧ (∃ z, install_mode_validated !! ATTR_MODE = Some (VInt z) ∧ (z = 1 ∨ z = 2)
          ∧ py_int (Platform := example_platform)
              (default (VInt 1) (data enter_install_mode !! ATTR_MODE)) = Ok z).
Proof.
  destruct (validated_set_install_mode (H := example_platform)
              (data enter_install_mode) install_mode_validated)
    as (_ & Htime & Hmode & _).
  - vm_compute. reflexivity.
  - exact (conj Htime Hmode).
Defined.

(** Of a thermostat, an unknown entity and a window contact, the thermostat
    gets the call. *)
Lemma enable_away_mode_by_calendar_listed_witness :
  _async_service_enable_away_mode_by_calendar (H := example_platform)
    example_hass enable_away_listed []
  = ([ enable_away_mode_by_calendar living_room
         (VDateTime new_year) (VDateTime twelfth_night) (VFloat 18.0);
       LOGGER_debug "Calling enable_away_mode_by_calendar: %s, %s, %s, %s"
         [VStr "Living room"; VDateTime new_year; VDateTime twelfth_night; VFloat 18.0];
       asyncio_sleep 1 ],
     Ok tt).
Proof.
  apply (proj2 (enable_away_mode_by_calendar_listed (H := example_platform)
                  example_hass enable_away_listed
                  (VList [VStr "climate.living_room"; VStr "climate.unknown";
                          VStr "binary_sensor.window"])
                  (VDateTime new_year) (VDateTime twelfth_night) (VFloat 18.0) []
                  eq_refl eq_refl eq_refl eq_refl eq_refl)
           [VStr "climate.living_room"; VStr "climate.unknown"; VStr "binary_sensor.window"]).
  - reflexivity.
  - reflexivity.
Defined.

(** [disable_away_mode] for all entities of the example reaches the
    thermostat. *)
Lemma disable_away_mode_events_witness :
  _async_service_disable_away_mode (H := example_platform) example_hass disable_away_all []
  = ([ disable_away_mode living_room;
       LOGGER_debug "Calling disable_away_mode: %s" [VStr "Living room"];
       asyncio_sleep 1 ],
     Ok tt).
Proof.
  apply (proj1 (disable_away_mode_events (H := example_platform)
                  example_hass disable_away_all (VStr "all") [] eq_refl (λ _ _, eq_refl))).
  reflexivity.
Defined.

(** Of three thermostats, the first has its away mode, the second fails,
    and the third is never asked. *)
Lemma enable_away_mode_by_calendar_stops_witness :
  _async_service_enable_away_mode_by_calendar (H := failing_bedroom_platform)
    three_room_hass (enable_away_all (Some (VFloat 18.0))) []
  = ([ enable_away_mode_by_calendar living_room
         (VDateTime new_year) (VDateTime twelfth_night) (VFloat 18.0);
       LOGGER_debug "Calling enable_away_mode_by_calendar: %s, %s, %s, %s"
         [VStr "Living room"; VDateTime new_year; VDateTime twelfth_night; VFloat 18.0];
       asyncio_sleep 1;
       enable_away_mode_by_calendar bedroom
         (VDateTime new_year) (VDateTime twelfth_night) (VFloat 18.0) ],
     Raise (BackendError "enable_away_mode_by_calendar")).
Proof.
  apply (enable_away_mode_by_calendar_stops (H := failing_bedroom_platform)
           three_room_hass (enable_away_all (Some (VFloat 18.0)))
           (VDateTime new_year) (VDateTime twelfth_night) (VFloat 18.0)
           [living_room] bedroom [hallway]
           (BackendError "enable_away_mode_by_calendar") []).
  - reflexivity.
  - reflexivity.
  - reflexivity.
  - reflexivity.
  - reflexivity.
  - reflexivity.
  - intros x h0 Hx. apply list_elem_of_singleton in Hx. subst x. reflexivity.
  - intros h0. reflexivity.
Defined.

(** A [set_device_value] call on the example instance, from the registry to
    the backend. *)
Lemma async_call_after_setup_witness :
  async_call (H := example_platform) example_hass DOMAIN set_level_5 []
  = ([ LOGGER_debug "Calling setValue: %s, %s, %s, %s, %s, %s"
         [VStr "BidCos-RF"; VStr "ADDR:1"; VStr "LEVEL"; VInt 5; VStr "int"; VNone];
       set_value example_control_unit "BidCos-RF" "ADDR:1" (VStr "LEVEL") (VInt 5) VNone ],
     Ok tt).
Proof.
  change example_hass with (async_setup_services bare_hass).
  rewrite (async_call_after_setup (H := example_platform) bare_hass SET_DEVICE_VALUE_SCHEMA
             set_level_5 [] eq_refl eq_refl).
  vm_compute. reflexivity.
Defined.

(** After teardown, [put_paramset] is no service any more. *)
Lemma async_call_after_unload_witness :
  async_call (H := example_platform)
    (async_unload_services (async_setup_services empty_hass)) DOMAIN put_master_paramset []
  = ([], Raise ServiceNotFound).
Proof.
  apply (async_call_after_unload (H := example_platform)
           (async_setup_services empty_hass) put_master_paramset []).
  - reflexivity.
  - apply (bool_decide_unpack _). vm_compute. exact I.
Defined.
